(** * terraform-provider-microsoft-adcs: provider, certificate resource and
      certificate data source

    A shallow embedding of the three Go files of package [provider]
    (provider.go, the certificate resource and the certificate data source)
    and of the few library functions they call, followed by the properties
    of the embedding.

    Conventions.
    - A Go [string] is a [String.string] (a sequence of bytes).
    - A [types.String] of the plugin framework is [TString]: null, unknown or
      a known value.
    - Each operation mutates its response and calls out to collaborators
      (the ADCS client, the operating system, the clock, the logger, the
      framework's state).  It is embedded in the monad [Op]: the response is
      threaded as state, every call out is appended to a call log, and a Go
      [return] in the middle of a body is the outcome [Returned]. *)

From Stdlib Require Import String Ascii List ZArith NArith Bool Lia.
From Stdlib Require Import DecimalString.
Import ListNotations.
Local Open Scope string_scope.
Local Open Scope list_scope.

Set Implicit Arguments.

(* ================================================================= *)
(** ** Go library: package strings *)

Module strings.

(** [strings.HasPrefix s prefix]. *)
Fixpoint HasPrefix (s prefix : string) {struct prefix} : bool :=
  match prefix with
  | EmptyString => true
  | String p prefix' =>
      match s with
      | EmptyString => false
      | String c s' => Ascii.eqb c p && HasPrefix s' prefix'
      end
  end.

(** [strings.Contains s substr]. *)
Fixpoint Contains (s substr : string) : bool :=
  HasPrefix s substr ||
  match s with
  | EmptyString => false
  | String _ s' => Contains s' substr
  end.

(** The replacement loop of [strings.Replace] for a non-empty [old]:
    scan [s] from the left; at the first position where [old] starts emit
    [new] and continue after the occurrence ([skip] counts the bytes of
    the occurrence still to be passed over); [n] is the number of
    replacements still allowed, a negative [n] meaning no limit. *)
Fixpoint replaceLoop (old new : string) (n : Z) (skip : nat) (s : string)
  : string :=
  match s with
  | EmptyString => EmptyString
  | String c s' =>
      match skip with
      | S k => replaceLoop old new n k s'
      | O =>
          if (n =? 0)%Z then s
          else if HasPrefix s old
               then new ++ replaceLoop old new
                             (if (n <? 0)%Z then n else (n - 1)%Z)
                             (String.length old - 1) s'
               else String c (replaceLoop old new n O s')
      end
  end.

Definition byte_in (lo hi : N) (c : ascii) : bool :=
  (lo <=? N_of_ascii c)%N && (N_of_ascii c <=? hi)%N.

(** The width in bytes of the first rune of [s], as
    [utf8.DecodeRuneInString] reports it: the length of a well-formed
    UTF-8 encoding, and 1 for a byte that starts none or whose encoding is
    cut short or ill-formed. *)
Definition runeWidth (s : string) : nat :=
  match s with
  | EmptyString => 0
  | String c0 s1 =>
      let b := N_of_ascii c0 in
      let '(size, lo, hi) :=
        if (b <? 194)%N then (1, 0, 0)%N
        else if (b <=? 223)%N then (2, 128, 191)%N
        else if (b =? 224)%N then (3, 160, 191)%N
        else if (b =? 237)%N then (3, 128, 159)%N
        else if (b <=? 239)%N then (3, 128, 191)%N
        else if (b =? 240)%N then (4, 144, 191)%N
        else if (b <=? 243)%N then (4, 128, 191)%N
        else if (b =? 244)%N then (4, 128, 143)%N
        else (1, 0, 0)%N in
      if (size =? 1)%N then 1
      else
        match s1 with
        | EmptyString => 1
        | String c1 s2 =>
            if negb (byte_in lo hi c1) then 1
            else if (size =? 2)%N then 2
            else
              match s2 with
              | EmptyString => 1
              | String c2 s3 =>
                  if negb (byte_in 128 191 c2) then 1
                  else if (size =? 3)%N then 3
                  else
                    match s3 with
                    | EmptyString => 1
                    | String c3 _ =>
                        if negb (byte_in 128 191 c3) then 1 else 4
                    end
              end
        end
  end.

(** The same loop for the empty [old]: [new] is inserted before each rune
    and after the last one, as long as replacements remain ([copy] counts
    the bytes of the current rune still to be copied). *)
Fixpoint insertLoop (new : string) (n : Z) (copy : nat) (s : string)
  : string :=
  match s with
  | EmptyString => if (n =? 0)%Z then EmptyString else new
  | String c s' =>
      match copy with
      | S k => String c (insertLoop new n k s')
      | O =>
          if (n =? 0)%Z then s
          else
            new ++ String c
              (insertLoop new (if (n <? 0)%Z then n else (n - 1)%Z)
                 (runeWidth s - 1) s')
      end
  end.

(** [strings.Replace s old new n]: a copy of [s] with the first [n]
    non-overlapping instances of [old] replaced by [new]; all of them when
    [n < 0]. *)
Definition Replace (s old new : string) (n : Z) : string :=
  if String.eqb old new || (n =? 0)%Z then s
  else
    match old with
    | EmptyString => insertLoop new n O s
    | String _ _ => replaceLoop old new n O s
    end.

End strings.

(** The raw Go string literal [`\r`]: a backslash followed by the letter r. *)
Definition backslash_r : string := "\r".

(* ================================================================= *)
(** ** Go library: package fmt, the [%d] verb on an unsigned integer *)

Definition Sprintf_d (n : N) : string := NilEmpty.string_of_uint (N.to_uint n).

(* ================================================================= *)
(** ** Plugin framework: attribute values *)

(** [types.String]. *)
Inductive TString : Type :=
| StringNull
| StringUnknown
| StringValue (s : string).

Definition IsNull (v : TString) : bool :=
  match v with StringNull => true | _ => false end.

Definition IsUnknown (v : TString) : bool :=
  match v with StringUnknown => true | _ => false end.

(** [ValueString] is the known value, and the empty string for a null or
    unknown value. *)
Definition ValueString (v : TString) : string :=
  match v with StringValue s => s | _ => "" end.

(** [types.Bool]. *)
Inductive TBool : Type :=
| BoolNull
| BoolUnknown
| BoolValue (b : bool).

Definition ValueBool (v : TBool) : bool :=
  match v with BoolValue b => b | _ => false end.

(* ================================================================= *)
(** ** Plugin framework: diagnostics *)

Inductive Severity : Type := SeverityError | SeverityWarning.

(** A diagnostic; [AttributePath] is [Some name] for a diagnostic attached
    to [path.Root(name)]. *)
Record Diagnostic : Type := {
  DiagSeverity : Severity;
  AttributePath : option string;
  Summary : string;
  Detail : string
}.

Definition DiagnosticsT : Type := list Diagnostic.

Definition Severity_eqb (a b : Severity) : bool :=
  match a, b with
  | SeverityError, SeverityError | SeverityWarning, SeverityWarning => true
  | _, _ => false
  end.

Definition Path_eqb (a b : option string) : bool :=
  match a, b with
  | None, None => true
  | Some x, Some y => String.eqb x y
  | _, _ => false
  end.

(** [Diagnostic.Equal]. *)
Definition Diagnostic_Equal (a b : Diagnostic) : bool :=
  Severity_eqb (DiagSeverity a) (DiagSeverity b)
  && Path_eqb (AttributePath a) (AttributePath b)
  && String.eqb (Summary a) (Summary b)
  && String.eqb (Detail a) (Detail b).

Definition IsError (d : Diagnostic) : bool :=
  Severity_eqb (DiagSeverity d) SeverityError.

(** [Diagnostics.Contains]. *)
Definition Diagnostics_Contains (diags : DiagnosticsT) (d : Diagnostic) : bool :=
  existsb (Diagnostic_Equal d) diags.

(** [Diagnostics.HasError]. *)
Definition Diagnostics_HasError (diags : DiagnosticsT) : bool :=
  existsb IsError diags.

(** [Diagnostics.Append]: each incoming diagnostic is added at the end
    unless an equal one is already present. *)
Fixpoint Diagnostics_Append (diags incoming : DiagnosticsT) : DiagnosticsT :=
  match incoming with
  | [] => diags
  | d :: rest =>
      if Diagnostics_Contains diags d
      then Diagnostics_Append diags rest
      else Diagnostics_Append (diags ++ [d]) rest
  end.

Definition NewErrorDiagnostic (summary detail : string) : Diagnostic :=
  {| DiagSeverity := SeverityError; AttributePath := None;
     Summary := summary; Detail := detail |}.

Definition NewAttributeErrorDiagnostic (root summary detail : string)
  : Diagnostic :=
  {| DiagSeverity := SeverityError; AttributePath := Some root;
     Summary := summary; Detail := detail |}.

(* ================================================================= *)
(** ** The ADCS client library (external collaborator) *)

(** A Go [error]; [Error] is its message. *)
Record error : Type := { Error : string }.

(** Package [client] of the ADCS client library. *)
Module client.

(** The certificate record the client returns. *)
Record Certificate : Type := {
  ID : string;
  CertificateB64 : string;
  CertificateChainB64 : string
}.

(** [client.TemplateName] is a string type. *)
Definition TemplateName : Type := string.

(** [client.ClientConfig]. *)
Record ClientConfig : Type := {
  Host : string;
  Username : string;
  Password : string;
  Krb5Conf : string;
  Ntlm : bool
}.

(** The behaviour of a configured [client.ADCSClient]: what each of its
    two remote calls answers.  Go returns a pair (value, error); the value
    is used only when the error is nil. *)
Record ADCSClient : Type := {
  RequestCertificate :
    string -> TemplateName -> string -> Certificate + error;
  RetrieveCertificates : string -> Certificate + error
}.

End client.

(** What surrounds the provider process: the environment variables
    ([os.Getenv] answers the empty string for an unset variable), the clock
    ([time.Now] rendered with [time.RFC850]) and the client constructor
    [client.NewClient]. *)
Record World : Type := {
  Getenv : string -> string;
  Now_RFC850 : string;
  NewClient : client.ClientConfig -> client.ADCSClient + error
}.

(* ================================================================= *)
(** ** Calls out of the provider *)

Inductive LogLevel : Type := LevelInfo | LevelDebug.

Inductive Call : Type :=
| CallGetenv (key : string)
| CallNewClient (config : client.ClientConfig)
| CallRequestCertificate (csr : string) (template : client.TemplateName)
                         (attributes : string)
| CallRetrieveCertificates (id : string)
| CallTimeNow
| CallStateSet
| CallLog (level : LogLevel) (msg : string).

(** The calls that reach the remote ADCS server. *)
Definition is_remote (c : Call) : bool :=
  match c with
  | CallRequestCertificate _ _ _ | CallRetrieveCertificates _ => true
  | _ => false
  end.

Definition remote_calls (log : list Call) : list Call := filter is_remote log.

Definition is_NewClient (c : Call) : bool :=
  match c with CallNewClient _ => true | _ => false end.

Definition is_StateSet (c : Call) : bool :=
  match c with CallStateSet => true | _ => false end.

(* ================================================================= *)
(** ** The operation monad *)

(** How a statement ends: control goes on with a value, or the enclosing Go
    function has returned. *)
Inductive Outcome (A : Type) : Type :=
| Next (a : A)
| Returned.
Arguments Returned {A}.

(** A statement run on a response of type [R] and a call log. *)
Definition Op (R A : Type) : Type := R -> list Call -> Outcome A * R * list Call.

Definition ret {R A : Type} (a : A) : Op R A :=
  fun resp log => (Next a, resp, log).

Definition bind {R A B : Type} (m : Op R A) (f : A -> Op R B) : Op R B :=
  fun resp log =>
    match m resp log with
    | (Next a, resp', log') => f a resp' log'
    | (Returned, resp', log') => (Returned, resp', log')
    end.

(** Go's [return] statement. *)
Definition return_ {R A : Type} : Op R A :=
  fun resp log => (Returned, resp, log).

Definition call {R : Type} (c : Call) : Op R unit :=
  fun resp log => (Next tt, resp, log ++ [c]).

Definition get_resp {R : Type} : Op R R :=
  fun resp log => (Next resp, resp, log).

Definition modify_resp {R : Type} (f : R -> R) : Op R unit :=
  fun resp log => (Next tt, f resp, log).

Declare Scope op_scope.
Delimit Scope op_scope with op.
Notation "x <- m ;; k" := (bind m (fun x => k))
  (at level 61, m at next level, right associativity) : op_scope.
Notation "m ;; k" := (bind m (fun _ => k))
  (at level 61, right associativity) : op_scope.
Notation "'when' b 'then' m" := (if b then m else ret tt)
  (at level 60, b at next level, m at level 60) : op_scope.
Local Open Scope op_scope.

(** Running a whole function body on a response: the response it leaves and
    the calls it made, in order. *)
Definition run {R A : Type} (m : Op R A) (resp : R) : R * list Call :=
  match m resp [] with (_, resp', log) => (resp', log) end.

(* ----------------------------------------------------------------- *)
(** *** Responses *)

(** [tfsdk.State] (also the shape of [tfsdk.Plan] and [tfsdk.Config]): the
    stored value decoded into the model type [M], [None] when there is
    none, together with the schema's verdict on a model value that [Set]
    is asked to store. *)
Record tfsdk_State (M : Type) : Type := {
  Raw : option M;
  Schema_Diags : M -> DiagnosticsT
}.

(** Every response carries diagnostics. *)
Class WithDiagnostics (R : Type) : Type := {
  Diagnostics : R -> DiagnosticsT;
  with_Diagnostics : DiagnosticsT -> R -> R
}.

(** The responses of the resource and data-source operations:
    [resource.CreateResponse], [resource.ReadResponse],
    [resource.UpdateResponse], [datasource.ReadResponse]. *)
Record Response (M : Type) : Type := {
  State : tfsdk_State M;
  RespDiagnostics : DiagnosticsT
}.

#[export] Instance Response_WithDiagnostics (M : Type)
  : WithDiagnostics (Response M) := {
  Diagnostics := @RespDiagnostics M;
  with_Diagnostics d r := {| State := State r; RespDiagnostics := d |}
}.

(** [provider.ConfigureResponse]. *)
Record ConfigureResponse : Type := {
  DataSourceData : option client.ADCSClient;
  ResourceData : option client.ADCSClient;
  ConfDiagnostics : DiagnosticsT
}.

#[export] Instance ConfigureResponse_WithDiagnostics
  : WithDiagnostics ConfigureResponse := {
  Diagnostics := ConfDiagnostics;
  with_Diagnostics d r :=
    {| DataSourceData := DataSourceData r; ResourceData := ResourceData r;
       ConfDiagnostics := d |}
}.

Section ResponseOps.
Context {R : Type} `{WithDiagnostics R}.

(** [resp.Diagnostics.Append(diags...)]. *)
Definition resp_Append (diags : DiagnosticsT) : Op R unit :=
  modify_resp (fun r =>
    with_Diagnostics (Diagnostics_Append (Diagnostics r) diags) r).

(** [resp.Diagnostics.AddError(summary, detail)]. *)
Definition resp_AddError (summary detail : string) : Op R unit :=
  resp_Append [NewErrorDiagnostic summary detail].

(** [resp.Diagnostics.AddAttributeError(path.Root(root), summary, detail)]. *)
Definition resp_AddAttributeError (root summary detail : string) : Op R unit :=
  resp_Append [NewAttributeErrorDiagnostic root summary detail].

(** [resp.Diagnostics.HasError()]. *)
Definition resp_HasError : Op R bool :=
  r <- get_resp ;; ret (Diagnostics_HasError (Diagnostics r)).

End ResponseOps.

(** [resp.State.Set(ctx, val)]: the value replaces the stored one unless the
    schema raises an error; the diagnostics are handed back to the caller. *)
Definition State_Set {M : Type} (val : M) : Op (Response M) DiagnosticsT :=
  call CallStateSet ;;
  r <- get_resp ;;
  let diags := Schema_Diags (State r) val in
  (when negb (Diagnostics_HasError diags) then
     modify_resp (fun r =>
       {| State := {| Raw := Some val; Schema_Diags := Schema_Diags (State r) |};
          RespDiagnostics := RespDiagnostics r |})) ;;
  ret diags.

(** [tflog.Info] and [tflog.Debug]. *)
Definition tflog_Info {R : Type} (msg : string) : Op R unit :=
  call (CallLog LevelInfo msg).
Definition tflog_Debug {R : Type} (msg : string) : Op R unit :=
  call (CallLog LevelDebug msg).

(** [tfsdk.Plan], [tfsdk.Config] and a request's [tfsdk.State] as their
    [Get] sees them: the model value [Get] leaves in its target and the
    diagnostics it returns. *)
Record tfsdk_Data (M : Type) : Type := {
  Get_value : M;
  Get_diags : DiagnosticsT
}.

(** The remote calls, the clock and the environment, each recorded in the
    call log. *)
Definition client_RequestCertificate {R : Type} (c : client.ADCSClient)
    (csr : string) (template : client.TemplateName) (attributes : string)
  : Op R (client.Certificate + error) :=
  call (CallRequestCertificate csr template attributes) ;;
  ret (client.RequestCertificate c csr template attributes).

Definition client_RetrieveCertificates {R : Type} (c : client.ADCSClient)
    (id : string) : Op R (client.Certificate + error) :=
  call (CallRetrieveCertificates id) ;;
  ret (client.RetrieveCertificates c id).

Definition client_NewClient {R : Type} (w : World) (config : client.ClientConfig)
  : Op R (client.ADCSClient + error) :=
  call (CallNewClient config) ;;
  ret (NewClient w config).

Definition os_Getenv {R : Type} (w : World) (key : string) : Op R string :=
  call (CallGetenv key) ;;
  ret (Getenv w key).

(** [time.Now().Format(time.RFC850)]. *)
Definition time_Now_Format_RFC850 {R : Type} (w : World) : Op R string :=
  call CallTimeNow ;;
  ret (Now_RFC850 w).

(* ================================================================= *)
(** ** Plugin framework: provider data, schemas, metadata *)

(** The Go [any] a [ConfigureRequest] carries in [ProviderData]: nil, a
    [*client.ADCSClient] (itself possibly a nil pointer), or a value of
    another dynamic type, of which only the name that [%T] prints
    matters. *)
Inductive ProviderDataValue : Type :=
| ProviderDataNil
| ProviderDataClient (c : option client.ADCSClient)
| ProviderDataOther (type_name : string).

(** What the provider's [DataSourceData] and [ResourceData] are to the
    [Configure] of a data source or resource. *)
Definition as_ProviderData (d : option client.ADCSClient) : ProviderDataValue :=
  match d with
  | None => ProviderDataNil
  | Some c => ProviderDataClient (Some c)
  end.

(** What the [Configure] of a resource or data source works on: the
    [client] field of its receiver (nil until it is set) and the
    diagnostics of its response. *)
Record Configured : Type := {
  client_field : option client.ADCSClient;
  ConfiguredDiagnostics : DiagnosticsT
}.

#[export] Instance Configured_WithDiagnostics : WithDiagnostics Configured := {
  Diagnostics := ConfiguredDiagnostics;
  with_Diagnostics d r :=
    {| client_field := client_field r; ConfiguredDiagnostics := d |}
}.

(** The plan modifiers the schemas use. *)
Inductive PlanModifier : Type :=
| UseStateForUnknown
| RequiresReplace.

Inductive AttributeKind : Type := StringAttribute | BoolAttribute.

(** A schema attribute (its description is left out). *)
Record Attribute : Type := {
  Kind : AttributeKind;
  Required : bool;
  Optional : bool;
  Computed : bool;
  Sensitive : bool;
  PlanModifiers : list PlanModifier
}.

(** [schema.Schema]: the attributes by name. *)
Definition schema_Schema : Type := list (string * Attribute).

Definition attribute_names (sch : schema_Schema) : list string := map fst sch.

Definition is_RequiresReplace (m : PlanModifier) : bool :=
  match m with RequiresReplace => true | _ => false end.

(** [types.String.Equal]: the same state and, when known, the same value. *)
Definition TString_Equal (a b : TString) : bool :=
  match a, b with
  | StringNull, StringNull => true
  | StringUnknown, StringUnknown => true
  | StringValue x, StringValue y => String.eqb x y
  | _, _ => false
  end.

(** [stringplanmodifier.RequiresReplace] on one attribute: no replacement
    on creation (no state) or destruction (no plan); otherwise replacement
    when the planned and the stored value differ.  A resource is replaced
    when one of its attributes asks for it. *)
Definition requires_replace {M : Type} (sch : schema_Schema)
    (field : string -> M -> TString) (state plan : option M) : bool :=
  match state, plan with
  | Some s, Some p =>
      existsb (fun na =>
                 existsb is_RequiresReplace (PlanModifiers (snd na))
                 && negb (TString_Equal (field (fst na) p) (field (fst na) s)))
              sch
  | _, _ => false
  end.

(** [resp.State.SetAttribute(ctx, path, val)]: the attribute is written
    into the stored value (into the all-null value when there is none)
    unless the schema raises an error. *)
Definition State_SetAttribute {M : Type} (null : M) (set : M -> M)
  : Op (Response M) DiagnosticsT :=
  call CallStateSet ;;
  r <- get_resp ;;
  let val := set (match Raw (State r) with Some m => m | None => null end) in
  let diags := Schema_Diags (State r) val in
  (when negb (Diagnostics_HasError diags) then
     modify_resp (fun r =>
       {| State := {| Raw := Some val; Schema_Diags := Schema_Diags (State r) |};
          RespDiagnostics := RespDiagnostics r |})) ;;
  ret diags.

(** [MetadataRequest] and [MetadataResponse] of resources and data
    sources. *)
Record MetadataRequest : Type := { ProviderTypeName : string }.
Record MetadataResponse : Type := { TypeName : string }.

(* ================================================================= *)
(** ** The certificate resource *)

Module certificateCreateModel.
Record t : Type := {
  ID : TString;
  Attributes : TString;
  CSR : TString;
  Template : TString;
  CertificateB64 : TString;
  CertificateChainB64 : TString;
  LastUpdated : TString
}.
End certificateCreateModel.

Module certificateResource.
Import certificateCreateModel.

(** The resource holds the client the provider configured. *)
Record t : Type := { client : client.ADCSClient }.

Record CreateRequest : Type := { Plan : tfsdk_Data certificateCreateModel.t }.
Record ReadRequest : Type := { ReqState : tfsdk_Data certificateCreateModel.t }.
Record UpdateRequest : Type := {
  UpdPlan : tfsdk_Data certificateCreateModel.t;
  UpdState : tfsdk_Data certificateCreateModel.t
}.
Record DeleteRequest : Type := { DelState : tfsdk_Data certificateCreateModel.t }.

Definition Resp : Type := Response certificateCreateModel.t.

(** [Create] creates the resource and sets the initial Terraform state. *)
Definition Create (r : t) (w : World) (req : CreateRequest) : Op Resp unit :=
  (* Retrieve values from plan *)
  let plan := Get_value (Plan req) in
  let diags := Get_diags (Plan req) in
  resp_Append diags ;;
  (* Add attributes if provided *)
  attr <- (if negb (IsNull (Attributes plan))
              && negb (IsUnknown (Attributes plan))
           then tflog_Debug "Adding attributes to certificate creation" ;;
                ret (ValueString (Attributes plan))
           else ret "") ;;
  (* Create new certificate *)
  tflog_Info "Requesting certificate from ADCS server." ;;
  tflog_Debug "Certificate request Data" ;;
  res <- client_RequestCertificate (client r)
           (ValueString (CSR plan)) (ValueString (Template plan)) attr ;;
  match res with
  | inr err =>
      resp_AddError
        "Error creating certificate from singing request"
        ("Could not create certificate, unexpected error: " ++ Error err) ;;
      return_
  | inl certificates =>
      now <- time_Now_Format_RFC850 w ;;
      let plan :=
        {| ID := StringValue (client.ID certificates);
           Attributes := Attributes plan;
           CSR := CSR plan;
           Template := Template plan;
           CertificateB64 := StringValue (client.CertificateB64 certificates);
           CertificateChainB64 :=
             StringValue (client.CertificateChainB64 certificates);
           LastUpdated := StringValue now |} in
      (* Set state to fully populated data *)
      diags <- State_Set plan ;;
      resp_Append diags ;;
      he <- resp_HasError ;;
      if he then return_ else ret tt
  end.

(** [Read] refreshes the Terraform state with the latest data. *)
Definition Read (r : t) (req : ReadRequest) : Op Resp unit :=
  (* Get current state *)
  let state := Get_value (ReqState req) in
  let diags := Get_diags (ReqState req) in
  resp_Append diags ;;
  he <- resp_HasError ;;
  if he then return_ else
  let reqID := ValueString (ID state) in
  res <- client_RetrieveCertificates (client r) reqID ;;
  match res with
  | inr err =>
      resp_AddError
        "Error Reading Certificate"
        ("Could not read Certificate ID " ++ ValueString (ID state)
           ++ ":" ++ Error err) ;;
      return_
  | inl certificates =>
      (* Overwrite items with refreshed state *)
      let state :=
        {| ID := StringValue (client.ID certificates);
           Attributes := Attributes state;
           CSR := CSR state;
           Template := Template state;
           CertificateB64 :=
             StringValue (strings.Replace
               (client.CertificateB64 certificates) backslash_r "" (-1));
           CertificateChainB64 :=
             StringValue (strings.Replace
               (client.CertificateChainB64 certificates) backslash_r "" (-1));
           LastUpdated := LastUpdated state |} in
      (* Set refreshed state *)
      diags <- State_Set state ;;
      resp_Append diags ;;
      he <- resp_HasError ;;
      if he then return_ else ret tt
  end.

(** [Update]: there are no updates that can be performed on the ADCS
    side; the body is empty. *)
Definition Update (r : t) (req : UpdateRequest) : Op Resp unit :=
  ret tt.

(** [Delete]: nothing to be done on the ADCS side; the body is empty. *)
Definition Delete (r : t) (req : DeleteRequest) : Op Resp unit :=
  ret tt.

(** [NewCertificateResource]: a resource whose client is not set yet. *)
Definition NewCertificateResource : option client.ADCSClient := None.

(** [Metadata] returns the resource type name. *)
Definition Metadata (req : MetadataRequest) (resp : MetadataResponse)
  : MetadataResponse :=
  {| TypeName := ProviderTypeName req ++ "_certificate" |}.

(** The [tfsdk] tags of [certificateCreateModel], in the order of its
    fields, and the field a tag names. *)
Definition tfsdk_tags : list string :=
  ["id"; "attributes"; "certificate_signing_request"; "template";
   "certificate_b64"; "certificate_chain_b64"; "last_updated"].

Definition tfsdk_field (tag : string) (m : certificateCreateModel.t) : TString :=
  if String.eqb tag "id" then ID m
  else if String.eqb tag "attributes" then Attributes m
  else if String.eqb tag "certificate_signing_request" then CSR m
  else if String.eqb tag "template" then Template m
  else if String.eqb tag "certificate_b64" then CertificateB64 m
  else if String.eqb tag "certificate_chain_b64" then CertificateChainB64 m
  else if String.eqb tag "last_updated" then LastUpdated m
  else StringNull.

(** [Schema] defines the schema for the resource. *)
Definition Schema : schema_Schema :=
  [("id",
    {| Kind := StringAttribute; Required := false; Optional := false;
       Computed := true; Sensitive := false;
       PlanModifiers := [UseStateForUnknown] |});
   ("certificate_signing_request",
    {| Kind := StringAttribute; Required := true; Optional := false;
       Computed := false; Sensitive := false;
       PlanModifiers := [RequiresReplace] |});
   ("template",
    {| Kind := StringAttribute; Required := true; Optional := false;
       Computed := false; Sensitive := false;
       PlanModifiers := [RequiresReplace] |});
   ("attributes",
    {| Kind := StringAttribute; Required := false; Optional := true;
       Computed := false; Sensitive := false;
       PlanModifiers := [RequiresReplace] |});
   ("certificate_b64",
    {| Kind := StringAttribute; Required := false; Optional := false;
       Computed := true; Sensitive := false; PlanModifiers := [] |});
   ("certificate_chain_b64",
    {| Kind := StringAttribute; Required := false; Optional := false;
       Computed := true; Sensitive := false; PlanModifiers := [] |});
   ("last_updated",
    {| Kind := StringAttribute; Required := false; Optional := false;
       Computed := true; Sensitive := false; PlanModifiers := [] |})].

Record ConfigureRequest : Type := { ProviderData : ProviderDataValue }.

(** [Configure] adds the provider configured client to the resource. *)
Definition Configure (req : ConfigureRequest) : Op Configured unit :=
  match ProviderData req with
  | ProviderDataNil => return_
  | ProviderDataClient client =>
      modify_resp (fun r =>
        {| client_field := client;
           ConfiguredDiagnostics := ConfiguredDiagnostics r |})
  | ProviderDataOther type_name =>
      resp_AddError
        "Unexpected Data Source Configure Type"
        ("Expected *client.ADCSClient, got: " ++ type_name
           ++ ". Please report this issue to the provider developers.") ;;
      return_
  end.

(** The value of a state in which no attribute is set. *)
Definition null_model : certificateCreateModel.t :=
  {| ID := StringNull; Attributes := StringNull; CSR := StringNull;
     Template := StringNull; CertificateB64 := StringNull;
     CertificateChainB64 := StringNull; LastUpdated := StringNull |}.

Record ImportStateRequest : Type := { ImportID : string }.

(** [ImportState] retrieves the import ID and saves it to the [id]
    attribute: [resource.ImportStatePassthroughID] with the path
    [path.Root("id")], which is not the empty path that the helper
    rejects. *)
Definition ImportState (r : t) (req : ImportStateRequest) : Op Resp unit :=
  diags <- State_SetAttribute null_model
             (fun m =>
                {| ID := StringValue (ImportID req);
                   Attributes := Attributes m;
                   CSR := CSR m;
                   Template := Template m;
                   CertificateB64 := CertificateB64 m;
                   CertificateChainB64 := CertificateChainB64 m;
                   LastUpdated := LastUpdated m |}) ;;
  resp_Append diags.

End certificateResource.

(* ================================================================= *)
(** ** The certificate data source *)

Module certificateModel.
Record t : Type := {
  ID : TString;
  CertificateB64 : TString;
  CertificateChainB64 : TString
}.
End certificateModel.

Module certificateDataSource.
Import certificateModel.

Record t : Type := { client : client.ADCSClient }.

(** The request of the data source's [Read]: the configuration, and the
    address at which the Go runtime places the local variable [reqID]
    (the error summary prints it). *)
Record ReadRequest : Type := {
  Config : tfsdk_Data certificateModel.t;
  reqID_address : N
}.

Definition Resp : Type := Response certificateModel.t.

(** The schema marks [id] as required: the configuration must set it. *)
Definition Schema_id_Required (config : certificateModel.t) : bool :=
  negb (IsNull (ID config)).

(** [Read] refreshes the Terraform state with the latest data. *)
Definition Read (d : t) (req : ReadRequest) : Op Resp unit :=
  let data := Get_value (Config req) in
  (* Read Terraform configuration data into the model *)
  resp_Append (Get_diags (Config req)) ;;
  let reqID := ValueString (ID data) in
  res <- client_RetrieveCertificates (client d) reqID ;;
  match res with
  | inr err =>
      resp_AddError
        ("Unable to Read certificates for " ++ Sprintf_d (reqID_address req))
        (Error err) ;;
      return_
  | inl certificates =>
      (* Map response body to model *)
      let state :=
        {| ID := StringValue (client.ID certificates);
           CertificateB64 := StringValue (client.CertificateB64 certificates);
           CertificateChainB64 :=
             StringValue (client.CertificateChainB64 certificates) |} in
      (* Set state *)
      diags <- State_Set state ;;
      resp_Append diags ;;
      he <- resp_HasError ;;
      if he then return_ else ret tt
  end.

(** [NewCertificateDataSource]: a data source whose client is not set
    yet. *)
Definition NewCertificateDataSource : option client.ADCSClient := None.

Record ConfigureRequest : Type := { ProviderData : ProviderDataValue }.

(** [Configure] adds the provider configured client to the data source. *)
Definition Configure (req : ConfigureRequest) : Op Configured unit :=
  match ProviderData req with
  | ProviderDataNil => return_
  | ProviderDataClient client =>
      modify_resp (fun r =>
        {| client_field := client;
           ConfiguredDiagnostics := ConfiguredDiagnostics r |})
  | ProviderDataOther type_name =>
      resp_AddError
        "Unexpected Data Source Configure Type"
        ("Expected *client.ADCSClient, got: " ++ type_name
           ++ ". Please report this issue to the provider developers.") ;;
      return_
  end.

(** [Metadata] returns the data source type name. *)
Definition Metadata (req : MetadataRequest) (resp : MetadataResponse)
  : MetadataResponse :=
  {| TypeName := ProviderTypeName req ++ "_certificate" |}.

(** The [tfsdk] tags of [certificateModel], in the order of its fields. *)
Definition tfsdk_tags : list string :=
  ["id"; "certificate_b64"; "certificate_chain_b64"].

(** [Schema] defines the schema for the data source. *)
Definition Schema : schema_Schema :=
  [("id",
    {| Kind := StringAttribute; Required := true; Optional := false;
       Computed := false; Sensitive := false; PlanModifiers := [] |});
   ("certificate_b64",
    {| Kind := StringAttribute; Required := false; Optional := false;
       Computed := true; Sensitive := false; PlanModifiers := [] |});
   ("certificate_chain_b64",
    {| Kind := StringAttribute; Required := false; Optional := false;
       Computed := true; Sensitive := false; PlanModifiers := [] |})].

End certificateDataSource.

(* ================================================================= *)
(** ** The provider *)

Module MicrosoftADCSProviderModel.
Record t : Type := {
  Host : TString;
  Username : TString;
  Password : TString;
  Krb5Conf : TString;
  Ntlm : TBool
}.
End MicrosoftADCSProviderModel.

Module MicrosoftADCSProvider.
Import MicrosoftADCSProviderModel.

Record t : Type := { version : string }.

Record ConfigureRequest : Type := {
  Config : tfsdk_Data MicrosoftADCSProviderModel.t
}.

(** The five local variables [host], [username], [password], [krb5conf]
    and [useNtlm] of [Configure]. *)
Record Resolved : Type := {
  host : string;
  username : string;
  password : string;
  krb5conf : string;
  useNtlm : bool
}.

Definition UnknownHost : Diagnostic :=
  NewAttributeErrorDiagnostic "host"
    "Unknown Active Directory Certificate Services Host"
    ("The provider cannot create the ADCS API client as there is an unknown configuration value for the ADCS host. "
     ++ "Either target apply the source of the value first, set the value statically in the configuration, or use the ADCS_HOST environment variable.").

Definition UnknownUsername : Diagnostic :=
  NewAttributeErrorDiagnostic "username"
    "Unknown Active Directory Certificate Services Username"
    ("The provider cannot create the ADCS API client as there is an unknown configuration value for the ADCS username. "
     ++ "Either target apply the source of the value first, set the value statically in the configuration, or use the ADCS_USERNAME environment variable.").

Definition UnknownPassword : Diagnostic :=
  NewAttributeErrorDiagnostic "password"
    "Unknown Active Directory Certificate Services Password"
    ("The provider cannot create the ADCS API client as there is an unknown configuration value for the ADCS password. "
     ++ "Either target apply the source of the value first, set the value statically in the configuration, or use the ADCS_PASSWORD environment variable.").

(** First block of [Configure]: a value the practitioner provided must be
    a known value.  ([AddAttributeError] appends the attribute error
    diagnostic it builds from its arguments.) *)
Definition check_unknown (config : MicrosoftADCSProviderModel.t)
  : Op ConfigureResponse unit :=
  (when IsUnknown (Host config) then resp_Append [UnknownHost]) ;;
  (when IsUnknown (Username config) then resp_Append [UnknownUsername]) ;;
  (when IsUnknown (Password config) then resp_Append [UnknownPassword]).

(** Second block of [Configure]: default values to environment variables,
    but override with the Terraform configuration value if set. *)
Definition resolve (w : World) (config : MicrosoftADCSProviderModel.t)
  : Op ConfigureResponse Resolved :=
  host <- os_Getenv w "ADCS_HOST" ;;
  username <- os_Getenv w "ADCS_USERNAME" ;;
  password <- os_Getenv w "ADCS_PASSWORD" ;;
  krb5conf <- os_Getenv w "ADCS_KRB5CONF" ;;
  let useNtlm := ValueBool (Ntlm config) in
  let host :=
    if negb (IsNull (Host config)) then ValueString (Host config) else host in
  let username :=
    if negb (IsNull (Username config)) then ValueString (Username config)
    else username in
  let password :=
    if negb (IsNull (Password config)) then ValueString (Password config)
    else password in
  let krb5conf :=
    if negb (IsNull (Krb5Conf config)) then ValueString (Krb5Conf config)
    else krb5conf in
  ret {| host := host; username := username; password := password;
         krb5conf := krb5conf; useNtlm := useNtlm |}.

Definition MissingHost : Diagnostic :=
  NewAttributeErrorDiagnostic "host"
    "Missing Active Directory Certificate Services Host"
    ("The provider cannot create the ADCS API client as there is a missing or empty value for the ADCS API host. "
     ++ "Set the host value in the configuration or use the ADCS_HOST environment variable. "
     ++ "If either is already set, ensure the value is not empty.").

Definition MissingUsername : Diagnostic :=
  NewAttributeErrorDiagnostic "username"
    "Missing Active Directory Certificate Services Username"
    ("The provider cannot create the ADCS API client as there is a missing or empty value for the ADCS username. "
     ++ "Set the username value in the configuration or use the ADCS_USERNAME environment variable. "
     ++ "If either is already set, ensure the value is not empty.").

Definition MissingPassword : Diagnostic :=
  NewAttributeErrorDiagnostic "password"
    "Missing Active Directory Certificate Services Password"
    ("The provider cannot create the ADCS API client as there is a missing or empty value for the ADCS password. "
     ++ "Set the password value in the configuration or use the ADCS_PASSWORD environment variable. "
     ++ "If either is already set, ensure the value is not empty.").

(** Third block of [Configure]: if any of the expected configurations are
    missing, add errors with provider-specific guidance. *)
Definition check_missing (v : Resolved) : Op ConfigureResponse unit :=
  (when String.eqb (host v) "" then resp_Append [MissingHost]) ;;
  (when String.eqb (username v) "" then resp_Append [MissingUsername]) ;;
  (when String.eqb (password v) "" then resp_Append [MissingPassword]).

(** The error [Configure] adds when the client cannot be constructed. *)
Definition NewClientError (err : error) : Diagnostic :=
  NewErrorDiagnostic
    "Unable to Create Active Directory Certificate Services API Client"
    ("An unexpected error occurred when creating the Active Directory Certificate Services API client. "
     ++ "If the error is not clear, please contact the provider developers."
     ++ String (ascii_of_nat 10) (String (ascii_of_nat 10) "")
     ++ "ADCS Client Error: " ++ Error err).

(** [Configure] prepares the ADCS client for data sources and resources.
    (The [tflog.SetField] and masking calls only change the logging
    context and are left out.) *)
Definition Configure (p : t) (w : World) (req : ConfigureRequest)
  : Op ConfigureResponse unit :=
  tflog_Info "Configuring Active Directory Certificate Services client" ;;
  (* Retrieve provider data from configuration *)
  let config := Get_value (Config req) in
  resp_Append (Get_diags (Config req)) ;;
  he <- resp_HasError ;;
  if he then return_ else
  check_unknown config ;;
  he <- resp_HasError ;;
  if he then return_ else
  v <- resolve w config ;;
  check_missing v ;;
  he <- resp_HasError ;;
  if he then return_ else
  tflog_Debug "Creating Active Directory Certificate Services client" ;;
  (* Create a new ADCS client using the configuration values. *)
  let clientConfig :=
    {| client.Host := host v;
       client.Username := username v;
       client.Password := password v;
       client.Krb5Conf := krb5conf v;
       client.Ntlm := useNtlm v |} in
  res <- client_NewClient w clientConfig ;;
  match res with
  | inr err =>
      resp_Append [NewClientError err] ;;
      return_
  | inl client =>
      (* Make the adcs client available during DataSource and Resource
         type Configure methods. *)
      modify_resp (fun r =>
        {| DataSourceData := Some client; ResourceData := Some client;
           ConfDiagnostics := ConfDiagnostics r |}) ;;
      tflog_Info "Configured Active Directory Certificate Services client"
  end.

(** The provider's [MetadataResponse]. *)
Record ProviderMetadataResponse : Type := {
  TypeName : string;
  Version : string
}.

Definition Metadata (p : t) (resp : ProviderMetadataResponse)
  : ProviderMetadataResponse :=
  {| TypeName := "microsoftadcs"; Version := version p |}.

(** The [tfsdk] tags of [MicrosoftADCSProviderModel], in the order of its
    fields. *)
Definition tfsdk_tags : list string :=
  ["host"; "username"; "password"; "krb5conf"; "use_ntlm"].

Definition Schema : schema_Schema :=
  [("host",
    {| Kind := StringAttribute; Required := false; Optional := true;
       Computed := false; Sensitive := false; PlanModifiers := [] |});
   ("username",
    {| Kind := StringAttribute; Required := false; Optional := true;
       Computed := false; Sensitive := false; PlanModifiers := [] |});
   ("password",
    {| Kind := StringAttribute; Required := false; Optional := true;
       Computed := false; Sensitive := true; PlanModifiers := [] |});
   ("krb5conf",
    {| Kind := StringAttribute; Required := false; Optional := true;
       Computed := false; Sensitive := false; PlanModifiers := [] |});
   ("use_ntlm",
    {| Kind := BoolAttribute; Required := false; Optional := true;
       Computed := false; Sensitive := false; PlanModifiers := [] |})].

(** What the provider registers: for each resource and data source its
    constructor's result, its [Metadata] and its [Schema]. *)
Record Registered : Type := {
  new_client_field : option client.ADCSClient;
  metadata : MetadataRequest -> MetadataResponse -> MetadataResponse;
  schema : schema_Schema
}.

Definition Resources (p : t) : list Registered :=
  [{| new_client_field := certificateResource.NewCertificateResource;
      metadata := certificateResource.Metadata;
      schema := certificateResource.Schema |}].

Definition DataSources (p : t) : list Registered :=
  [{| new_client_field := certificateDataSource.NewCertificateDataSource;
      metadata := certificateDataSource.Metadata;
      schema := certificateDataSource.Schema |}].

Definition New (version : string) : unit -> t :=
  fun _ => {| version := version |}.

End MicrosoftADCSProvider.

(* ================================================================= *)
(** ** The acceptance test helpers *)

Module provider_test.

(** [providerConfig], the provider block of the acceptance tests, decoded:
    only [use_ntlm] is set. *)
Definition providerConfig : MicrosoftADCSProviderModel.t :=
  {| MicrosoftADCSProviderModel.Host := StringNull;
     MicrosoftADCSProviderModel.Username := StringNull;
     MicrosoftADCSProviderModel.Password := StringNull;
     MicrosoftADCSProviderModel.Krb5Conf := StringNull;
     MicrosoftADCSProviderModel.Ntlm := BoolValue true |}.

(** The [*testing.T] of a test: the messages logged, and whether the test
    has failed. *)
Record T : Type := { Failed : bool; Output : list string }.

(** [t.Fatal(msg)]: log, mark the test as failed and stop it. *)
Definition t_Fatal (msg : string) : Op T unit :=
  modify_resp (fun t => {| Failed := true; Output := Output t ++ [msg] |}) ;;
  return_.

Definition testAccPreCheck (w : World) : Op T unit :=
  v <- os_Getenv w "ADCS_HOST" ;;
  (when String.eqb v "" then
     t_Fatal "ADCS_HOST must be set for acceptance tests") ;;
  v <- os_Getenv w "ADCS_USERNAME" ;;
  (when String.eqb v "" then
     t_Fatal "ADCS_USERNAME must be set for acceptance tests") ;;
  v <- os_Getenv w "ADCS_PASSWORD" ;;
  (when String.eqb v "" then
     t_Fatal "ADCS_PASSWORD must be set for acceptance tests").

End provider_test.

(* ================================================================= *)
(** * Definitions used in the statements *)

(* ================================================================= *)
(** ** Removing the backslash-r sequence *)

(** The wording of the specification, "the text with every occurrence of
    the two-character sequence backslash-r removed", as a function of its
    own: read the text from the left and drop each backslash that is
    directly followed by the letter r, together with that r. *)
Fixpoint without_backslash_r (s : string) : string :=
  match s with
  | EmptyString => EmptyString
  | String c s' =>
      match s' with
      | String c' s'' =>
          if Ascii.eqb c "\" && Ascii.eqb c' "r"
          then without_backslash_r s''
          else String c (without_backslash_r s')
      | EmptyString => String c EmptyString
      end
  end.

(** The same wording, declaratively: [s] is cut at the occurrences of the
    sequence into [pieces] ([s] is the pieces joined by the sequence, and no
    piece contains it); the text without the occurrences is then the pieces
    glued back together, [String.concat "" pieces]. *)
Definition cut_at_backslash_r (s : string) (pieces : list string) : Prop :=
  s = String.concat backslash_r pieces
  /\ Forall (fun p => strings.Contains p backslash_r = false) pieces.

(* ================================================================= *)
(** ** The values the operations store *)

(** The model [Create] hands to [State.Set]: the plan with the four computed
    attributes filled in. *)
Definition created_model (plan : certificateCreateModel.t)
    (certificates : client.Certificate) (now : string)
  : certificateCreateModel.t :=
  {| certificateCreateModel.ID := StringValue (client.ID certificates);
     certificateCreateModel.Attributes := certificateCreateModel.Attributes plan;
     certificateCreateModel.CSR := certificateCreateModel.CSR plan;
     certificateCreateModel.Template := certificateCreateModel.Template plan;
     certificateCreateModel.CertificateB64 :=
       StringValue (client.CertificateB64 certificates);
     certificateCreateModel.CertificateChainB64 :=
       StringValue (client.CertificateChainB64 certificates);
     certificateCreateModel.LastUpdated := StringValue now |}.

(** The remote call [Create] makes for a plan. *)
Definition create_call (plan : certificateCreateModel.t) : Call :=
  CallRequestCertificate
    (ValueString (certificateCreateModel.CSR plan))
    (ValueString (certificateCreateModel.Template plan))
    (ValueString (certificateCreateModel.Attributes plan)).

(** The answer of the client to that call. *)
Definition create_answer (c : client.ADCSClient)
    (plan : certificateCreateModel.t) : client.Certificate + error :=
  client.RequestCertificate c
    (ValueString (certificateCreateModel.CSR plan))
    (ValueString (certificateCreateModel.Template plan))
    (ValueString (certificateCreateModel.Attributes plan)).

(** The log entries [Create] makes before the remote call. *)
Definition create_log_before (plan : certificateCreateModel.t) : list Call :=
  (if negb (IsNull (certificateCreateModel.Attributes plan))
      && negb (IsUnknown (certificateCreateModel.Attributes plan))
   then [CallLog LevelDebug "Adding attributes to certificate creation"]
   else [])
  ++ [CallLog LevelInfo "Requesting certificate from ADCS server.";
      CallLog LevelDebug "Certificate request Data"].

(** The diagnostic [Create] adds when the client answers with an error. *)
Definition create_error (err : error) : Diagnostic :=
  NewErrorDiagnostic
    "Error creating certificate from singing request"
    ("Could not create certificate, unexpected error: " ++ Error err).

(** [State.Set] on a state, as a function: the state it leaves. *)
Definition state_after_Set {M : Type} (st : tfsdk_State M) (val : M)
  : tfsdk_State M :=
  if Diagnostics_HasError (Schema_Diags st val) then st
  else {| Raw := Some val; Schema_Diags := Schema_Diags st |}.

(** A fresh response, as the framework hands it to an operation: no
    diagnostics, and the given state. *)
Definition fresh_Response {M : Type} (raw : option M)
    (schema : M -> DiagnosticsT) : Response M :=
  {| State := {| Raw := raw; Schema_Diags := schema |};
     RespDiagnostics := [] |}.

(** A schema that accepts every model value. *)
Definition accept_all {M : Type} : M -> DiagnosticsT := fun _ => [].

(** What a successfully decoded plan, configuration or state looks like to
    [Get]. *)
Definition decoded {M : Type} (m : M) : tfsdk_Data M :=
  {| Get_value := m; Get_diags := [] |}.

(** The model the resource's [Read] hands to [State.Set]. *)
Definition refreshed_model (state : certificateCreateModel.t)
    (certificates : client.Certificate) : certificateCreateModel.t :=
  {| certificateCreateModel.ID := StringValue (client.ID certificates);
     certificateCreateModel.Attributes := certificateCreateModel.Attributes state;
     certificateCreateModel.CSR := certificateCreateModel.CSR state;
     certificateCreateModel.Template := certificateCreateModel.Template state;
     certificateCreateModel.CertificateB64 :=
       StringValue (strings.Replace (client.CertificateB64 certificates)
                      backslash_r "" (-1));
     certificateCreateModel.CertificateChainB64 :=
       StringValue (strings.Replace (client.CertificateChainB64 certificates)
                      backslash_r "" (-1));
     certificateCreateModel.LastUpdated :=
       certificateCreateModel.LastUpdated state |}.

(** The diagnostic the resource's [Read] adds when the client answers with
    an error. *)
Definition read_error (state : certificateCreateModel.t) (err : error)
  : Diagnostic :=
  NewErrorDiagnostic
    "Error Reading Certificate"
    ("Could not read Certificate ID "
       ++ ValueString (certificateCreateModel.ID state) ++ ":" ++ Error err).

(** The model the data source's [Read] hands to [State.Set]. *)
Definition looked_up_model (certificates : client.Certificate)
  : certificateModel.t :=
  {| certificateModel.ID := StringValue (client.ID certificates);
     certificateModel.CertificateB64 :=
       StringValue (client.CertificateB64 certificates);
     certificateModel.CertificateChainB64 :=
       StringValue (client.CertificateChainB64 certificates) |}.

(** The diagnostic the data source's [Read] adds when the client answers
    with an error. *)
Definition lookup_error (address : N) (err : error) : Diagnostic :=
  NewErrorDiagnostic
    ("Unable to Read certificates for " ++ Sprintf_d address)
    (Error err).

(* ----------------------------------------------------------------- *)
(** *** The provider's configuration, as functions *)

(** The diagnostics of the first block of [Configure]. *)
Definition unknown_diags (config : MicrosoftADCSProviderModel.t)
  : DiagnosticsT :=
  (if IsUnknown (MicrosoftADCSProviderModel.Host config)
   then [MicrosoftADCSProvider.UnknownHost] else [])
  ++ (if IsUnknown (MicrosoftADCSProviderModel.Username config)
      then [MicrosoftADCSProvider.UnknownUsername] else [])
  ++ (if IsUnknown (MicrosoftADCSProviderModel.Password config)
      then [MicrosoftADCSProvider.UnknownPassword] else []).

(** The values the second block of [Configure] computes. *)
Definition resolved (w : World) (config : MicrosoftADCSProviderModel.t)
  : MicrosoftADCSProvider.Resolved :=
  let pick (explicit : TString) (key : string) :=
    if negb (IsNull explicit) then ValueString explicit else Getenv w key in
  {| MicrosoftADCSProvider.host :=
       pick (MicrosoftADCSProviderModel.Host config) "ADCS_HOST";
     MicrosoftADCSProvider.username :=
       pick (MicrosoftADCSProviderModel.Username config) "ADCS_USERNAME";
     MicrosoftADCSProvider.password :=
       pick (MicrosoftADCSProviderModel.Password config) "ADCS_PASSWORD";
     MicrosoftADCSProvider.krb5conf :=
       pick (MicrosoftADCSProviderModel.Krb5Conf config) "ADCS_KRB5CONF";
     MicrosoftADCSProvider.useNtlm :=
       ValueBool (MicrosoftADCSProviderModel.Ntlm config) |}.

(** The environment lookups of the second block, in order. *)
Definition getenv_calls : list Call :=
  [CallGetenv "ADCS_HOST"; CallGetenv "ADCS_USERNAME";
   CallGetenv "ADCS_PASSWORD"; CallGetenv "ADCS_KRB5CONF"].

(** The diagnostics of the third block of [Configure]: one per empty
    field, in the order host, username, password. *)
Definition missing_diags (v : MicrosoftADCSProvider.Resolved) : DiagnosticsT :=
  (if String.eqb (MicrosoftADCSProvider.host v) ""
   then [MicrosoftADCSProvider.MissingHost] else [])
  ++ (if String.eqb (MicrosoftADCSProvider.username v) ""
      then [MicrosoftADCSProvider.MissingUsername] else [])
  ++ (if String.eqb (MicrosoftADCSProvider.password v) ""
      then [MicrosoftADCSProvider.MissingPassword] else []).

(** The configuration [Configure] hands to [client.NewClient]. *)
Definition clientConfig_of (v : MicrosoftADCSProvider.Resolved)
  : client.ClientConfig :=
  {| client.Host := MicrosoftADCSProvider.host v;
     client.Username := MicrosoftADCSProvider.username v;
     client.Password := MicrosoftADCSProvider.password v;
     client.Krb5Conf := MicrosoftADCSProvider.krb5conf v;
     client.Ntlm := MicrosoftADCSProvider.useNtlm v |}.

(** A configure response with its diagnostics replaced. *)
Definition with_ConfDiagnostics (d : DiagnosticsT) (resp : ConfigureResponse)
  : ConfigureResponse :=
  {| DataSourceData := DataSourceData resp;
     ResourceData := ResourceData resp;
     ConfDiagnostics := d |}.

(** The log entries of [Configure]. *)
Definition log_configuring : Call :=
  CallLog LevelInfo "Configuring Active Directory Certificate Services client".
Definition log_creating : Call :=
  CallLog LevelDebug "Creating Active Directory Certificate Services client".
Definition log_configured : Call :=
  CallLog LevelInfo "Configured Active Directory Certificate Services client".

(** Some required field is empty after the environment fallback. *)
Definition some_field_missing (v : MicrosoftADCSProvider.Resolved) : Prop :=
  MicrosoftADCSProvider.host v = ""
  \/ MicrosoftADCSProvider.username v = ""
  \/ MicrosoftADCSProvider.password v = "".

(* ================================================================= *)
(** ** Base64 (RFC 4648, standard alphabet, padded) *)

(** The decoding the specification speaks of for the signing request. *)
Module base64.

Definition decodeChar (c : ascii) : option N :=
  let n := N_of_ascii c in
  if (65 <=? n)%N && (n <=? 90)%N then Some (n - 65)%N
  else if (97 <=? n)%N && (n <=? 122)%N then Some (n - 71)%N
  else if (48 <=? n)%N && (n <=? 57)%N then Some (n + 4)%N
  else if (n =? 43)%N then Some 62%N
  else if (n =? 47)%N then Some 63%N
  else None.

Definition byte (n : N) (shift : N) : ascii :=
  ascii_of_N (N.land (N.shiftr n shift) 255).

Definition pad : ascii := "=".

(** One group of four characters; [None] when a character is outside
    the alphabet or the padding is misplaced. *)
Definition decodeQuantum (a b c d : ascii) (last : bool) : option string :=
  match decodeChar a, decodeChar b with
  | Some x, Some y =>
      let n2 := (N.shiftl x 18 + N.shiftl y 12)%N in
      if Ascii.eqb c pad && Ascii.eqb d pad && last
      then Some (String (byte n2 16) "")
      else
        match decodeChar c with
        | Some z =>
            let n3 := (n2 + N.shiftl z 6)%N in
            if Ascii.eqb d pad && last
            then Some (String (byte n3 16) (String (byte n3 8) ""))
            else
              match decodeChar d with
              | Some t =>
                  let n4 := (n3 + t)%N in
                  Some (String (byte n4 16)
                          (String (byte n4 8) (String (byte n4 0) "")))
              | None => None
              end
        | None => None
        end
  | _, _ => None
  end.

Fixpoint DecodeString (s : string) : option string :=
  match s with
  | EmptyString => Some EmptyString
  | String a (String b (String c (String d rest))) =>
      match decodeQuantum a b c d
              (match rest with EmptyString => true | _ => false end) with
      | Some bytes =>
          match DecodeString rest with
          | Some tail => Some (bytes ++ tail)%string
          | None => None
          end
      | None => None
      end
  | _ => None
  end.

End base64.

(* ================================================================= *)
(** ** Sample collaborators and inputs *)

Module Samples.

(** A certificate whose text carries the backslash-r sequence. *)
Definition certificate : client.Certificate :=
  {| client.ID := "525135";
     client.CertificateB64 := "MIIDdzCC\rAl+gAwIBAgIE";
     client.CertificateChainB64 := "MIIFazCCA1OgAwIBAgIU" |}.

Definition not_found : error := {| Error := "certificate not found" |}.
Definition denied : error := {| Error := "access denied" |}.

(** A server that issues [certificate] for every request and knows it
    under its identifier and under the empty identifier. *)
Definition server : client.ADCSClient :=
  {| client.RequestCertificate := fun _ _ _ => inl certificate;
     client.RetrieveCertificates := fun id =>
       if String.eqb id "525135" || String.eqb id ""
       then inl certificate else inr not_found |}.

(** A server that refuses everything. *)
Definition refusing_server : client.ADCSClient :=
  {| client.RequestCertificate := fun _ _ _ => inr denied;
     client.RetrieveCertificates := fun _ => inr denied |}.

(** Only [ADCS_HOST] and [ADCS_KRB5CONF] are set in the environment. *)
Definition world : World :=
  {| Getenv := fun key =>
       if String.eqb key "ADCS_HOST" then "env.company.local"
       else if String.eqb key "ADCS_KRB5CONF" then "/etc/krb5.conf"
       else "";
     Now_RFC850 := "Monday, 02-Nov-26 15:04:05 UTC";
     NewClient := fun _ => inl server |}.

Definition plan : certificateCreateModel.t :=
  {| certificateCreateModel.ID := StringUnknown;
     certificateCreateModel.Attributes := StringNull;
     certificateCreateModel.CSR := StringValue "SGVsbG8=";
     certificateCreateModel.Template := StringValue "User";
     certificateCreateModel.CertificateB64 := StringUnknown;
     certificateCreateModel.CertificateChainB64 := StringUnknown;
     certificateCreateModel.LastUpdated := StringUnknown |}.

Definition create_request : certificateResource.CreateRequest :=
  {| certificateResource.Plan := decoded plan |}.

Definition resource (c : client.ADCSClient) : certificateResource.t :=
  {| certificateResource.client := c |}.

Definition data_source (c : client.ADCSClient) : certificateDataSource.t :=
  {| certificateDataSource.client := c |}.

Definition lookup (id : TString) : certificateDataSource.ReadRequest :=
  {| certificateDataSource.Config :=
       decoded {| certificateModel.ID := id;
                  certificateModel.CertificateB64 := StringNull;
                  certificateModel.CertificateChainB64 := StringNull |};
     certificateDataSource.reqID_address := 824634253952 |}.

Definition provider : MicrosoftADCSProvider.t :=
  {| MicrosoftADCSProvider.version := "test" |}.

Definition provider_response : ConfigureResponse :=
  {| DataSourceData := None; ResourceData := None; ConfDiagnostics := [] |}.

(** Host and username set in the configuration, password nowhere. *)
Definition config_without_password : MicrosoftADCSProviderModel.t :=
  {| MicrosoftADCSProviderModel.Host := StringValue "server.company.local";
     MicrosoftADCSProviderModel.Username := StringValue "Username";
     MicrosoftADCSProviderModel.Password := StringNull;
     MicrosoftADCSProviderModel.Krb5Conf := StringNull;
     MicrosoftADCSProviderModel.Ntlm := BoolValue true |}.

(** The same, with a username that is not known yet. *)
Definition config_unknown_username : MicrosoftADCSProviderModel.t :=
  {| MicrosoftADCSProviderModel.Host := StringValue "server.company.local";
     MicrosoftADCSProviderModel.Username := StringUnknown;
     MicrosoftADCSProviderModel.Password := StringNull;
     MicrosoftADCSProviderModel.Krb5Conf := StringNull;
     MicrosoftADCSProviderModel.Ntlm := BoolValue true |}.

Definition configure_request (config : MicrosoftADCSProviderModel.t)
  : MicrosoftADCSProvider.ConfigureRequest :=
  {| MicrosoftADCSProvider.Config := decoded config |}.

End Samples.

(* ================================================================= *)
(** ** Further definitions used in the statements *)

(** Some required field of the configuration is an unknown value. *)
Definition any_unknown (config : MicrosoftADCSProviderModel.t) : bool :=
  IsUnknown (MicrosoftADCSProviderModel.Host config)
  || IsUnknown (MicrosoftADCSProviderModel.Username config)
  || IsUnknown (MicrosoftADCSProviderModel.Password config).

(** Some required field is empty after the environment fallback, as a
    test. *)
Definition any_missing (v : MicrosoftADCSProvider.Resolved) : bool :=
  String.eqb (MicrosoftADCSProvider.host v) ""
  || String.eqb (MicrosoftADCSProvider.username v) ""
  || String.eqb (MicrosoftADCSProvider.password v) "".

(** The state of a resource or data source before its [Configure] runs. *)
Definition not_configured : Configured :=
  {| client_field := None; ConfiguredDiagnostics := [] |}.

(** The model [ImportState] stores in an empty state. *)
Definition imported_model (id : string) : certificateCreateModel.t :=
  {| certificateCreateModel.ID := StringValue id;
     certificateCreateModel.Attributes := StringNull;
     certificateCreateModel.CSR := StringNull;
     certificateCreateModel.Template := StringNull;
     certificateCreateModel.CertificateB64 := StringNull;
     certificateCreateModel.CertificateChainB64 := StringNull;
     certificateCreateModel.LastUpdated := StringNull |}.

(** A fresh [*testing.T]. *)
Definition fresh_T : provider_test.T :=
  {| provider_test.Failed := false; provider_test.Output := [] |}.

(** The framework's rule for an attribute: it is required, optional or
    computed, and a required attribute is neither optional nor computed. *)
Definition well_formed (a : Attribute) : bool :=
  (Required a || Optional a || Computed a)
  && negb (Required a && (Optional a || Computed a)).

(** The names of a schema are exactly the given [tfsdk] tags, each once. *)
Definition matches_tags (sch : schema_Schema) (tags : list string) : Prop :=
  NoDup (attribute_names sch)
  /\ NoDup tags
  /\ forall name, In name (attribute_names sch) <-> In name tags.

(** The provider configuration of the acceptance tests, as a request. *)
Definition test_configure_request : MicrosoftADCSProvider.ConfigureRequest :=
  {| MicrosoftADCSProvider.Config := decoded provider_test.providerConfig |}.

(** A fresh [provider.ConfigureResponse]. *)
Definition fresh_ConfigureResponse : ConfigureResponse :=
  {| DataSourceData := None; ResourceData := None; ConfDiagnostics := [] |}.

(** More collaborators and inputs. *)
Module MoreSamples.

(** A world in which the client cannot be constructed. *)
Definition world_without_server : World :=
  {| Getenv := Getenv Samples.world;
     Now_RFC850 := Now_RFC850 Samples.world;
     NewClient := fun _ => inr {| Error := "kdc unreachable" |} |}.

(** Host, username and password all set in the configuration. *)
Definition full_config : MicrosoftADCSProviderModel.t :=
  {| MicrosoftADCSProviderModel.Host := StringValue "server.company.local";
     MicrosoftADCSProviderModel.Username := StringValue "Username";
     MicrosoftADCSProviderModel.Password := StringValue "secret";
     MicrosoftADCSProviderModel.Krb5Conf := StringNull;
     MicrosoftADCSProviderModel.Ntlm := BoolNull |}.

(** A state as [Create] leaves it for [Samples.plan]. *)
Definition stored : certificateCreateModel.t :=
  created_model Samples.plan Samples.certificate (Now_RFC850 Samples.world).

(** A decoding that went wrong. *)
Definition decode_error : Diagnostic :=
  NewErrorDiagnostic "Value Conversion Error" "unhandled null value".

(** What [Get] leaves when it returns that error: the target keeps its
    zero value [null], in which every attribute is null. *)
Definition badly_decoded {M : Type} (null : M) : tfsdk_Data M :=
  {| Get_value := null; Get_diags := [decode_error] |}.

(** A plan or state of the resource whose decoding went wrong. *)
Definition undecoded : tfsdk_Data certificateCreateModel.t :=
  badly_decoded certificateResource.null_model.

(** The zero value of [certificateModel]. *)
Definition null_lookup : certificateModel.t :=
  {| certificateModel.ID := StringNull;
     certificateModel.CertificateB64 := StringNull;
     certificateModel.CertificateChainB64 := StringNull |}.

(** Host, username and password set, the Kerberos configuration unknown. *)
Definition config_unknown_krb5conf : MicrosoftADCSProviderModel.t :=
  {| MicrosoftADCSProviderModel.Host := StringValue "server.company.local";
     MicrosoftADCSProviderModel.Username := StringValue "Username";
     MicrosoftADCSProviderModel.Password := StringValue "secret";
     MicrosoftADCSProviderModel.Krb5Conf := StringUnknown;
     MicrosoftADCSProviderModel.Ntlm := BoolUnknown |}.

End MoreSamples.

(* ================================================================= *)
(** * Properties *)

(* ================================================================= *)
(** ** [strings.Replace] on the backslash-r sequence *)

Section Backslash_r.
Local Open Scope string_scope.

(** A two-step induction principle on strings. *)
Lemma string_ind2 (P : string -> Prop) :
  P EmptyString ->
  (forall c, P (String c EmptyString)) ->
  (forall c c' s, P s -> P (String c' s) -> P (String c (String c' s))) ->
  forall s, P s.
Proof.
  intros H0 H1 H2 s.
  assert (H : P s /\ forall c, P (String c s)).
  { induction s as [|c' s [IHa IHb]]; split; auto. }
  exact (proj1 H).
Qed.

Lemma without_backslash_r_cons2 (c c' : ascii) (s : string) :
  without_backslash_r (String c (String c' s))
  = if Ascii.eqb c "\" && Ascii.eqb c' "r"
    then without_backslash_r s
    else String c (without_backslash_r (String c' s)).
Proof. reflexivity. Qed.

Lemma replaceLoop_backslash_r (s : string) :
  strings.replaceLoop backslash_r "" (-1) O s = without_backslash_r s.
Proof.
  induction s as [|c|c c' s IH IH'] using string_ind2.
  - reflexivity.
  - cbn. destruct (Ascii.eqb c "\"); reflexivity.
  - rewrite without_backslash_r_cons2.
    cbn [strings.replaceLoop].
    change ((-1 =? 0)%Z) with false. cbv iota.
    change ((-1 <? 0)%Z) with true. cbv iota.
    unfold backslash_r at 1.
    cbn [strings.HasPrefix String.length Nat.sub].
    rewrite andb_true_r.
    destruct (Ascii.eqb c "\" && Ascii.eqb c' "r") eqn:E.
    + cbn [append]. exact IH.
    + f_equal. exact IH'.
Qed.

(** [strings.Replace(s, `\r`, "", -1)] removes every occurrence of the
    sequence. *)
Lemma Replace_backslash_r (s : string) :
  strings.Replace s backslash_r "" (-1) = without_backslash_r s.
Proof.
  unfold strings.Replace. cbn [String.eqb backslash_r orb Z.eqb].
  apply replaceLoop_backslash_r.
Qed.

Lemma without_backslash_r_length (s : string) :
  String.length (without_backslash_r s) <= String.length s.
Proof.
  induction s as [|c|c c' s IH IH'] using string_ind2.
  - reflexivity.
  - cbn. lia.
  - rewrite without_backslash_r_cons2.
    destruct (Ascii.eqb c "\" && Ascii.eqb c' "r").
    + cbn [String.length]. lia.
    + cbn [String.length] in *. lia.
Qed.

Lemma Contains_cons (c : ascii) (s sub : string) :
  strings.Contains (String c s) sub
  = strings.HasPrefix (String c s) sub || strings.Contains s sub.
Proof. reflexivity. Qed.

(** A text that contains the sequence gets strictly shorter. *)
Lemma without_backslash_r_shorter (s : string) :
  strings.Contains s backslash_r = true ->
  String.length (without_backslash_r s) < String.length s.
Proof.
  induction s as [|c|c c' s IH IH'] using string_ind2.
  - discriminate.
  - cbn. rewrite andb_false_r. discriminate.
  - rewrite Contains_cons, without_backslash_r_cons2.
    unfold backslash_r at 1.
    cbn [strings.HasPrefix]. rewrite andb_true_r.
    destruct (Ascii.eqb c "\" && Ascii.eqb c' "r") eqn:E.
    + intros _. pose proof (without_backslash_r_length s).
      cbn [String.length]. lia.
    + cbn [orb]. intros H. specialize (IH' H).
      cbn [String.length] in *. lia.
Qed.

(** A text that does not contain the sequence is left as it is. *)
Lemma without_backslash_r_free (s : string) :
  strings.Contains s backslash_r = false ->
  without_backslash_r s = s.
Proof.
  induction s as [|c|c c' s IH IH'] using string_ind2.
  - reflexivity.
  - reflexivity.
  - rewrite Contains_cons, without_backslash_r_cons2.
    unfold backslash_r at 1.
    cbn [strings.HasPrefix]. rewrite andb_true_r.
    destruct (Ascii.eqb c "\" && Ascii.eqb c' "r") eqn:E.
    + discriminate.
    + cbn [orb]. intros H. f_equal. auto.
Qed.

Lemma without_backslash_r_changes (s : string) :
  strings.Contains s backslash_r = true -> without_backslash_r s <> s.
Proof.
  intros H E. apply without_backslash_r_shorter in H.
  rewrite E in H. lia.
Qed.

Lemma without_backslash_r_piece (p rest : string) :
  strings.Contains p backslash_r = false ->
  without_backslash_r (p ++ backslash_r ++ rest)
  = p ++ without_backslash_r rest.
Proof.
  induction p as [|c|c c' p IH IH'] using string_ind2.
  - intros _. destruct rest; reflexivity.
  - intros _. cbn [append backslash_r].
    rewrite without_backslash_r_cons2.
    replace (Ascii.eqb "\" "r") with false by reflexivity.
    rewrite andb_false_r. f_equal.
  - rewrite Contains_cons. unfold backslash_r at 1.
    cbn [strings.HasPrefix]. rewrite andb_true_r.
    intros H. apply orb_false_elim in H. destruct H as [E H].
    cbn [append]. rewrite without_backslash_r_cons2, E.
    f_equal. apply (IH' H).
Qed.

(** Whatever the cut of [s] at its occurrences, the function glues the
    pieces back together. *)
Lemma without_backslash_r_cut (s : string) (pieces : list string) :
  cut_at_backslash_r s pieces ->
  without_backslash_r s = String.concat "" pieces.
Proof.
  intros [-> Hfree]. induction Hfree as [|p rest Hp Hrest IH].
  - reflexivity.
  - destruct rest as [|q rest].
    + cbn. now apply without_backslash_r_free.
    + change (String.concat backslash_r (p :: q :: rest))
        with (p ++ backslash_r ++ String.concat backslash_r (q :: rest)).
      change (String.concat "" (p :: q :: rest))
        with (p ++ "" ++ String.concat "" (q :: rest)).
      rewrite without_backslash_r_piece by assumption.
      now rewrite IH.
Qed.

(** Every text has such a cut. *)
Lemma cut_at_backslash_r_exists (s : string) :
  exists pieces, pieces <> [] /\ cut_at_backslash_r s pieces.
Proof.
  induction s as [|c|c c' s IH IH'] using string_ind2.
  - exists [""]. repeat split; [discriminate | now constructor].
  - exists [String c ""]. repeat split; [discriminate |].
    constructor; [|constructor]. cbn. now rewrite andb_false_r.
  - destruct (Ascii.eqb c "\" && Ascii.eqb c' "r") eqn:E.
    + apply andb_prop in E. destruct E as [Ec Ec'].
      apply Ascii.eqb_eq in Ec, Ec'. subst c c'.
      destruct IH as [pieces [Hne [Hs Hfree]]].
      exists ("" :: pieces). repeat split; [discriminate | |].
      * destruct pieces as [|q rest]; [congruence|].
        change (String.concat backslash_r ("" :: q :: rest))
          with ("" ++ backslash_r ++ String.concat backslash_r (q :: rest)).
        rewrite <- Hs. reflexivity.
      * constructor; [reflexivity | assumption].
    + destruct IH' as [pieces [Hne [Hs Hfree]]].
      destruct pieces as [|p rest]; [congruence|].
      exists (String c p :: rest). repeat split; [discriminate | |].
      * destruct rest as [|q rest].
        -- cbn in Hs |- *. now rewrite Hs.
        -- change (String.concat backslash_r (String c p :: q :: rest))
             with (String c (p ++ backslash_r
                               ++ String.concat backslash_r (q :: rest))).
           f_equal. exact Hs.
      * inversion Hfree as [|? ? Hp Hrest]; subst.
        constructor; [|assumption].
        rewrite Contains_cons, Hp, orb_false_r.
        unfold backslash_r. cbn [strings.HasPrefix].
        destruct p as [|a p].
        -- now rewrite andb_false_r.
        -- rewrite andb_true_r.
           destruct rest as [|q rest].
           ++ cbn in Hs. injection Hs as -> _. exact E.
           ++ change (String.concat backslash_r (String a p :: q :: rest))
                with (String a (p ++ backslash_r
                                  ++ String.concat backslash_r (q :: rest)))
                in Hs.
              injection Hs as -> _. exact E.
Qed.

End Backslash_r.

(* ================================================================= *)
(** ** The library functions on the examples of their documentation *)

Section LibraryExamples.
Local Open Scope string_scope.

Example Replace_first_two :
  strings.Replace "oink oink oink" "k" "ky" 2 = "oinky oinky oink".
Proof. reflexivity. Qed.

Example Replace_all :
  strings.Replace "oink oink oink" "oink" "moo" (-1) = "moo moo moo".
Proof. reflexivity. Qed.

Example Replace_not_overlapping :
  strings.Replace "aaa" "aa" "b" (-1) = "ba".
Proof. reflexivity. Qed.

Example Replace_empty_old :
  strings.Replace "ab" "" "-" (-1) = "-a-b-".
Proof. reflexivity. Qed.

Example Replace_empty_old_runes :
  strings.Replace "hé€" "" "-" (-1) = "-h-é-€-".
Proof. reflexivity. Qed.

Example Replace_empty_old_limited :
  strings.Replace "hé€" "" "-" 2 = "-h-é€".
Proof. reflexivity. Qed.

Example Replace_backslash_r_example :
  strings.Replace "MIID\rdzCC\r" backslash_r "" (-1) = "MIIDdzCC".
Proof. reflexivity. Qed.

Example Sprintf_d_example : Sprintf_d 824634253952 = "824634253952".
Proof. reflexivity. Qed.

Example DecodeString_Man : base64.DecodeString "TWFu" = Some "Man".
Proof. reflexivity. Qed.

Example DecodeString_padded : base64.DecodeString "TWE=" = Some "Ma".
Proof. reflexivity. Qed.

Example DecodeString_rejects : base64.DecodeString "TWE" = None.
Proof. reflexivity. Qed.

End LibraryExamples.

(* ================================================================= *)
(** ** Diagnostics *)

Section DiagnosticsFacts.

Lemma Diagnostic_Equal_eq (a b : Diagnostic) :
  Diagnostic_Equal a b = true -> a = b.
Proof.
  destruct a as [sa pa ma da], b as [sb pb mb db].
  unfold Diagnostic_Equal. cbn.
  intros H. repeat (apply andb_prop in H; destruct H as [H ?]).
  repeat match goal with
         | E : String.eqb _ _ = true |- _ => apply String.eqb_eq in E; subst
         end.
  f_equal.
  - destruct sa, sb; (reflexivity || discriminate).
  - destruct pa, pb; cbn in *; try discriminate; try reflexivity.
    f_equal. now apply String.eqb_eq.
Qed.

Lemma Contains_In (diags : DiagnosticsT) (d : Diagnostic) :
  Diagnostics_Contains diags d = true -> In d diags.
Proof.
  unfold Diagnostics_Contains. intros H.
  apply existsb_exists in H. destruct H as [x [Hx E]].
  apply Diagnostic_Equal_eq in E. now subst.
Qed.

Lemma HasError_app (a b : DiagnosticsT) :
  Diagnostics_HasError (a ++ b)
  = Diagnostics_HasError a || Diagnostics_HasError b.
Proof. apply existsb_app. Qed.

Lemma HasError_In (diags : DiagnosticsT) (d : Diagnostic) :
  In d diags -> IsError d = true -> Diagnostics_HasError diags = true.
Proof. intros Hin He. apply existsb_exists. eauto. Qed.

(** Appending keeps what was there, in order, at the front. *)
Lemma Append_prefix (incoming diags : DiagnosticsT) :
  exists added, Diagnostics_Append diags incoming = diags ++ added.
Proof.
  revert diags. induction incoming as [|d rest IH]; intros diags.
  - exists []. cbn. now rewrite app_nil_r.
  - cbn. destruct (Diagnostics_Contains diags d).
    + apply IH.
    + destruct (IH (diags ++ [d])) as [added E].
      exists (d :: added). rewrite E, <- app_assoc. reflexivity.
Qed.

Lemma HasError_Append (incoming diags : DiagnosticsT) :
  Diagnostics_HasError (Diagnostics_Append diags incoming)
  = Diagnostics_HasError diags || Diagnostics_HasError incoming.
Proof.
  revert diags. induction incoming as [|d rest IH]; intros diags.
  - cbn. now rewrite orb_false_r.
  - cbn [Diagnostics_Append].
    change (Diagnostics_HasError (d :: rest))
      with (IsError d || Diagnostics_HasError rest).
    destruct (Diagnostics_Contains diags d) eqn:C.
    + rewrite IH. apply Contains_In in C.
      destruct (IsError d) eqn:E; [|reflexivity].
      now rewrite (HasError_In _ _ C E).
    + rewrite IH, HasError_app. cbn. rewrite orb_false_r.
      now rewrite orb_assoc.
Qed.

(** Every incoming diagnostic is present after [Append]. *)
Lemma In_Append_incoming (incoming diags : DiagnosticsT) (d : Diagnostic) :
  In d incoming -> In d (Diagnostics_Append diags incoming).
Proof.
  revert diags. induction incoming as [|x rest IH]; intros diags Hin.
  - destruct Hin.
  - cbn [Diagnostics_Append]. destruct Hin as [-> | Hin].
    + destruct (Diagnostics_Contains diags d) eqn:C.
      * destruct (Append_prefix rest diags) as [added ->].
        apply in_or_app. left. now apply Contains_In.
      * destruct (Append_prefix rest (diags ++ [d])) as [added ->].
        apply in_or_app. left. apply in_or_app. right. now left.
    + destruct (Diagnostics_Contains diags x); now apply IH.
Qed.

(** An error diagnostic is new to a list without errors. *)
Lemma Contains_error_free (diags : DiagnosticsT) (d : Diagnostic) :
  Diagnostics_HasError diags = false -> IsError d = true ->
  Diagnostics_Contains diags d = false.
Proof.
  intros Hfree He. destruct (Diagnostics_Contains diags d) eqn:C; [|reflexivity].
  apply Contains_In in C. now rewrite (HasError_In _ _ C He) in Hfree.
Qed.

End DiagnosticsFacts.

(* ================================================================= *)
(** ** Running operations *)

(** Unfolding the operation monad and the primitive operations. *)
Ltac unfold_ops :=
  unfold run, bind, ret, return_, call, get_resp, modify_resp,
    resp_HasError, resp_AddError, resp_AddAttributeError, resp_Append,
    State_Set, tflog_Info, tflog_Debug,
    client_RequestCertificate, client_RetrieveCertificates,
    client_NewClient, os_Getenv, time_Now_Format_RFC850,
    bind, ret, get_resp, modify_resp, call in *.

(** Case analysis on every error test in the goal. *)
Ltac case_HasError :=
  unfold Diagnostics_HasError; cbn;
  repeat match goal with
         | |- context [existsb IsError ?d] =>
             destruct (existsb IsError d) eqn:?; cbn
         end.

(* ================================================================= *)
(** ** The certificate resource: Create *)

Section CreateFacts.
Import certificateCreateModel certificateResource.

Variables (r : certificateResource.t) (w : World) (req : CreateRequest).
Variable resp : Resp.

Let plan := Get_value (Plan req).
Let D0 := Diagnostics_Append (RespDiagnostics resp) (Get_diags (Plan req)).

(** What a run of [Create] leaves, by the answer of the client. *)
Lemma Create_run :
  run (Create r w req) resp =
  match create_answer (client r) plan with
  | inr err =>
      ({| State := State resp;
          RespDiagnostics := Diagnostics_Append D0 [create_error err] |},
       create_log_before plan ++ [create_call plan])
  | inl certificates =>
      let m := created_model plan certificates (Now_RFC850 w) in
      ({| State := state_after_Set (State resp) m;
          RespDiagnostics :=
            Diagnostics_Append D0 (Schema_Diags (State resp) m) |},
       create_log_before plan
         ++ [create_call plan; CallTimeNow; CallStateSet])
  end.
Proof.
  subst plan D0.
  unfold Create, create_answer, create_call, create_log_before,
    create_error, created_model, state_after_Set.
  unfold_ops.
  destruct (Attributes (Get_value (Plan req))); cbn;
    destruct (client.RequestCertificate _ _ _ _); cbn;
    try reflexivity; case_HasError; reflexivity.
Qed.

End CreateFacts.

Section CreateClaims.
Import certificateCreateModel certificateResource.

(** C1.  After a successful [Create] (one that leaves no error
    diagnostic) the stored state is the plan with [id],
    [certificate_b64] and [certificate_chain_b64] set verbatim to the
    identifier, certificate and chain the client's [RequestCertificate]
    returned, and [last_updated] set to the time of creation. *)
Theorem Create_success_persists_certificate
    (r : certificateResource.t) (w : World) (req : CreateRequest)
    (resp : Resp) :
  Diagnostics_HasError (Diagnostics (fst (run (Create r w req) resp))) = false ->
  exists certificates stored,
    client.RequestCertificate (client r)
      (ValueString (CSR (Get_value (Plan req))))
      (ValueString (Template (Get_value (Plan req))))
      (ValueString (Attributes (Get_value (Plan req)))) = inl certificates
    /\ Raw (State (fst (run (Create r w req) resp))) = Some stored
    /\ ID stored = StringValue (client.ID certificates)
    /\ CertificateB64 stored = StringValue (client.CertificateB64 certificates)
    /\ CertificateChainB64 stored
       = StringValue (client.CertificateChainB64 certificates)
    /\ LastUpdated stored = StringValue (Now_RFC850 w)
    /\ CSR stored = CSR (Get_value (Plan req))
    /\ Template stored = Template (Get_value (Plan req))
    /\ Attributes stored = Attributes (Get_value (Plan req)).
Proof.
  rewrite Create_run. unfold create_answer.
  destruct (client.RequestCertificate _ _ _ _) as [certificates|err];
    cbn [fst Diagnostics Response_WithDiagnostics RespDiagnostics State].
  - rewrite HasError_Append. intros H.
    apply orb_false_elim in H. destruct H as [_ Hschema].
    exists certificates, (created_model (Get_value (Plan req)) certificates
                            (Now_RFC850 w)).
    unfold state_after_Set. rewrite Hschema. cbn.
    repeat split; reflexivity.
  - rewrite HasError_Append. cbn. rewrite orb_true_r. discriminate.
Qed.

Lemma Create_success_persists_certificate_witness :
  exists certificates stored,
    client.RequestCertificate Samples.server "SGVsbG8=" "User" ""
    = inl certificates
    /\ Raw (State (fst (run
          (Create (Samples.resource Samples.server) Samples.world
             Samples.create_request)
          (fresh_Response None accept_all)))) = Some stored
    /\ ID stored = StringValue (client.ID certificates)
    /\ CertificateB64 stored = StringValue (client.CertificateB64 certificates)
    /\ CertificateChainB64 stored
       = StringValue (client.CertificateChainB64 certificates)
    /\ LastUpdated stored = StringValue "Monday, 02-Nov-26 15:04:05 UTC"
    /\ CSR stored = StringValue "SGVsbG8="
    /\ Template stored = StringValue "User"
    /\ Attributes stored = StringNull.
Proof.
  apply (Create_success_persists_certificate
           (Samples.resource Samples.server) Samples.world
           Samples.create_request (fresh_Response None accept_all)).
  reflexivity.
Defined.

(** C2.  When the client's [RequestCertificate] answers with an error,
    [Create] leaves the state as it was and never calls [State.Set]; it
    ends with an error diagnostic that carries the client's message, and
    it has called the client exactly once. *)
Theorem Create_client_error_persists_nothing
    (r : certificateResource.t) (w : World) (req : CreateRequest)
    (resp : Resp) (err : error) :
  client.RequestCertificate (client r)
    (ValueString (CSR (Get_value (Plan req))))
    (ValueString (Template (Get_value (Plan req))))
    (ValueString (Attributes (Get_value (Plan req)))) = inr err ->
  State (fst (run (Create r w req) resp)) = State resp
  /\ filter is_StateSet (snd (run (Create r w req) resp)) = []
  /\ Diagnostics_HasError (Diagnostics (fst (run (Create r w req) resp))) = true
  /\ In (NewErrorDiagnostic
           "Error creating certificate from singing request"
           ("Could not create certificate, unexpected error: " ++ Error err))
        (Diagnostics (fst (run (Create r w req) resp)))
  /\ remote_calls (snd (run (Create r w req) resp))
     = [CallRequestCertificate
          (ValueString (CSR (Get_value (Plan req))))
          (ValueString (Template (Get_value (Plan req))))
          (ValueString (Attributes (Get_value (Plan req))))].
Proof.
  intros Herr. rewrite Create_run. unfold create_answer. rewrite Herr.
  cbn [fst snd Diagnostics Response_WithDiagnostics RespDiagnostics State].
  repeat split.
  - unfold create_log_before.
    destruct (Attributes (Get_value (Plan req))); reflexivity.
  - rewrite HasError_Append. cbn. apply orb_true_r.
  - apply In_Append_incoming. now left.
  - unfold create_log_before, create_call, remote_calls.
    destruct (Attributes (Get_value (Plan req))); reflexivity.
Qed.

Lemma Create_client_error_persists_nothing_witness :
  let out := run (Create (Samples.resource Samples.refusing_server)
                    Samples.world Samples.create_request)
               (fresh_Response None accept_all) in
  State (fst out) = State (fresh_Response None accept_all)
  /\ filter is_StateSet (snd out) = []
  /\ Diagnostics_HasError (Diagnostics (fst out)) = true
  /\ In (NewErrorDiagnostic
           "Error creating certificate from singing request"
           "Could not create certificate, unexpected error: access denied")
        (Diagnostics (fst out))
  /\ remote_calls (snd out) = [CallRequestCertificate "SGVsbG8=" "User" ""].
Proof.
  apply (Create_client_error_persists_nothing
           (Samples.resource Samples.refusing_server) Samples.world
           Samples.create_request (fresh_Response None accept_all)
           (err := Samples.denied)).
  reflexivity.
Defined.

(** C6, as the code has it.  [Create] makes exactly one remote call, and
    the signing request it transmits is the string value of the plan's
    [certificate_signing_request] attribute, unchanged: no decoding takes
    place.  The template and the attributes are passed on in the same
    way. *)
Theorem Create_transmits_csr_verbatim
    (r : certificateResource.t) (w : World) (req : CreateRequest)
    (resp : Resp) :
  remote_calls (snd (run (Create r w req) resp))
  = [CallRequestCertificate
       (ValueString (CSR (Get_value (Plan req))))
       (ValueString (Template (Get_value (Plan req))))
       (ValueString (Attributes (Get_value (Plan req))))].
Proof.
  rewrite Create_run.
  unfold create_answer, create_log_before, create_call, remote_calls.
  destruct (client.RequestCertificate _ _ _ _);
    destruct (Attributes (Get_value (Plan req))); reflexivity.
Qed.

(** C6, as stated, fails: for the plan whose signing request attribute is
    the text SGVsbG8= (base64 for Hello), [Create] transmits SGVsbG8=,
    not Hello. *)
Lemma Create_does_not_decode_csr :
  ValueString (CSR (Get_value (Plan Samples.create_request))) = "SGVsbG8="
  /\ base64.DecodeString "SGVsbG8=" = Some "Hello"
  /\ remote_calls (snd (run
       (Create (Samples.resource Samples.server) Samples.world
          Samples.create_request)
       (fresh_Response None accept_all)))
     = [CallRequestCertificate "SGVsbG8=" "User" ""]
  /\ ~ (forall csr template attributes,
          In (CallRequestCertificate csr template attributes)
             (snd (run
                (Create (Samples.resource Samples.server) Samples.world
                   Samples.create_request)
                (fresh_Response None accept_all))) ->
          base64.DecodeString
            (ValueString (CSR (Get_value (Plan Samples.create_request))))
          = Some csr).
Proof.
  repeat split; try reflexivity.
  intros H. specialize (H "SGVsbG8=" "User" "").
  assert (E : base64.DecodeString "SGVsbG8=" = Some "SGVsbG8=").
  { apply H. vm_compute. auto. }
  vm_compute in E. discriminate.
Qed.

End CreateClaims.

(* ================================================================= *)
(** ** The two Read paths *)

Section ReadFacts.

(** What a run of the resource's [Read] leaves. *)
Lemma resource_Read_run (r : certificateResource.t)
    (req : certificateResource.ReadRequest) (resp : certificateResource.Resp) :
  let state := Get_value (certificateResource.ReqState req) in
  let D0 := Diagnostics_Append (RespDiagnostics resp)
              (Get_diags (certificateResource.ReqState req)) in
  let reqID := ValueString (certificateCreateModel.ID state) in
  run (certificateResource.Read r req) resp =
  if Diagnostics_HasError D0
  then ({| State := State resp; RespDiagnostics := D0 |}, [])
  else
    match client.RetrieveCertificates (certificateResource.client r) reqID with
    | inr err =>
        ({| State := State resp;
            RespDiagnostics := Diagnostics_Append D0 [read_error state err] |},
         [CallRetrieveCertificates reqID])
    | inl certificates =>
        let m := refreshed_model state certificates in
        ({| State := state_after_Set (State resp) m;
            RespDiagnostics :=
              Diagnostics_Append D0 (Schema_Diags (State resp) m) |},
         [CallRetrieveCertificates reqID; CallStateSet])
    end.
Proof.
  cbv zeta.
  unfold certificateResource.Read, read_error, refreshed_model,
    state_after_Set.
  unfold_ops. cbn.
  destruct (client.RetrieveCertificates _ _); case_HasError; reflexivity.
Qed.

(** What a run of the data source's [Read] leaves. *)
Lemma data_source_Read_run (d : certificateDataSource.t)
    (req : certificateDataSource.ReadRequest)
    (resp : certificateDataSource.Resp) :
  let data := Get_value (certificateDataSource.Config req) in
  let D0 := Diagnostics_Append (RespDiagnostics resp)
              (Get_diags (certificateDataSource.Config req)) in
  let reqID := ValueString (certificateModel.ID data) in
  run (certificateDataSource.Read d req) resp =
  match client.RetrieveCertificates (certificateDataSource.client d) reqID with
  | inr err =>
      ({| State := State resp;
          RespDiagnostics :=
            Diagnostics_Append D0
              [lookup_error (certificateDataSource.reqID_address req) err] |},
       [CallRetrieveCertificates reqID])
  | inl certificates =>
      let m := looked_up_model certificates in
      ({| State := state_after_Set (State resp) m;
          RespDiagnostics :=
            Diagnostics_Append D0 (Schema_Diags (State resp) m) |},
       [CallRetrieveCertificates reqID; CallStateSet])
  end.
Proof.
  cbv zeta.
  unfold certificateDataSource.Read, lookup_error, looked_up_model,
    state_after_Set.
  unfold_ops. cbn.
  destruct (client.RetrieveCertificates _ _); cbn;
    try reflexivity; case_HasError; reflexivity.
Qed.

End ReadFacts.

Section ReadClaims.

(** C3.  For a certificate the client's [RetrieveCertificates] returns for
    an identifier, the resource's [Read] stores [certificate_b64] and
    [certificate_chain_b64] with every occurrence of the backslash-r
    sequence removed (the text cut at its occurrences and glued back
    together), the data source's [Read] stores the client's two texts
    unchanged, and so the two stored values differ whenever the client's
    text contains the sequence. *)
Theorem Read_paths_differ_on_backslash_r
    (c : client.ADCSClient) (id : string) (certificates : client.Certificate)
    (rreq : certificateResource.ReadRequest)
    (rresp : certificateResource.Resp)
    (dreq : certificateDataSource.ReadRequest)
    (dresp : certificateDataSource.Resp) :
  client.RetrieveCertificates c id = inl certificates ->
  ValueString (certificateCreateModel.ID
                 (Get_value (certificateResource.ReqState rreq))) = id ->
  ValueString (certificateModel.ID
                 (Get_value (certificateDataSource.Config dreq))) = id ->
  Diagnostics_HasError (RespDiagnostics rresp) = false ->
  Diagnostics_HasError (Get_diags (certificateResource.ReqState rreq)) = false ->
  (forall m, Diagnostics_HasError (Schema_Diags (State rresp) m) = false) ->
  (forall m, Diagnostics_HasError (Schema_Diags (State dresp) m) = false) ->
  exists stored_r stored_d,
    Raw (State (fst (run
      (certificateResource.Read {| certificateResource.client := c |} rreq)
      rresp))) = Some stored_r
    /\ Raw (State (fst (run
      (certificateDataSource.Read {| certificateDataSource.client := c |} dreq)
      dresp))) = Some stored_d
    /\ certificateCreateModel.CertificateB64 stored_r
       = StringValue (without_backslash_r (client.CertificateB64 certificates))
    /\ certificateCreateModel.CertificateChainB64 stored_r
       = StringValue
           (without_backslash_r (client.CertificateChainB64 certificates))
    /\ (forall pieces,
          cut_at_backslash_r (client.CertificateB64 certificates) pieces ->
          certificateCreateModel.CertificateB64 stored_r
          = StringValue (String.concat "" pieces))
    /\ (forall pieces,
          cut_at_backslash_r (client.CertificateChainB64 certificates) pieces ->
          certificateCreateModel.CertificateChainB64 stored_r
          = StringValue (String.concat "" pieces))
    /\ certificateModel.CertificateB64 stored_d
       = StringValue (client.CertificateB64 certificates)
    /\ certificateModel.CertificateChainB64 stored_d
       = StringValue (client.CertificateChainB64 certificates)
    /\ certificateCreateModel.ID stored_r = StringValue (client.ID certificates)
    /\ certificateModel.ID stored_d = StringValue (client.ID certificates)
    /\ (strings.Contains (client.CertificateB64 certificates) backslash_r = true ->
        certificateCreateModel.CertificateB64 stored_r
        <> certificateModel.CertificateB64 stored_d)
    /\ (strings.Contains (client.CertificateChainB64 certificates) backslash_r
        = true ->
        certificateCreateModel.CertificateChainB64 stored_r
        <> certificateModel.CertificateChainB64 stored_d).
Proof.
  intros Hc Hr Hd Hresp Hget Hschema_r Hschema_d.
  rewrite resource_Read_run, data_source_Read_run. cbv zeta.
  rewrite HasError_Append, Hresp, Hget. cbn [orb].
  cbn [certificateResource.client certificateDataSource.client].
  rewrite Hr, Hd, Hc.
  cbn [fst State]. unfold state_after_Set.
  rewrite Hschema_r, Hschema_d. cbn [Raw].
  exists (refreshed_model (Get_value (certificateResource.ReqState rreq))
            certificates), (looked_up_model certificates).
  cbn [refreshed_model looked_up_model
       certificateCreateModel.CertificateB64
       certificateCreateModel.CertificateChainB64
       certificateCreateModel.ID certificateModel.ID
       certificateModel.CertificateB64 certificateModel.CertificateChainB64].
  rewrite !Replace_backslash_r.
  repeat split; try reflexivity.
  - intros pieces Hcut. now rewrite (without_backslash_r_cut Hcut).
  - intros pieces Hcut. now rewrite (without_backslash_r_cut Hcut).
  - intros Hin E. injection E as E.
    exact (without_backslash_r_changes Hin E).
  - intros Hin E. injection E as E.
    exact (without_backslash_r_changes Hin E).
Qed.

(** C7.  [Update] leaves the response exactly as it received it, state
    and diagnostics alike, and makes no call at all, hence no remote
    call. *)
Theorem Update_changes_nothing
    (r : certificateResource.t) (req : certificateResource.UpdateRequest)
    (resp : certificateResource.Resp) :
  fst (run (certificateResource.Update r req) resp) = resp
  /\ snd (run (certificateResource.Update r req) resp) = []
  /\ remote_calls (snd (run (certificateResource.Update r req) resp)) = []
  /\ Raw (State (fst (run (certificateResource.Update r req) resp)))
     = Raw (State resp).
Proof. repeat split; reflexivity. Qed.

(** C8.  When the client's [RetrieveCertificates] answers with an error,
    the data source's [Read] ends with an error diagnostic whose detail
    is the client's message, unchanged, under a summary that names the
    failed read; the state is left as it was, [State.Set] is never
    called, and the client has been called exactly once. *)
Theorem data_source_Read_surfaces_client_error
    (d : certificateDataSource.t) (req : certificateDataSource.ReadRequest)
    (resp : certificateDataSource.Resp) (err : error) :
  client.RetrieveCertificates (certificateDataSource.client d)
    (ValueString (certificateModel.ID
                    (Get_value (certificateDataSource.Config req))))
  = inr err ->
  exists reported,
    In reported
       (Diagnostics (fst (run (certificateDataSource.Read d req) resp)))
    /\ DiagSeverity reported = SeverityError
    /\ Detail reported = Error err
    /\ strings.HasPrefix (Summary reported) "Unable to Read certificates for "
       = true
    /\ Diagnostics_HasError
         (Diagnostics (fst (run (certificateDataSource.Read d req) resp)))
       = true
    /\ State (fst (run (certificateDataSource.Read d req) resp)) = State resp
    /\ snd (run (certificateDataSource.Read d req) resp)
       = [CallRetrieveCertificates
            (ValueString (certificateModel.ID
                            (Get_value (certificateDataSource.Config req))))].
Proof.
  intros Herr. rewrite data_source_Read_run. cbv zeta. rewrite Herr.
  cbn [fst snd Diagnostics Response_WithDiagnostics RespDiagnostics State].
  exists (lookup_error (certificateDataSource.reqID_address req) err).
  repeat split.
  - apply In_Append_incoming. now left.
  - rewrite HasError_Append. cbn. apply orb_true_r.
Qed.

(** C9, as the code has it.  The data source's [Read] makes exactly one
    remote call, with the string value of the configured [id] as it is,
    empty or not; when the client answers with a certificate and the
    schema accepts it, that certificate is stored. *)
Theorem data_source_Read_delegates_any_id
    (d : certificateDataSource.t) (req : certificateDataSource.ReadRequest)
    (resp : certificateDataSource.Resp) :
  remote_calls (snd (run (certificateDataSource.Read d req) resp))
  = [CallRetrieveCertificates
       (ValueString (certificateModel.ID
                       (Get_value (certificateDataSource.Config req))))]
  /\ forall certificates,
       client.RetrieveCertificates (certificateDataSource.client d)
         (ValueString (certificateModel.ID
                         (Get_value (certificateDataSource.Config req))))
       = inl certificates ->
       Diagnostics_HasError
         (Schema_Diags (State resp) (looked_up_model certificates)) = false ->
       Raw (State (fst (run (certificateDataSource.Read d req) resp)))
       = Some (looked_up_model certificates).
Proof.
  rewrite data_source_Read_run. cbv zeta. split.
  - destruct (client.RetrieveCertificates _ _); reflexivity.
  - intros certificates -> Hschema. cbn [fst State].
    unfold state_after_Set. now rewrite Hschema.
Qed.

(** C9, as stated, fails: a configuration that sets [id] to the empty
    string satisfies the schema (the attribute is set), and [Read]
    looks up the empty identifier and stores what the server answers,
    without any error. *)
Lemma data_source_Read_accepts_empty_id :
  let req := Samples.lookup (StringValue "") in
  let out := run (certificateDataSource.Read
                    (Samples.data_source Samples.server) req)
               (fresh_Response None accept_all) in
  certificateDataSource.Schema_id_Required
    (Get_value (certificateDataSource.Config req)) = true
  /\ ValueString (certificateModel.ID
                    (Get_value (certificateDataSource.Config req))) = ""
  /\ snd out = [CallRetrieveCertificates ""; CallStateSet]
  /\ Raw (State (fst out)) = Some (looked_up_model Samples.certificate)
  /\ Diagnostics (fst out) = [].
Proof. repeat split; reflexivity. Qed.

End ReadClaims.

Section ReadWitnesses.

Let stored : certificateCreateModel.t :=
  created_model Samples.plan Samples.certificate (Now_RFC850 Samples.world).

Lemma Read_paths_differ_on_backslash_r_witness :
  exists stored_r stored_d,
    Raw (State (fst (run
      (certificateResource.Read (Samples.resource Samples.server)
         {| certificateResource.ReqState := decoded stored |})
      (fresh_Response (Some stored) accept_all)))) = Some stored_r
    /\ Raw (State (fst (run
      (certificateDataSource.Read (Samples.data_source Samples.server)
         (Samples.lookup (StringValue "525135")))
      (fresh_Response None accept_all)))) = Some stored_d
    /\ certificateCreateModel.CertificateB64 stored_r
       = StringValue "MIIDdzCCAl+gAwIBAgIE"
    /\ certificateModel.CertificateB64 stored_d
       = StringValue "MIIDdzCC\rAl+gAwIBAgIE"
    /\ certificateCreateModel.CertificateB64 stored_r
       <> certificateModel.CertificateB64 stored_d.
Proof.
  destruct (@Read_paths_differ_on_backslash_r
              Samples.server "525135" Samples.certificate
              {| certificateResource.ReqState := decoded stored |}
              (fresh_Response (Some stored) accept_all)
              (Samples.lookup (StringValue "525135"))
              (fresh_Response None accept_all)
              eq_refl eq_refl eq_refl eq_refl eq_refl
              (fun _ => eq_refl) (fun _ => eq_refl))
    as (sr & sd & Hr & Hd & Hcert & _ & _ & _ & Hdcert & _ & _ & _ & Hne & _).
  exists sr, sd. repeat split; try assumption.
  apply Hne. reflexivity.
Defined.

Lemma data_source_Read_surfaces_client_error_witness :
  exists reported,
    In reported
       (Diagnostics (fst (run
          (certificateDataSource.Read
             (Samples.data_source Samples.refusing_server)
             (Samples.lookup (StringValue "525135")))
          (fresh_Response None accept_all))))
    /\ Detail reported = "access denied"
    /\ State (fst (run
          (certificateDataSource.Read
             (Samples.data_source Samples.refusing_server)
             (Samples.lookup (StringValue "525135")))
          (fresh_Response None accept_all)))
       = State (fresh_Response None accept_all).
Proof.
  destruct (@data_source_Read_surfaces_client_error
              (Samples.data_source Samples.refusing_server)
              (Samples.lookup (StringValue "525135"))
              (fresh_Response None accept_all) Samples.denied eq_refl)
    as (reported & Hin & _ & Hdetail & _ & _ & Hstate & _).
  exists reported. repeat split; assumption.
Defined.

End ReadWitnesses.

(* ================================================================= *)
(** ** Read after Create *)

Section ReadAfterCreate.
Import certificateCreateModel certificateResource.

(** C10.  [Create] stores the client's certificate and chain verbatim;
    when the server then returns the very same certificate for the
    stored identifier and its text contains the backslash-r sequence,
    the [Read] that follows stores a different certificate text: the
    state [Create] stored is not a fixed point of [Read].  Only the two
    certificate fields change. *)
Theorem Read_after_Create_rewrites_certificate
    (r : certificateResource.t) (w : World) (req : CreateRequest)
    (resp : Resp) (certificates : client.Certificate) :
  client.RequestCertificate (client r)
    (ValueString (CSR (Get_value (Plan req))))
    (ValueString (Template (Get_value (Plan req))))
    (ValueString (Attributes (Get_value (Plan req)))) = inl certificates ->
  client.RetrieveCertificates (client r) (client.ID certificates)
  = inl certificates ->
  (forall m, Diagnostics_HasError (Schema_Diags (State resp) m) = false) ->
  strings.Contains (client.CertificateB64 certificates) backslash_r = true
  \/ strings.Contains (client.CertificateChainB64 certificates) backslash_r
     = true ->
  exists created refreshed,
    Raw (State (fst (run (Create r w req) resp))) = Some created
    /\ Raw (State (fst (run
         (Read r {| ReqState := decoded created |})
         (fresh_Response (Some created) (Schema_Diags (State resp))))))
       = Some refreshed
    /\ CertificateB64 created = StringValue (client.CertificateB64 certificates)
    /\ CertificateChainB64 created
       = StringValue (client.CertificateChainB64 certificates)
    /\ CertificateB64 refreshed
       = StringValue (without_backslash_r (client.CertificateB64 certificates))
    /\ CertificateChainB64 refreshed
       = StringValue
           (without_backslash_r (client.CertificateChainB64 certificates))
    /\ ID refreshed = ID created
    /\ CSR refreshed = CSR created
    /\ Template refreshed = Template created
    /\ Attributes refreshed = Attributes created
    /\ LastUpdated refreshed = LastUpdated created
    /\ (CertificateB64 refreshed <> CertificateB64 created
        \/ CertificateChainB64 refreshed <> CertificateChainB64 created)
    /\ refreshed <> created.
Proof.
  intros Hreq Hret Hschema Hin.
  set (created := created_model (Get_value (Plan req)) certificates
                    (Now_RFC850 w)).
  exists created, (refreshed_model created certificates).
  assert (Hcreated : Raw (State (fst (run (Create r w req) resp)))
                     = Some created).
  { rewrite Create_run. unfold create_answer. rewrite Hreq.
    cbn [fst State]. unfold state_after_Set. now rewrite Hschema. }
  assert (Hrefreshed :
    Raw (State (fst (run
         (Read r {| ReqState := decoded created |})
         (fresh_Response (Some created) (Schema_Diags (State resp))))))
    = Some (refreshed_model created certificates)).
  { rewrite resource_Read_run. cbv zeta.
    cbn [fresh_Response decoded ReqState Get_value Get_diags RespDiagnostics
         Diagnostics_Append State Schema_Diags].
    change (Diagnostics_HasError []) with false. cbv iota.
    subst created. cbn [created_model ID ValueString].
    rewrite Hret. cbn [fst State]. unfold state_after_Set.
    cbn [Schema_Diags]. now rewrite Hschema. }
  assert (Hdiff :
    CertificateB64 (refreshed_model created certificates)
      <> CertificateB64 created
    \/ CertificateChainB64 (refreshed_model created certificates)
         <> CertificateChainB64 created).
  { cbn [refreshed_model created created_model CertificateB64
         CertificateChainB64].
    subst created. cbn [created_model CertificateB64 CertificateChainB64].
    rewrite !Replace_backslash_r.
    destruct Hin as [Hin | Hin]; [left | right];
      intros E; injection E as E;
      exact (without_backslash_r_changes Hin E). }
  repeat split; try assumption; try reflexivity.
  - cbn [refreshed_model CertificateB64]. now rewrite Replace_backslash_r.
  - cbn [refreshed_model CertificateChainB64].
    now rewrite Replace_backslash_r.
  - intros E. destruct Hdiff as [Hd | Hd]; apply Hd; now rewrite E.
Qed.

Lemma Read_after_Create_rewrites_certificate_witness :
  exists created refreshed,
    Raw (State (fst (run
      (Create (Samples.resource Samples.server) Samples.world
         Samples.create_request)
      (fresh_Response None accept_all)))) = Some created
    /\ Raw (State (fst (run
         (Read (Samples.resource Samples.server)
            {| ReqState := decoded created |})
         (fresh_Response (Some created) accept_all)))) = Some refreshed
    /\ CertificateB64 created = StringValue "MIIDdzCC\rAl+gAwIBAgIE"
    /\ CertificateB64 refreshed = StringValue "MIIDdzCCAl+gAwIBAgIE"
    /\ refreshed <> created.
Proof.
  destruct (@Read_after_Create_rewrites_certificate
              (Samples.resource Samples.server) Samples.world
              Samples.create_request (fresh_Response None accept_all)
              Samples.certificate eq_refl eq_refl (fun _ => eq_refl)
              (or_introl eq_refl))
    as (created & refreshed & Hc & Hr & Hcc & _ & Hrc & _ & _ & _ & _ & _
        & _ & _ & Hne).
  exists created, refreshed. repeat split; assumption.
Defined.

(** The converse: when neither text contains the sequence, [Read] stores
    again what [Create] stored. *)
Lemma Read_after_Create_fixed_point
    (r : certificateResource.t) (w : World) (req : CreateRequest)
    (certificates : client.Certificate) :
  strings.Contains (client.CertificateB64 certificates) backslash_r = false ->
  strings.Contains (client.CertificateChainB64 certificates) backslash_r
  = false ->
  refreshed_model
    (created_model (Get_value (Plan req)) certificates (Now_RFC850 w))
    certificates
  = created_model (Get_value (Plan req)) certificates (Now_RFC850 w).
Proof.
  intros Hcert Hchain. unfold refreshed_model, created_model.
  cbn [ID Attributes CSR Template CertificateB64 CertificateChainB64
       LastUpdated].
  rewrite !Replace_backslash_r.
  now rewrite (without_backslash_r_free _ Hcert),
    (without_backslash_r_free _ Hchain).
Qed.

End ReadAfterCreate.

(* ================================================================= *)
(** ** The provider: Configure *)

Section ConfigureFacts.
Import MicrosoftADCSProviderModel MicrosoftADCSProvider.

Lemma Append_app (b c a : DiagnosticsT) :
  Diagnostics_Append (Diagnostics_Append a b) c
  = Diagnostics_Append a (b ++ c).
Proof.
  revert a. induction b as [|d rest IH]; intros a; [reflexivity|].
  cbn. destruct (Diagnostics_Contains a d); apply IH.
Qed.

Lemma Append_nil (a : DiagnosticsT) : Diagnostics_Append a [] = a.
Proof. reflexivity. Qed.

Lemma not_In_Contains (diags : DiagnosticsT) (d : Diagnostic) :
  ~ In d diags -> Diagnostics_Contains diags d = false.
Proof.
  intros H. destruct (Diagnostics_Contains diags d) eqn:C; [|reflexivity].
  exfalso. apply H. now apply Contains_In.
Qed.

(** Diagnostics that are pairwise different and not yet present are all
    added, in order. *)
Lemma Append_fresh (incoming diags : DiagnosticsT) :
  NoDup incoming ->
  (forall d, In d incoming -> ~ In d diags) ->
  Diagnostics_Append diags incoming = diags ++ incoming.
Proof.
  revert diags. induction incoming as [|d rest IH]; intros diags Hnd Hnew.
  - cbn. now rewrite app_nil_r.
  - inversion Hnd as [|? ? Hnotin Hnd']; subst.
    cbn [Diagnostics_Append].
    rewrite not_In_Contains by (apply Hnew; now left).
    rewrite IH; [now rewrite <- app_assoc | assumption |].
    intros x Hx Hin. apply in_app_or in Hin. destruct Hin as [Hin | [-> | []]].
    + apply (Hnew x); [now right | assumption].
    + contradiction.
Qed.

Lemma Append_new_errors (incoming diags : DiagnosticsT) :
  Diagnostics_HasError diags = false ->
  forallb IsError incoming = true ->
  NoDup incoming ->
  Diagnostics_Append diags incoming = diags ++ incoming.
Proof.
  intros Hfree Herr Hnd. apply Append_fresh; [assumption|].
  intros d Hd Hin.
  rewrite forallb_forall in Herr.
  now rewrite (HasError_In _ _ Hin (Herr d Hd)) in Hfree.
Qed.

Lemma check_unknown_run (config : MicrosoftADCSProviderModel.t)
    (resp : ConfigureResponse) (log : list Call) :
  check_unknown config resp log
  = (Next tt,
     with_ConfDiagnostics
       (Diagnostics_Append (ConfDiagnostics resp) (unknown_diags config)) resp,
     log).
Proof.
  destruct resp as [ds rs diags].
  unfold check_unknown, unknown_diags, with_ConfDiagnostics. unfold_ops.
  destruct (IsUnknown (Host config)), (IsUnknown (Username config)),
    (IsUnknown (Password config));
    cbn [app Diagnostics with_Diagnostics ConfigureResponse_WithDiagnostics
         ConfDiagnostics DataSourceData ResourceData];
    rewrite ?Append_app; reflexivity.
Qed.

Lemma check_missing_run (v : Resolved)
    (resp : ConfigureResponse) (log : list Call) :
  check_missing v resp log
  = (Next tt,
     with_ConfDiagnostics
       (Diagnostics_Append (ConfDiagnostics resp) (missing_diags v)) resp,
     log).
Proof.
  destruct resp as [ds rs diags].
  unfold check_missing, missing_diags, with_ConfDiagnostics. unfold_ops.
  destruct (String.eqb (host v) ""), (String.eqb (username v) ""),
    (String.eqb (password v) "");
    cbn [app Diagnostics with_Diagnostics ConfigureResponse_WithDiagnostics
         ConfDiagnostics DataSourceData ResourceData];
    rewrite ?Append_app; reflexivity.
Qed.

(** The second block returns the resolved values, leaves the response
    alone and looks the four variables up in the environment. *)
Lemma resolve_run (w : World) (config : MicrosoftADCSProviderModel.t)
    (resp : ConfigureResponse) (log : list Call) :
  resolve w config resp log
  = (Next (resolved w config), resp, log ++ getenv_calls).
Proof.
  unfold resolve, resolved, getenv_calls. unfold_ops.
  rewrite <- !app_assoc. reflexivity.
Qed.

Variables (p : MicrosoftADCSProvider.t) (w : World) (req : ConfigureRequest).
Variable resp : ConfigureResponse.

Let config := Get_value (Config req).
Let D0 := Diagnostics_Append (ConfDiagnostics resp) (Get_diags (Config req)).
Let D1 := Diagnostics_Append D0 (unknown_diags config).
Let v := resolved w config.
Let D2 := Diagnostics_Append D1 (missing_diags v).

(** What a run of [Configure] leaves, by the stage at which it ends. *)
Lemma Configure_run :
  run (Configure p w req) resp =
  if Diagnostics_HasError D0
  then (with_ConfDiagnostics D0 resp, [log_configuring])
  else if Diagnostics_HasError D1
  then (with_ConfDiagnostics D1 resp, [log_configuring])
  else if Diagnostics_HasError D2
  then (with_ConfDiagnostics D2 resp, log_configuring :: getenv_calls)
  else
    match NewClient w (clientConfig_of v) with
    | inr err =>
        (with_ConfDiagnostics (Diagnostics_Append D2 [NewClientError err]) resp,
         log_configuring :: getenv_calls
           ++ [log_creating; CallNewClient (clientConfig_of v)])
    | inl c =>
        ({| DataSourceData := Some c; ResourceData := Some c;
            ConfDiagnostics := D2 |},
         log_configuring :: getenv_calls
           ++ [log_creating; CallNewClient (clientConfig_of v);
               log_configured])
    end.
Proof.
  subst D2 v D1 D0 config.
  destruct resp as [ds rs diags].
  unfold run, Configure.
  unfold bind at 1. unfold tflog_Info at 1, call at 1.
  unfold bind at 1. unfold resp_Append at 1, modify_resp at 1.
  unfold bind at 1. unfold resp_HasError at 1, bind at 1, get_resp at 1,
    ret at 1.
  cbn [Diagnostics with_Diagnostics ConfigureResponse_WithDiagnostics
       ConfDiagnostics DataSourceData ResourceData app].
  destruct (Diagnostics_HasError (Diagnostics_Append diags _)) eqn:E0;
    [reflexivity|].
  unfold bind at 1. rewrite check_unknown_run.
  unfold bind at 1. unfold resp_HasError at 1, bind at 1, get_resp at 1,
    ret at 1.
  cbn [Diagnostics with_Diagnostics ConfigureResponse_WithDiagnostics
       with_ConfDiagnostics ConfDiagnostics DataSourceData ResourceData].
  destruct (Diagnostics_HasError (Diagnostics_Append (Diagnostics_Append diags _) _))
    eqn:E1; [reflexivity|].
  unfold bind at 1. rewrite resolve_run.
  unfold bind at 1. rewrite check_missing_run.
  unfold bind at 1. unfold resp_HasError at 1, bind at 1, get_resp at 1,
    ret at 1.
  cbn [Diagnostics with_Diagnostics ConfigureResponse_WithDiagnostics
       with_ConfDiagnostics ConfDiagnostics DataSourceData ResourceData].
  destruct (Diagnostics_HasError
              (Diagnostics_Append (Diagnostics_Append (Diagnostics_Append diags _) _) _))
    eqn:E2; [reflexivity|].
  unfold_ops. unfold clientConfig_of.
  destruct (NewClient w _); reflexivity.
Qed.

End ConfigureFacts.

Section ConfigureClaims.
Import MicrosoftADCSProviderModel MicrosoftADCSProvider.

Lemma missing_diags_are_errors (v : Resolved) :
  forallb IsError (missing_diags v) = true.
Proof.
  unfold missing_diags.
  destruct (String.eqb (host v) ""), (String.eqb (username v) ""),
    (String.eqb (password v) ""); reflexivity.
Qed.

Lemma Missing_distinct :
  MissingHost <> MissingUsername /\ MissingHost <> MissingPassword
  /\ MissingUsername <> MissingPassword.
Proof.
  repeat split; intros E; apply (f_equal AttributePath) in E;
    discriminate E.
Qed.

(** The third block adds pairwise different diagnostics, and one for a
    field exactly when the field is empty. *)
Lemma missing_diags_per_field (v : Resolved) :
  NoDup (missing_diags v)
  /\ (In MissingHost (missing_diags v) <-> host v = "")
  /\ (In MissingUsername (missing_diags v) <-> username v = "")
  /\ (In MissingPassword (missing_diags v) <-> password v = "").
Proof.
  destruct Missing_distinct as (Hhu & Hhp & Hup).
  unfold missing_diags.
  destruct (String.eqb_spec (host v) ""),
    (String.eqb_spec (username v) ""),
    (String.eqb_spec (password v) ""); cbn [app];
    (split; [repeat constructor; cbn; intuition congruence |]);
    cbn; intuition congruence.
Qed.

Lemma missing_diags_HasError (v : Resolved) :
  some_field_missing v -> Diagnostics_HasError (missing_diags v) = true.
Proof.
  unfold some_field_missing, missing_diags.
  intros [H | [H | H]]; rewrite H; cbn [String.eqb];
    rewrite !HasError_app; cbn;
    rewrite ?orb_true_r; reflexivity.
Qed.

Lemma unknown_diags_none (config : MicrosoftADCSProviderModel.t) :
  IsUnknown (Host config) = false ->
  IsUnknown (Username config) = false ->
  IsUnknown (Password config) = false ->
  unknown_diags config = [].
Proof. unfold unknown_diags. now intros -> -> ->. Qed.

(** C5, as the code has it.  When a required field (host, username,
    password) is empty after the environment fallback, [Configure] ends
    with an error, never calls [client.NewClient] and hands no client
    to the data sources and resources.  When moreover the configuration
    was decoded without error and none of the three fields is an unknown
    value, so that the fallback is reached, the diagnostics added are
    exactly one error per empty field, pairwise different, in the order
    host, username, password, all in this one pass. *)
Theorem Configure_reports_each_missing_field
    (p : MicrosoftADCSProvider.t) (w : World) (req : ConfigureRequest)
    (resp : ConfigureResponse) :
  some_field_missing (resolved w (Get_value (Config req))) ->
  (Diagnostics_HasError (ConfDiagnostics (fst (run (Configure p w req) resp)))
   = true
   /\ filter is_NewClient (snd (run (Configure p w req) resp)) = []
   /\ DataSourceData (fst (run (Configure p w req) resp)) = DataSourceData resp
   /\ ResourceData (fst (run (Configure p w req) resp)) = ResourceData resp)
  /\ (Diagnostics_HasError (ConfDiagnostics resp) = false ->
      Diagnostics_HasError (Get_diags (Config req)) = false ->
      IsUnknown (Host (Get_value (Config req))) = false ->
      IsUnknown (Username (Get_value (Config req))) = false ->
      IsUnknown (Password (Get_value (Config req))) = false ->
      ConfDiagnostics (fst (run (Configure p w req) resp))
      = Diagnostics_Append (ConfDiagnostics resp) (Get_diags (Config req))
          ++ missing_diags (resolved w (Get_value (Config req)))
      /\ NoDup (missing_diags (resolved w (Get_value (Config req))))
      /\ (In MissingHost (missing_diags (resolved w (Get_value (Config req))))
          <-> host (resolved w (Get_value (Config req))) = "")
      /\ (In MissingUsername
             (missing_diags (resolved w (Get_value (Config req))))
          <-> username (resolved w (Get_value (Config req))) = "")
      /\ (In MissingPassword
             (missing_diags (resolved w (Get_value (Config req))))
          <-> password (resolved w (Get_value (Config req))) = "")).
Proof.
  intros Hmissing. pose proof (missing_diags_HasError Hmissing) as Herr.
  rewrite Configure_run. split.
  - repeat match goal with
           | |- context [if Diagnostics_HasError ?d then _ else _] =>
               destruct (Diagnostics_HasError d) eqn:?
           end; cbn [fst snd with_ConfDiagnostics ConfDiagnostics
                     DataSourceData ResourceData];
      try (repeat split; (assumption || reflexivity)).
    exfalso.
    match goal with
    | H : Diagnostics_HasError (Diagnostics_Append _ (missing_diags _)) = false
      |- _ => rewrite HasError_Append, Herr, orb_true_r in H; discriminate H
    end.
  - intros Hresp Hget Hh Hu Hp.
    rewrite (unknown_diags_none _ Hh Hu Hp), Append_nil.
    assert (H0 : Diagnostics_HasError
                   (Diagnostics_Append (ConfDiagnostics resp)
                      (Get_diags (Config req))) = false)
      by (now rewrite HasError_Append, Hresp, Hget).
    rewrite H0.
    rewrite HasError_Append, H0, Herr. cbn [orb fst with_ConfDiagnostics
                                             ConfDiagnostics].
    split; [|apply missing_diags_per_field].
    apply Append_new_errors;
      [assumption | apply missing_diags_are_errors
      | apply missing_diags_per_field].
Qed.

Lemma Configure_reports_each_missing_field_witness :
  let out := run (Configure Samples.provider Samples.world
                    (Samples.configure_request
                       Samples.config_without_password))
               Samples.provider_response in
  password (resolved Samples.world Samples.config_without_password) = ""
  /\ ConfDiagnostics (fst out) = [MissingPassword]
  /\ filter is_NewClient (snd out) = []
  /\ DataSourceData (fst out) = None.
Proof.
  destruct (@Configure_reports_each_missing_field
              Samples.provider Samples.world
              (Samples.configure_request Samples.config_without_password)
              Samples.provider_response
              (or_intror (or_intror eq_refl)))
    as ((_ & Hnew & Hdata & _) & H).
  destruct (H eq_refl eq_refl eq_refl eq_refl eq_refl) as (Hdiags & _).
  cbv zeta. split; [reflexivity|].
  split; [rewrite Hdiags; reflexivity|].
  split; [exact Hnew | exact Hdata].
Defined.

(** C5, as stated, fails: with a username that is not known yet,
    [Configure] ends at the first block; the password, set neither in the
    configuration nor in the environment, resolves to the empty string
    but is not reported. *)
Lemma Configure_unknown_hides_missing_field :
  let config := Samples.config_unknown_username in
  let out := run (Configure Samples.provider Samples.world
                    (Samples.configure_request config))
               Samples.provider_response in
  (exists v,
     fst (fst (resolve Samples.world config Samples.provider_response []))
     = Next v
     /\ password v = "")
  /\ ConfDiagnostics (fst out) = [UnknownUsername]
  /\ ~ In MissingPassword (ConfDiagnostics (fst out))
  /\ snd out = [log_configuring].
Proof.
  cbv zeta. repeat split.
  - eexists. split; reflexivity.
  - intros [H | []]. apply (f_equal Summary) in H. discriminate H.
Qed.

End ConfigureClaims.

(* ================================================================= *)
(** ** The provider: the stages of Configure *)

Section ConfigureStages.
Import MicrosoftADCSProviderModel MicrosoftADCSProvider.

Lemma unknown_diags_are_errors (config : MicrosoftADCSProviderModel.t) :
  forallb IsError (unknown_diags config) = true.
Proof.
  unfold unknown_diags.
  destruct (IsUnknown (Host config)), (IsUnknown (Username config)),
    (IsUnknown (Password config)); reflexivity.
Qed.

Lemma Unknown_distinct :
  UnknownHost <> UnknownUsername /\ UnknownHost <> UnknownPassword
  /\ UnknownUsername <> UnknownPassword.
Proof.
  repeat split; intros E; apply (f_equal AttributePath) in E; discriminate E.
Qed.

(** The first block adds pairwise different diagnostics, and one for a
    field exactly when the field is unknown. *)
Lemma unknown_diags_per_field (config : MicrosoftADCSProviderModel.t) :
  NoDup (unknown_diags config)
  /\ (In UnknownHost (unknown_diags config)
      <-> IsUnknown (Host config) = true)
  /\ (In UnknownUsername (unknown_diags config)
      <-> IsUnknown (Username config) = true)
  /\ (In UnknownPassword (unknown_diags config)
      <-> IsUnknown (Password config) = true).
Proof.
  destruct Unknown_distinct as (Hhu & Hhp & Hup).
  unfold unknown_diags.
  destruct (IsUnknown (Host config)), (IsUnknown (Username config)),
    (IsUnknown (Password config)); cbn [app];
    (split; [repeat constructor; cbn; intuition congruence |]);
    cbn; intuition congruence.
Qed.

Lemma unknown_diags_HasError (config : MicrosoftADCSProviderModel.t) :
  Diagnostics_HasError (unknown_diags config) = any_unknown config.
Proof.
  unfold unknown_diags, any_unknown.
  destruct (IsUnknown (Host config)), (IsUnknown (Username config)),
    (IsUnknown (Password config)); reflexivity.
Qed.

Lemma missing_diags_any_missing (v : Resolved) :
  Diagnostics_HasError (missing_diags v) = any_missing v.
Proof.
  unfold missing_diags, any_missing.
  destruct (String.eqb (host v) ""), (String.eqb (username v) ""),
    (String.eqb (password v) ""); reflexivity.
Qed.

Lemma error_free_nil (diags : DiagnosticsT) :
  forallb IsError diags = true -> Diagnostics_HasError diags = false ->
  diags = [].
Proof.
  destruct diags as [|d rest]; [reflexivity|].
  cbn. intros H. apply andb_prop in H. destruct H as [-> _]. discriminate.
Qed.

(** A run of [Configure] on a response without errors, for a configuration
    decoded without errors: it ends at the first block (an unknown value),
    at the third (an empty value), or with the answer of
    [client.NewClient]. *)
Lemma Configure_run_clean
    (p : MicrosoftADCSProvider.t) (w : World) (req : ConfigureRequest)
    (resp : ConfigureResponse) :
  Diagnostics_HasError (ConfDiagnostics resp) = false ->
  Diagnostics_HasError (Get_diags (Config req)) = false ->
  run (Configure p w req) resp =
  let config := Get_value (Config req) in
  let v := resolved w config in
  let D0 := Diagnostics_Append (ConfDiagnostics resp) (Get_diags (Config req)) in
  if any_unknown config
  then (with_ConfDiagnostics (D0 ++ unknown_diags config) resp,
        [log_configuring])
  else if any_missing v
  then (with_ConfDiagnostics (D0 ++ missing_diags v) resp,
        log_configuring :: getenv_calls)
  else
    match NewClient w (clientConfig_of v) with
    | inr err =>
        (with_ConfDiagnostics (D0 ++ [NewClientError err]) resp,
         log_configuring :: getenv_calls
           ++ [log_creating; CallNewClient (clientConfig_of v)])
    | inl c =>
        ({| DataSourceData := Some c; ResourceData := Some c;
            ConfDiagnostics := D0 |},
         log_configuring :: getenv_calls
           ++ [log_creating; CallNewClient (clientConfig_of v);
               log_configured])
    end.
Proof.
  intros Hresp Hget. cbv zeta.
  assert (H0 : Diagnostics_HasError
                 (Diagnostics_Append (ConfDiagnostics resp)
                    (Get_diags (Config req))) = false)
    by (now rewrite HasError_Append, Hresp, Hget).
  rewrite Configure_run, H0.
  rewrite (@Append_new_errors _ _ H0
             (unknown_diags_are_errors (Get_value (Config req)))
             (proj1 (unknown_diags_per_field _))).
  rewrite HasError_app, H0, unknown_diags_HasError. cbn [orb].
  destruct (any_unknown (Get_value (Config req))) eqn:Eu; [reflexivity|].
  rewrite (@error_free_nil _ (unknown_diags_are_errors _)
             (eq_trans (unknown_diags_HasError _) Eu)), app_nil_r.
  rewrite (@Append_new_errors _ _ H0
             (missing_diags_are_errors
                (resolved w (Get_value (Config req))))
             (proj1 (missing_diags_per_field _))).
  rewrite HasError_app, H0, missing_diags_any_missing. cbn [orb].
  destruct (any_missing _) eqn:Em; [reflexivity|].
  rewrite (@error_free_nil _ (missing_diags_are_errors _)
             (eq_trans (missing_diags_any_missing _) Em)), app_nil_r.
  destruct (NewClient w _) as [c|err]; [reflexivity|].
  rewrite (@Append_new_errors [NewClientError err] _ H0 eq_refl);
    [reflexivity|].
  repeat constructor. intros [].
Qed.

Lemma any_missing_false (v : Resolved) :
  host v <> "" -> username v <> "" -> password v <> "" ->
  any_missing v = false.
Proof.
  intros Nh Nu Np. unfold any_missing.
  rewrite !orb_false_iff, !String.eqb_neq. tauto.
Qed.

Lemma any_missing_false_inv (v : Resolved) :
  any_missing v = false ->
  host v <> "" /\ username v <> "" /\ password v <> "".
Proof.
  unfold any_missing. rewrite !orb_false_iff, !String.eqb_neq. tauto.
Qed.

End ConfigureStages.

Section ConfigureResolution.
Import MicrosoftADCSProviderModel MicrosoftADCSProvider.

Lemma Missing_not_in_clean (diags : DiagnosticsT) (d : Diagnostic) :
  Diagnostics_HasError diags = false -> IsError d = true -> ~ In d diags.
Proof.
  intros Hfree He Hin. now rewrite (HasError_In _ _ Hin He) in Hfree.
Qed.

(** C4.  When [Configure] gets past its first block (a response without
    errors, a configuration decoded without errors, host, username and
    password not unknown), it looks the four environment variables up and
    works with resolved values: for each of host, username, password and
    krb5conf the configured value whenever the configuration sets one (the
    value is not null), whatever the environment says, and the value of
    ADCS_HOST, ADCS_USERNAME, ADCS_PASSWORD or ADCS_KRB5CONF when the
    configuration leaves it null.  These values are what the run shows: a
    field is reported as missing exactly when its resolved value is empty,
    and when none is empty [client.NewClient] is called, once, with
    exactly the resolved values. *)
Theorem Configure_explicit_value_overrides_environment
    (p : MicrosoftADCSProvider.t) (w : World) (req : ConfigureRequest)
    (resp : ConfigureResponse) :
  Diagnostics_HasError (ConfDiagnostics resp) = false ->
  Diagnostics_HasError (Get_diags (Config req)) = false ->
  IsUnknown (Host (Get_value (Config req))) = false ->
  IsUnknown (Username (Get_value (Config req))) = false ->
  IsUnknown (Password (Get_value (Config req))) = false ->
  exists v,
    (IsNull (Host (Get_value (Config req))) = false ->
     host v = ValueString (Host (Get_value (Config req))))
    /\ (IsNull (Host (Get_value (Config req))) = true ->
        host v = Getenv w "ADCS_HOST")
    /\ (IsNull (Username (Get_value (Config req))) = false ->
        username v = ValueString (Username (Get_value (Config req))))
    /\ (IsNull (Username (Get_value (Config req))) = true ->
        username v = Getenv w "ADCS_USERNAME")
    /\ (IsNull (Password (Get_value (Config req))) = false ->
        password v = ValueString (Password (Get_value (Config req))))
    /\ (IsNull (Password (Get_value (Config req))) = true ->
        password v = Getenv w "ADCS_PASSWORD")
    /\ (IsNull (Krb5Conf (Get_value (Config req))) = false ->
        krb5conf v = ValueString (Krb5Conf (Get_value (Config req))))
    /\ (IsNull (Krb5Conf (Get_value (Config req))) = true ->
        krb5conf v = Getenv w "ADCS_KRB5CONF")
    /\ (forall r l,
          resolve w (Get_value (Config req)) r l
          = (Next v, r,
             l ++ [CallGetenv "ADCS_HOST"; CallGetenv "ADCS_USERNAME";
                   CallGetenv "ADCS_PASSWORD"; CallGetenv "ADCS_KRB5CONF"]))
    /\ (exists rest,
          snd (run (Configure p w req) resp)
          = log_configuring
              :: [CallGetenv "ADCS_HOST"; CallGetenv "ADCS_USERNAME";
                  CallGetenv "ADCS_PASSWORD"; CallGetenv "ADCS_KRB5CONF"]
              ++ rest)
    /\ (In MissingHost (ConfDiagnostics (fst (run (Configure p w req) resp)))
        <-> host v = "")
    /\ (In MissingUsername
          (ConfDiagnostics (fst (run (Configure p w req) resp)))
        <-> username v = "")
    /\ (In MissingPassword
          (ConfDiagnostics (fst (run (Configure p w req) resp)))
        <-> password v = "")
    /\ (host v = "" \/ username v = "" \/ password v = "" ->
        filter is_NewClient (snd (run (Configure p w req) resp)) = [])
    /\ (host v <> "" -> username v <> "" -> password v <> "" ->
        filter is_NewClient (snd (run (Configure p w req) resp))
        = [CallNewClient
             {| client.Host := host v;
                client.Username := username v;
                client.Password := password v;
                client.Krb5Conf := krb5conf v;
                client.Ntlm := ValueBool (Ntlm (Get_value (Config req))) |}]).
Proof.
  intros Hresp Hget Hh Hu Hp.
  assert (H0 : Diagnostics_HasError
                 (Diagnostics_Append (ConfDiagnostics resp)
                    (Get_diags (Config req))) = false)
    by (now rewrite HasError_Append, Hresp, Hget).
  assert (Eu : any_unknown (Get_value (Config req)) = false)
    by (unfold any_unknown; now rewrite Hh, Hu, Hp).
  exists (resolved w (Get_value (Config req))).
  assert (Hvalues :
    (IsNull (Host (Get_value (Config req))) = false ->
     host (resolved w (Get_value (Config req)))
     = ValueString (Host (Get_value (Config req))))
    /\ (IsNull (Host (Get_value (Config req))) = true ->
        host (resolved w (Get_value (Config req))) = Getenv w "ADCS_HOST")
    /\ (IsNull (Username (Get_value (Config req))) = false ->
        username (resolved w (Get_value (Config req)))
        = ValueString (Username (Get_value (Config req))))
    /\ (IsNull (Username (Get_value (Config req))) = true ->
        username (resolved w (Get_value (Config req)))
        = Getenv w "ADCS_USERNAME")
    /\ (IsNull (Password (Get_value (Config req))) = false ->
        password (resolved w (Get_value (Config req)))
        = ValueString (Password (Get_value (Config req))))
    /\ (IsNull (Password (Get_value (Config req))) = true ->
        password (resolved w (Get_value (Config req)))
        = Getenv w "ADCS_PASSWORD")
    /\ (IsNull (Krb5Conf (Get_value (Config req))) = false ->
        krb5conf (resolved w (Get_value (Config req)))
        = ValueString (Krb5Conf (Get_value (Config req))))
    /\ (IsNull (Krb5Conf (Get_value (Config req))) = true ->
        krb5conf (resolved w (Get_value (Config req)))
        = Getenv w "ADCS_KRB5CONF")).
  { unfold resolved. cbn [host username password krb5conf].
    repeat split; intros ->; reflexivity. }
  destruct Hvalues as (V1 & V2 & V3 & V4 & V5 & V6 & V7 & V8).
  do 8 (split; [assumption|]).
  split; [intros r l; apply resolve_run|].
  destruct (missing_diags_per_field (resolved w (Get_value (Config req))))
    as (_ & Mh & Mu & Mp).
  assert (Hclean : forall d, IsError d = true ->
            ~ In d (Diagnostics_Append (ConfDiagnostics resp)
                      (Get_diags (Config req))))
    by (intros d; now apply Missing_not_in_clean).
  rewrite (Configure_run_clean p w req resp Hresp Hget). cbv zeta.
  rewrite Eu.
  destruct (any_missing (resolved w (Get_value (Config req)))) eqn:Em.
  - cbn [fst snd with_ConfDiagnostics ConfDiagnostics].
    split; [exists []; reflexivity|].
    assert (Hin : forall d, IsError d = true ->
              (In d (Diagnostics_Append (ConfDiagnostics resp)
                       (Get_diags (Config req))
                     ++ missing_diags (resolved w (Get_value (Config req))))
               <-> In d (missing_diags (resolved w (Get_value (Config req)))))).
    { intros d Hd. rewrite in_app_iff. pose proof (Hclean d Hd). tauto. }
    split; [rewrite (Hin MissingHost eq_refl); exact Mh|].
    split; [rewrite (Hin MissingUsername eq_refl); exact Mu|].
    split; [rewrite (Hin MissingPassword eq_refl); exact Mp|].
    split; [reflexivity|].
    intros Nh Nu Np.
    assert (any_missing (resolved w (Get_value (Config req))) = false)
      by (apply any_missing_false; auto).
    congruence.
  - pose proof (any_missing_false_inv _ Em) as (Nh & Nu & Np).
    assert (Hnone : forall d,
              IsError d = true -> AttributePath d <> None ->
              forall extra,
                (extra = [] \/ exists err, extra = [NewClientError err]) ->
                ~ In d (Diagnostics_Append (ConfDiagnostics resp)
                          (Get_diags (Config req)) ++ extra)).
    { intros d Hd Hpath extra Hextra Hin. apply in_app_or in Hin.
      destruct Hin as [Hin | Hin]; [now apply (Hclean d Hd)|].
      destruct Hextra as [-> | [err ->]]; [destruct Hin|].
      destruct Hin as [<- | []]. now apply Hpath. }
    destruct (NewClient w _) as [c|err];
      cbn [fst snd with_ConfDiagnostics ConfDiagnostics filter is_NewClient
           getenv_calls app log_configuring log_creating log_configured].
    + split; [eexists; reflexivity|].
      split; [split; [intros Hin; destruct (Hclean MissingHost eq_refl Hin)
                     | intros E; destruct (Nh E)]|].
      split; [split; [intros Hin; destruct (Hclean MissingUsername eq_refl Hin)
                     | intros E; destruct (Nu E)]|].
      split; [split; [intros Hin; destruct (Hclean MissingPassword eq_refl Hin)
                     | intros E; destruct (Np E)]|].
      split; [intros [E | [E | E]]; [destruct (Nh E) | destruct (Nu E)
                                     | destruct (Np E)]|].
      intros _ _ _. reflexivity.
    + assert (Hextra : [NewClientError err] = []
                       \/ exists e, [NewClientError err] = [NewClientError e])
        by (right; now exists err).
      split; [eexists; reflexivity|].
      split; [split; [intros Hin;
                      destruct (Hnone MissingHost eq_refl
                                  ltac:(discriminate) _ Hextra Hin)
                     | intros E; destruct (Nh E)]|].
      split; [split; [intros Hin;
                      destruct (Hnone MissingUsername eq_refl
                                  ltac:(discriminate) _ Hextra Hin)
                     | intros E; destruct (Nu E)]|].
      split; [split; [intros Hin;
                      destruct (Hnone MissingPassword eq_refl
                                  ltac:(discriminate) _ Hextra Hin)
                     | intros E; destruct (Np E)]|].
      split; [intros [E | [E | E]]; [destruct (Nh E) | destruct (Nu E)
                                     | destruct (Np E)]|].
      intros _ _ _. reflexivity.
Qed.

Lemma Configure_explicit_value_overrides_environment_witness :
  Getenv Samples.world "ADCS_HOST" = "env.company.local"
  /\ filter is_NewClient
       (snd (run (Configure Samples.provider Samples.world
                    (Samples.configure_request MoreSamples.full_config))
               Samples.provider_response))
     = [CallNewClient
          {| client.Host := "server.company.local";
             client.Username := "Username";
             client.Password := "secret";
             client.Krb5Conf := "/etc/krb5.conf";
             client.Ntlm := false |}].
Proof.
  split; [reflexivity|].
  destruct (@Configure_explicit_value_overrides_environment
              Samples.provider Samples.world
              (Samples.configure_request MoreSamples.full_config)
              Samples.provider_response
              eq_refl eq_refl eq_refl eq_refl eq_refl)
    as (v & Hh & _ & Hu & _ & Hp & _ & _ & Hk & _ & _ & _ & _ & _ & _ & Hcall).
  rewrite Hcall.
  - rewrite (Hh eq_refl), (Hu eq_refl), (Hp eq_refl), (Hk eq_refl).
    reflexivity.
  - rewrite (Hh eq_refl). discriminate.
  - rewrite (Hu eq_refl). discriminate.
  - rewrite (Hp eq_refl). discriminate.
Defined.

End ConfigureResolution.

Section ConfigureExtras.
Import MicrosoftADCSProviderModel MicrosoftADCSProvider.

Lemma any_unknown_false_iff (config : MicrosoftADCSProviderModel.t) :
  any_unknown config = false
  <-> IsUnknown (Host config) = false /\ IsUnknown (Username config) = false
      /\ IsUnknown (Password config) = false.
Proof.
  unfold any_unknown. rewrite !orb_false_iff. tauto.
Qed.

Lemma any_missing_false_iff (v : Resolved) :
  any_missing v = false
  <-> host v <> "" /\ username v <> "" /\ password v <> "".
Proof.
  unfold any_missing. rewrite !orb_false_iff, !String.eqb_neq. tauto.
Qed.

(** X1.  On a response without errors and a configuration decoded without
    errors, [Configure] ends without an error exactly when host, username
    and password are all known values, all three are non-empty after the
    environment fallback, and [client.NewClient] returns a client; the
    client is then handed to data sources and resources alike, no
    diagnostic is added, and [client.NewClient] has been called once. *)
Theorem Configure_succeeds_exactly_when
    (p : MicrosoftADCSProvider.t) (w : World) (req : ConfigureRequest)
    (resp : ConfigureResponse) :
  Diagnostics_HasError (ConfDiagnostics resp) = false ->
  Diagnostics_HasError (Get_diags (Config req)) = false ->
  (Diagnostics_HasError (ConfDiagnostics (fst (run (Configure p w req) resp)))
   = false
   <-> (IsUnknown (Host (Get_value (Config req))) = false
        /\ IsUnknown (Username (Get_value (Config req))) = false
        /\ IsUnknown (Password (Get_value (Config req))) = false)
       /\ (host (resolved w (Get_value (Config req))) <> ""
           /\ username (resolved w (Get_value (Config req))) <> ""
           /\ password (resolved w (Get_value (Config req))) <> "")
       /\ exists c,
            NewClient w (clientConfig_of (resolved w (Get_value (Config req))))
            = inl c)
  /\ (forall c,
        Diagnostics_HasError
          (ConfDiagnostics (fst (run (Configure p w req) resp))) = false ->
        NewClient w (clientConfig_of (resolved w (Get_value (Config req))))
        = inl c ->
        DataSourceData (fst (run (Configure p w req) resp)) = Some c
        /\ ResourceData (fst (run (Configure p w req) resp)) = Some c
        /\ ConfDiagnostics (fst (run (Configure p w req) resp))
           = Diagnostics_Append (ConfDiagnostics resp) (Get_diags (Config req))
        /\ filter is_NewClient (snd (run (Configure p w req) resp))
           = [CallNewClient
                (clientConfig_of (resolved w (Get_value (Config req))))]).
Proof.
  intros Hresp Hget.
  assert (H0 : Diagnostics_HasError
                 (Diagnostics_Append (ConfDiagnostics resp)
                    (Get_diags (Config req))) = false)
    by (now rewrite HasError_Append, Hresp, Hget).
  rewrite (Configure_run_clean p w req resp Hresp Hget). cbv zeta.
  rewrite <- any_unknown_false_iff, <- any_missing_false_iff.
  destruct (any_unknown _) eqn:Eu.
  { cbn [fst snd with_ConfDiagnostics ConfDiagnostics].
    rewrite HasError_app, H0, unknown_diags_HasError, Eu. cbn [orb].
    split; [split|]; try discriminate.
    intros (E & _); discriminate E. }
  destruct (any_missing _) eqn:Em.
  { cbn [fst snd with_ConfDiagnostics ConfDiagnostics].
    rewrite HasError_app, H0, missing_diags_any_missing, Em. cbn [orb].
    split; [split|]; try discriminate.
    intros (_ & E & _); discriminate E. }
  destruct (NewClient w _) as [c|err].
  - cbn [fst snd ConfDiagnostics DataSourceData ResourceData].
    split; [split|].
    + intros _. repeat split. now exists c.
    + intros _. exact H0.
    + intros c' _ E. injection E as <-. repeat split.
  - cbn [fst snd with_ConfDiagnostics ConfDiagnostics].
    rewrite HasError_app, H0. cbn [orb].
    split; [split|]; try discriminate.
    intros (_ & _ & c & E). discriminate E.
Qed.

Lemma Configure_succeeds_exactly_when_witness :
  Diagnostics_HasError
    (ConfDiagnostics
       (fst (run (Configure Samples.provider Samples.world
                    (Samples.configure_request MoreSamples.full_config))
               Samples.provider_response))) = false.
Proof.
  apply (proj1 (Configure_succeeds_exactly_when Samples.provider Samples.world
                  (Samples.configure_request MoreSamples.full_config)
                  Samples.provider_response eq_refl eq_refl)).
  split; [repeat split|split; [repeat split; discriminate|]].
  exists Samples.server. reflexivity.
Defined.

(** X2.  When the three fields are known and non-empty but
    [client.NewClient] fails, [Configure] adds one error whose detail ends
    with the constructor's own message, hands no client to data sources or
    resources, and has called [client.NewClient] exactly once. *)
Theorem Configure_surfaces_NewClient_error
    (p : MicrosoftADCSProvider.t) (w : World) (req : ConfigureRequest)
    (resp : ConfigureResponse) (err : error) :
  Diagnostics_HasError (ConfDiagnostics resp) = false ->
  Diagnostics_HasError (Get_diags (Config req)) = false ->
  any_unknown (Get_value (Config req)) = false ->
  any_missing (resolved w (Get_value (Config req))) = false ->
  NewClient w (clientConfig_of (resolved w (Get_value (Config req))))
  = inr err ->
  exists reported prefix,
    ConfDiagnostics (fst (run (Configure p w req) resp))
    = Diagnostics_Append (ConfDiagnostics resp) (Get_diags (Config req))
        ++ [reported]
    /\ DiagSeverity reported = SeverityError
    /\ Summary reported
       = "Unable to Create Active Directory Certificate Services API Client"
    /\ Detail reported = (prefix ++ "ADCS Client Error: " ++ Error err)%string
    /\ DataSourceData (fst (run (Configure p w req) resp)) = DataSourceData resp
    /\ ResourceData (fst (run (Configure p w req) resp)) = ResourceData resp
    /\ filter is_NewClient (snd (run (Configure p w req) resp))
       = [CallNewClient (clientConfig_of (resolved w (Get_value (Config req))))].
Proof.
  intros Hresp Hget Hu Hm Herr.
  rewrite (Configure_run_clean p w req resp Hresp Hget). cbv zeta.
  rewrite Hu, Hm, Herr.
  exists (NewClientError err).
  exists ("An unexpected error occurred when creating the Active Directory Certificate Services API client. "
          ++ "If the error is not clear, please contact the provider developers."
          ++ String (ascii_of_nat 10) (String (ascii_of_nat 10) ""))%string.
  cbn [fst snd with_ConfDiagnostics ConfDiagnostics DataSourceData ResourceData].
  repeat split.
Qed.

Lemma Configure_surfaces_NewClient_error_witness :
  exists reported,
    ConfDiagnostics
      (fst (run (Configure Samples.provider MoreSamples.world_without_server
                   (Samples.configure_request MoreSamples.full_config))
              Samples.provider_response)) = [reported]
    /\ DataSourceData
         (fst (run (Configure Samples.provider MoreSamples.world_without_server
                      (Samples.configure_request MoreSamples.full_config))
                 Samples.provider_response)) = None.
Proof.
  destruct (@Configure_surfaces_NewClient_error
              Samples.provider MoreSamples.world_without_server
              (Samples.configure_request MoreSamples.full_config)
              Samples.provider_response {| Error := "kdc unreachable" |}
              eq_refl eq_refl eq_refl eq_refl eq_refl)
    as (reported & prefix & Hdiags & _ & _ & _ & Hdata & _).
  exists reported. split; [exact Hdiags | exact Hdata].
Defined.

(** X3.  When one or more of host, username, password are unknown values,
    [Configure] reports exactly one error per unknown field, pairwise
    different and in the order host, username, password, and stops there:
    the environment is never consulted, [client.NewClient] is never
    called, and no client is handed over. *)
Theorem Configure_reports_each_unknown_field
    (p : MicrosoftADCSProvider.t) (w : World) (req : ConfigureRequest)
    (resp : ConfigureResponse) :
  Diagnostics_HasError (ConfDiagnostics resp) = false ->
  Diagnostics_HasError (Get_diags (Config req)) = false ->
  IsUnknown (Host (Get_value (Config req))) = true
  \/ IsUnknown (Username (Get_value (Config req))) = true
  \/ IsUnknown (Password (Get_value (Config req))) = true ->
  ConfDiagnostics (fst (run (Configure p w req) resp))
  = Diagnostics_Append (ConfDiagnostics resp) (Get_diags (Config req))
      ++ unknown_diags (Get_value (Config req))
  /\ NoDup (unknown_diags (Get_value (Config req)))
  /\ (In UnknownHost (unknown_diags (Get_value (Config req)))
      <-> IsUnknown (Host (Get_value (Config req))) = true)
  /\ (In UnknownUsername (unknown_diags (Get_value (Config req)))
      <-> IsUnknown (Username (Get_value (Config req))) = true)
  /\ (In UnknownPassword (unknown_diags (Get_value (Config req)))
      <-> IsUnknown (Password (Get_value (Config req))) = true)
  /\ snd (run (Configure p w req) resp) = [log_configuring]
  /\ DataSourceData (fst (run (Configure p w req) resp)) = DataSourceData resp
  /\ ResourceData (fst (run (Configure p w req) resp)) = ResourceData resp.
Proof.
  intros Hresp Hget Hunknown.
  assert (Eu : any_unknown (Get_value (Config req)) = true).
  { unfold any_unknown.
    destruct Hunknown as [-> | [-> | ->]];
      rewrite ?orb_true_r; reflexivity. }
  rewrite (Configure_run_clean p w req resp Hresp Hget). cbv zeta.
  rewrite Eu.
  cbn [fst snd with_ConfDiagnostics ConfDiagnostics DataSourceData ResourceData].
  split; [reflexivity|].
  destruct (unknown_diags_per_field (Get_value (Config req)))
    as (Hnd & Hh & Hu & Hp).
  repeat split; try assumption; try apply Hh; try apply Hu; try apply Hp.
Qed.

Lemma Configure_reports_each_unknown_field_witness :
  ConfDiagnostics
    (fst (run (Configure Samples.provider Samples.world
                 (Samples.configure_request Samples.config_unknown_username))
            Samples.provider_response))
  = [UnknownUsername]
  /\ snd (run (Configure Samples.provider Samples.world
                 (Samples.configure_request Samples.config_unknown_username))
            Samples.provider_response) = [log_configuring].
Proof.
  destruct (@Configure_reports_each_unknown_field
              Samples.provider Samples.world
              (Samples.configure_request Samples.config_unknown_username)
              Samples.provider_response eq_refl eq_refl
              (or_intror (or_introl eq_refl)))
    as (Hdiags & _ & _ & _ & _ & Hlog & _).
  split; [rewrite Hdiags; reflexivity | exact Hlog].
Defined.

(** X4.  Whatever the configuration, the environment and the response it
    starts from, [Configure] never requests or retrieves a certificate and
    never writes a state; it calls [client.NewClient] at most once, with
    the resolved values, and when it does, it has looked up the four
    environment variables just before. *)
Theorem Configure_call_discipline
    (p : MicrosoftADCSProvider.t) (w : World) (req : ConfigureRequest)
    (resp : ConfigureResponse) :
  remote_calls (snd (run (Configure p w req) resp)) = []
  /\ filter is_StateSet (snd (run (Configure p w req) resp)) = []
  /\ (filter is_NewClient (snd (run (Configure p w req) resp)) = []
      \/ (filter is_NewClient (snd (run (Configure p w req) resp))
          = [CallNewClient
               (clientConfig_of (resolved w (Get_value (Config req))))]
          /\ exists rest,
               snd (run (Configure p w req) resp)
               = log_configuring
                   :: [CallGetenv "ADCS_HOST"; CallGetenv "ADCS_USERNAME";
                       CallGetenv "ADCS_PASSWORD"; CallGetenv "ADCS_KRB5CONF"]
                   ++ log_creating
                   :: CallNewClient
                        (clientConfig_of (resolved w (Get_value (Config req))))
                   :: rest)).
Proof.
  rewrite Configure_run.
  repeat match goal with
         | |- context [if Diagnostics_HasError ?d then _ else _] =>
             destruct (Diagnostics_HasError d)
         end; cbn [snd];
    try (repeat split; left; reflexivity).
  destruct (NewClient w _); cbn [snd]; repeat split;
    right; (split; [reflexivity|]); eexists; reflexivity.
Qed.

End ConfigureExtras.

(* ================================================================= *)
(** ** Handing the client to the resource and the data source *)

Section ClientHandOver.
Import MicrosoftADCSProviderModel MicrosoftADCSProvider.

(** X5.  When the provider's [Configure] ends without an error, the client
    that [client.NewClient] returned is the one the resource's [Configure]
    and the data source's [Configure] install from the provider data, both
    without a diagnostic: the resource and the data source share one
    client. *)
Theorem Configure_shares_one_client
    (p : MicrosoftADCSProvider.t) (w : World) (req : ConfigureRequest)
    (resp : ConfigureResponse) :
  Diagnostics_HasError (ConfDiagnostics (fst (run (Configure p w req) resp)))
  = false ->
  exists c,
    NewClient w (clientConfig_of (resolved w (Get_value (Config req)))) = inl c
    /\ run (certificateResource.Configure
              {| certificateResource.ProviderData :=
                   as_ProviderData
                     (ResourceData (fst (run (Configure p w req) resp))) |})
           not_configured
       = ({| client_field := Some c; ConfiguredDiagnostics := [] |}, [])
    /\ run (certificateDataSource.Configure
              {| certificateDataSource.ProviderData :=
                   as_ProviderData
                     (DataSourceData (fst (run (Configure p w req) resp))) |})
           not_configured
       = ({| client_field := Some c; ConfiguredDiagnostics := [] |}, []).
Proof.
  rewrite Configure_run.
  repeat match goal with
         | |- context [if Diagnostics_HasError ?d then _ else _] =>
             destruct (Diagnostics_HasError d) eqn:?
         end;
    cbn [fst with_ConfDiagnostics ConfDiagnostics];
    try congruence.
  destruct (NewClient w _) as [c|err];
    cbn [fst with_ConfDiagnostics ConfDiagnostics DataSourceData ResourceData].
  - intros _. exists c. repeat split.
  - rewrite HasError_Append. cbn. rewrite orb_true_r. discriminate.
Qed.

Lemma Configure_shares_one_client_witness :
  run (certificateResource.Configure
         {| certificateResource.ProviderData :=
              as_ProviderData
                (ResourceData
                   (fst (run (Configure Samples.provider Samples.world
                                (Samples.configure_request
                                   MoreSamples.full_config))
                           Samples.provider_response))) |})
      not_configured
  = ({| client_field := Some Samples.server; ConfiguredDiagnostics := [] |}, []).
Proof.
  destruct (@Configure_shares_one_client
              Samples.provider Samples.world
              (Samples.configure_request MoreSamples.full_config)
              Samples.provider_response eq_refl)
    as (c & Hc & Hr & _).
  injection Hc as <-. exact Hr.
Defined.

(** X6.  The [Configure] of the resource and that of the data source treat
    the provider data alike and make no call.  Nil provider data changes
    nothing; a client is installed without a diagnostic; provider data of
    another type leaves the client as it was and is reported as an
    "Unexpected Data Source Configure Type" error naming that type. *)
Theorem Configure_installs_only_a_client
    (data : ProviderDataValue) (st : Configured) :
  run (certificateResource.Configure
         {| certificateResource.ProviderData := data |}) st
  = run (certificateDataSource.Configure
           {| certificateDataSource.ProviderData := data |}) st
  /\ snd (run (certificateResource.Configure
                {| certificateResource.ProviderData := data |}) st) = []
  /\ (data = ProviderDataNil ->
      fst (run (certificateResource.Configure
                  {| certificateResource.ProviderData := data |}) st) = st)
  /\ (forall c, data = ProviderDataClient c ->
      fst (run (certificateResource.Configure
                  {| certificateResource.ProviderData := data |}) st)
      = {| client_field := c;
           ConfiguredDiagnostics := ConfiguredDiagnostics st |})
  /\ (forall type_name, data = ProviderDataOther type_name ->
      client_field
        (fst (run (certificateResource.Configure
                     {| certificateResource.ProviderData := data |}) st))
      = client_field st
      /\ In (NewErrorDiagnostic
               "Unexpected Data Source Configure Type"
               ("Expected *client.ADCSClient, got: " ++ type_name
                  ++ ". Please report this issue to the provider developers."))
            (ConfiguredDiagnostics
               (fst (run (certificateResource.Configure
                            {| certificateResource.ProviderData := data |})
                       st)))).
Proof.
  repeat split.
  - destruct data; reflexivity.
  - now intros ->.
  - now intros c ->.
  - subst data. reflexivity.
  - subst data.
    unfold certificateResource.Configure. unfold_ops.
    cbn [certificateResource.ProviderData fst Diagnostics with_Diagnostics
         Configured_WithDiagnostics ConfiguredDiagnostics].
    apply In_Append_incoming. now left.
Qed.

End ClientHandOver.

(* ================================================================= *)
(** ** The certificate resource: further behaviour of Create and Read *)

Section ResourceExtras.
Import certificateCreateModel certificateResource.

(** X7.  When the client's [RetrieveCertificates] answers with an error,
    the resource's [Read] reports "Error Reading Certificate" with a detail
    that names the identifier looked up and carries the client's message;
    the state is left as it was, [State.Set] is not called and the client
    has been called exactly once. *)
Theorem resource_Read_surfaces_client_error
    (r : certificateResource.t) (req : ReadRequest) (resp : Resp)
    (err : error) :
  Diagnostics_HasError (RespDiagnostics resp) = false ->
  Diagnostics_HasError (Get_diags (ReqState req)) = false ->
  client.RetrieveCertificates (client r)
    (ValueString (ID (Get_value (ReqState req)))) = inr err ->
  In (NewErrorDiagnostic
        "Error Reading Certificate"
        ("Could not read Certificate ID "
           ++ ValueString (ID (Get_value (ReqState req)))
           ++ ":" ++ Error err))
     (Diagnostics (fst (run (Read r req) resp)))
  /\ Diagnostics_HasError (Diagnostics (fst (run (Read r req) resp))) = true
  /\ State (fst (run (Read r req) resp)) = State resp
  /\ snd (run (Read r req) resp)
     = [CallRetrieveCertificates (ValueString (ID (Get_value (ReqState req))))].
Proof.
  intros Hresp Hget Herr.
  rewrite resource_Read_run. cbv zeta.
  rewrite HasError_Append, Hresp, Hget, Herr.
  cbn [orb fst snd Diagnostics Response_WithDiagnostics RespDiagnostics State].
  repeat split.
  - apply In_Append_incoming. now left.
  - rewrite HasError_Append. cbn. apply orb_true_r.
Qed.

Lemma resource_Read_surfaces_client_error_witness :
  In (NewErrorDiagnostic
        "Error Reading Certificate"
        "Could not read Certificate ID 525135:access denied")
     (Diagnostics
        (fst (run (Read (Samples.resource Samples.refusing_server)
                     {| ReqState := decoded MoreSamples.stored |})
                (fresh_Response (Some MoreSamples.stored) accept_all))))
  /\ Raw (State
           (fst (run (Read (Samples.resource Samples.refusing_server)
                        {| ReqState := decoded MoreSamples.stored |})
                   (fresh_Response (Some MoreSamples.stored) accept_all))))
     = Some MoreSamples.stored.
Proof.
  destruct (@resource_Read_surfaces_client_error
              (Samples.resource Samples.refusing_server)
              {| ReqState := decoded MoreSamples.stored |}
              (fresh_Response (Some MoreSamples.stored) accept_all)
              Samples.denied eq_refl eq_refl eq_refl)
    as (Hin & _ & Hstate & _).
  split; [exact Hin | now rewrite Hstate].
Defined.

(** X8.  When the stored state cannot be decoded without an error (or the
    response already carries one), the resource's [Read] stops before
    contacting the server: it makes no call at all and leaves the state as
    it was. *)
Theorem resource_Read_stops_on_decode_error
    (r : certificateResource.t) (req : ReadRequest) (resp : Resp) :
  Diagnostics_HasError (RespDiagnostics resp) = true
  \/ Diagnostics_HasError (Get_diags (ReqState req)) = true ->
  snd (run (Read r req) resp) = []
  /\ State (fst (run (Read r req) resp)) = State resp
  /\ RespDiagnostics (fst (run (Read r req) resp))
     = Diagnostics_Append (RespDiagnostics resp) (Get_diags (ReqState req)).
Proof.
  intros H. rewrite resource_Read_run. cbv zeta.
  rewrite HasError_Append.
  replace (Diagnostics_HasError (RespDiagnostics resp)
           || Diagnostics_HasError (Get_diags (ReqState req))) with true
    by (destruct H as [-> | ->]; rewrite ?orb_true_r; reflexivity).
  repeat split.
Qed.

Lemma resource_Read_stops_on_decode_error_witness :
  snd (run (Read (Samples.resource Samples.server)
              {| ReqState := MoreSamples.undecoded |})
         (fresh_Response (Some MoreSamples.stored) accept_all)) = [].
Proof.
  apply (@resource_Read_stops_on_decode_error
           (Samples.resource Samples.server)
           {| ReqState := MoreSamples.undecoded |}
           (fresh_Response (Some MoreSamples.stored) accept_all)
           (or_intror eq_refl)).
Defined.

(** X9.  [Create] does not stop when the plan cannot be decoded without an
    error: the certificate is still requested from the server and, when
    the server issues one and the schema accepts it, stored, although the
    operation ends with an error. *)
Theorem Create_proceeds_after_decode_error
    (r : certificateResource.t) (w : World) (req : CreateRequest)
    (resp : Resp) (certificates : client.Certificate) :
  Diagnostics_HasError (Get_diags (Plan req)) = true ->
  client.RequestCertificate (client r)
    (ValueString (CSR (Get_value (Plan req))))
    (ValueString (Template (Get_value (Plan req))))
    (ValueString (Attributes (Get_value (Plan req)))) = inl certificates ->
  Diagnostics_HasError
    (Schema_Diags (State resp)
       (created_model (Get_value (Plan req)) certificates (Now_RFC850 w)))
  = false ->
  remote_calls (snd (run (Create r w req) resp))
  = [CallRequestCertificate
       (ValueString (CSR (Get_value (Plan req))))
       (ValueString (Template (Get_value (Plan req))))
       (ValueString (Attributes (Get_value (Plan req))))]
  /\ Raw (State (fst (run (Create r w req) resp)))
     = Some (created_model (Get_value (Plan req)) certificates (Now_RFC850 w))
  /\ Diagnostics_HasError (Diagnostics (fst (run (Create r w req) resp)))
     = true.
Proof.
  intros Hget Hreq Hschema.
  rewrite Create_run. unfold create_answer. rewrite Hreq. cbv zeta.
  cbn [fst snd Diagnostics Response_WithDiagnostics RespDiagnostics State].
  unfold state_after_Set. rewrite Hschema. cbn [Raw].
  repeat split.
  - unfold create_log_before, create_call, remote_calls.
    destruct (Attributes (Get_value (Plan req))); reflexivity.
  - rewrite !HasError_Append, Hget, orb_true_r. reflexivity.
Qed.

Lemma Create_proceeds_after_decode_error_witness :
  remote_calls
    (snd (run (Create (Samples.resource Samples.server) Samples.world
                 {| Plan := MoreSamples.undecoded |})
            (fresh_Response None accept_all)))
  = [CallRequestCertificate "" "" ""]
  /\ Raw (State
           (fst (run (Create (Samples.resource Samples.server) Samples.world
                        {| Plan := MoreSamples.undecoded |})
                   (fresh_Response None accept_all))))
     = Some (created_model certificateResource.null_model Samples.certificate
               (Now_RFC850 Samples.world)).
Proof.
  destruct (@Create_proceeds_after_decode_error
              (Samples.resource Samples.server) Samples.world
              {| Plan := MoreSamples.undecoded |}
              (fresh_Response None accept_all) Samples.certificate
              eq_refl eq_refl eq_refl)
    as (Hcalls & Hstate & _).
  split; [exact Hcalls | exact Hstate].
Defined.

(** X11.  A successful [Read] of the resource rewrites only [id],
    [certificate_b64] and [certificate_chain_b64]: the signing request,
    the template, the attributes and [last_updated] stay as they were in
    the state, and [id] becomes the identifier the server answered with,
    which need not be the one looked up. *)
Theorem resource_Read_frame
    (r : certificateResource.t) (req : ReadRequest) (resp : Resp)
    (certificates : client.Certificate) :
  Diagnostics_HasError (RespDiagnostics resp) = false ->
  Diagnostics_HasError (Get_diags (ReqState req)) = false ->
  client.RetrieveCertificates (client r)
    (ValueString (ID (Get_value (ReqState req)))) = inl certificates ->
  (forall m, Diagnostics_HasError (Schema_Diags (State resp) m) = false) ->
  exists refreshed,
    Raw (State (fst (run (Read r req) resp))) = Some refreshed
    /\ CSR refreshed = CSR (Get_value (ReqState req))
    /\ Template refreshed = Template (Get_value (ReqState req))
    /\ Attributes refreshed = Attributes (Get_value (ReqState req))
    /\ LastUpdated refreshed = LastUpdated (Get_value (ReqState req))
    /\ ID refreshed = StringValue (client.ID certificates)
    /\ Diagnostics_HasError (Diagnostics (fst (run (Read r req) resp))) = false
    /\ snd (run (Read r req) resp)
       = [CallRetrieveCertificates
            (ValueString (ID (Get_value (ReqState req)))); CallStateSet].
Proof.
  intros Hresp Hget Hret Hschema.
  rewrite resource_Read_run. cbv zeta.
  rewrite HasError_Append, Hresp, Hget, Hret.
  cbn [orb fst snd Diagnostics Response_WithDiagnostics RespDiagnostics State].
  unfold state_after_Set. rewrite Hschema. cbn [Raw].
  eexists. split; [reflexivity|].
  repeat split.
  rewrite !HasError_Append, Hresp, Hget, Hschema. reflexivity.
Qed.

Lemma resource_Read_frame_witness :
  exists refreshed,
    Raw (State
           (fst (run (Read (Samples.resource Samples.server)
                        {| ReqState := decoded MoreSamples.stored |})
                   (fresh_Response (Some MoreSamples.stored) accept_all))))
    = Some refreshed
    /\ CSR refreshed = StringValue "SGVsbG8="
    /\ LastUpdated refreshed = StringValue "Monday, 02-Nov-26 15:04:05 UTC".
Proof.
  destruct (@resource_Read_frame
              (Samples.resource Samples.server)
              {| ReqState := decoded MoreSamples.stored |}
              (fresh_Response (Some MoreSamples.stored) accept_all)
              Samples.certificate eq_refl eq_refl eq_refl (fun _ => eq_refl))
    as (refreshed & Hraw & Hcsr & _ & _ & Hlast & _).
  exists refreshed. split; [exact Hraw|]. split; [exact Hcsr | exact Hlast].
Defined.

End ResourceExtras.

(* ================================================================= *)
(** ** How the operations compose *)

Section Composition.

Lemma ImportState_run (r : certificateResource.t)
    (req : certificateResource.ImportStateRequest)
    (schema : certificateCreateModel.t -> DiagnosticsT) :
  run (certificateResource.ImportState r req) (fresh_Response None schema)
  = let m := imported_model (certificateResource.ImportID req) in
    ({| State := state_after_Set {| Raw := None; Schema_Diags := schema |} m;
        RespDiagnostics := Diagnostics_Append [] (schema m) |},
     [CallStateSet]).
Proof.
  cbv zeta.
  unfold certificateResource.ImportState, State_SetAttribute, imported_model,
    state_after_Set, fresh_Response, certificateResource.null_model.
  unfold_ops. cbn.
  case_HasError; reflexivity.
Qed.

(** X10.  The data source's [Read] does not stop when the configuration
    cannot be decoded without an error: the server is still asked and,
    when it answers with a certificate and the schema accepts it, the
    certificate is stored, although the operation ends with an error. *)
Theorem data_source_Read_proceeds_after_decode_error
    (d : certificateDataSource.t) (req : certificateDataSource.ReadRequest)
    (resp : certificateDataSource.Resp) (certificates : client.Certificate) :
  Diagnostics_HasError (Get_diags (certificateDataSource.Config req)) = true ->
  client.RetrieveCertificates (certificateDataSource.client d)
    (ValueString (certificateModel.ID
                    (Get_value (certificateDataSource.Config req))))
  = inl certificates ->
  Diagnostics_HasError
    (Schema_Diags (State resp) (looked_up_model certificates)) = false ->
  snd (run (certificateDataSource.Read d req) resp)
  = [CallRetrieveCertificates
       (ValueString (certificateModel.ID
                       (Get_value (certificateDataSource.Config req))));
     CallStateSet]
  /\ Raw (State (fst (run (certificateDataSource.Read d req) resp)))
     = Some (looked_up_model certificates)
  /\ Diagnostics_HasError
       (Diagnostics (fst (run (certificateDataSource.Read d req) resp)))
     = true.
Proof.
  intros Hget Hret Hschema.
  rewrite data_source_Read_run. cbv zeta. rewrite Hret.
  cbn [fst snd Diagnostics Response_WithDiagnostics RespDiagnostics State].
  unfold state_after_Set. rewrite Hschema. cbn [Raw].
  repeat split.
  rewrite !HasError_Append, Hget, orb_true_r. reflexivity.
Qed.

Lemma data_source_Read_proceeds_after_decode_error_witness :
  Raw (State
         (fst (run (certificateDataSource.Read
                      (Samples.data_source Samples.server)
                      {| certificateDataSource.Config :=
                           MoreSamples.badly_decoded
                             MoreSamples.null_lookup;
                         certificateDataSource.reqID_address := 824634253952 |})
                 (fresh_Response None accept_all))))
  = Some (looked_up_model Samples.certificate).
Proof.
  apply (@data_source_Read_proceeds_after_decode_error
           (Samples.data_source Samples.server)
           {| certificateDataSource.Config :=
                MoreSamples.badly_decoded MoreSamples.null_lookup;
              certificateDataSource.reqID_address := 824634253952 |}
           (fresh_Response None accept_all) Samples.certificate
           eq_refl eq_refl eq_refl).
Defined.

(** X12.  When the server, asked for the identifier it answered with,
    returns that same certificate again, [Read] is idempotent: a second
    [Read], run on the state the first one stored (and so looking up the
    identifier of the certificate first returned), stores that same state
    again. *)
Theorem resource_Read_idempotent
    (r : certificateResource.t) (req : certificateResource.ReadRequest)
    (resp : certificateResource.Resp) (certificates : client.Certificate) :
  Diagnostics_HasError (RespDiagnostics resp) = false ->
  Diagnostics_HasError (Get_diags (certificateResource.ReqState req)) = false ->
  client.RetrieveCertificates (certificateResource.client r)
    (ValueString (certificateCreateModel.ID
                    (Get_value (certificateResource.ReqState req))))
  = inl certificates ->
  client.RetrieveCertificates (certificateResource.client r)
    (client.ID certificates) = inl certificates ->
  (forall m, Diagnostics_HasError (Schema_Diags (State resp) m) = false) ->
  exists refreshed,
    Raw (State (fst (run (certificateResource.Read r req) resp)))
    = Some refreshed
    /\ Raw (State (fst (run
         (certificateResource.Read r
            {| certificateResource.ReqState := decoded refreshed |})
         (fresh_Response (Some refreshed) (Schema_Diags (State resp))))))
       = Some refreshed.
Proof.
  intros Hresp Hget Hret Hstable Hschema.
  exists (refreshed_model (Get_value (certificateResource.ReqState req))
            certificates).
  rewrite !resource_Read_run. cbv zeta.
  rewrite HasError_Append, Hresp, Hget, Hret.
  cbn [orb fst State fresh_Response decoded certificateResource.ReqState
       Get_value Get_diags RespDiagnostics Diagnostics_Append Schema_Diags].
  change (Diagnostics_HasError []) with false. cbv iota.
  cbn [refreshed_model certificateCreateModel.ID ValueString].
  rewrite Hstable. cbn [fst State]. unfold state_after_Set.
  cbn [Schema_Diags]. rewrite !Hschema. cbn [Raw].
  split; reflexivity.
Qed.

Lemma resource_Read_idempotent_witness :
  exists refreshed,
    Raw (State
           (fst (run (certificateResource.Read (Samples.resource Samples.server)
                        {| certificateResource.ReqState :=
                             decoded MoreSamples.stored |})
                   (fresh_Response (Some MoreSamples.stored) accept_all))))
    = Some refreshed
    /\ Raw (State (fst (run
         (certificateResource.Read (Samples.resource Samples.server)
            {| certificateResource.ReqState := decoded refreshed |})
         (fresh_Response (Some refreshed) accept_all))))
       = Some refreshed.
Proof.
  apply (@resource_Read_idempotent
           (Samples.resource Samples.server)
           {| certificateResource.ReqState := decoded MoreSamples.stored |}
           (fresh_Response (Some MoreSamples.stored) accept_all)
           Samples.certificate eq_refl eq_refl eq_refl eq_refl
           (fun _ => eq_refl)).
Defined.

(** X13.  A data-source [Read] of the identifier that [Create] stored,
    against a server that returns the certificate it issued, stores the
    very identifier, certificate and chain that [Create] stored. *)
Theorem data_source_Read_agrees_with_Create
    (r : certificateResource.t) (d : certificateDataSource.t) (w : World)
    (req : certificateResource.CreateRequest)
    (resp : certificateResource.Resp)
    (dreq : certificateDataSource.ReadRequest)
    (dresp : certificateDataSource.Resp)
    (certificates : client.Certificate) :
  client.RequestCertificate (certificateResource.client r)
    (ValueString (certificateCreateModel.CSR
                    (Get_value (certificateResource.Plan req))))
    (ValueString (certificateCreateModel.Template
                    (Get_value (certificateResource.Plan req))))
    (ValueString (certificateCreateModel.Attributes
                    (Get_value (certificateResource.Plan req))))
  = inl certificates ->
  client.RetrieveCertificates (certificateDataSource.client d)
    (client.ID certificates) = inl certificates ->
  (forall m, Diagnostics_HasError (Schema_Diags (State resp) m) = false) ->
  (forall m, Diagnostics_HasError (Schema_Diags (State dresp) m) = false) ->
  certificateModel.ID (Get_value (certificateDataSource.Config dreq))
  = StringValue (client.ID certificates) ->
  exists created looked_up,
    Raw (State (fst (run (certificateResource.Create r w req) resp)))
    = Some created
    /\ certificateCreateModel.ID created
       = certificateModel.ID (Get_value (certificateDataSource.Config dreq))
    /\ Raw (State (fst (run (certificateDataSource.Read d dreq) dresp)))
       = Some looked_up
    /\ certificateModel.ID looked_up = certificateCreateModel.ID created
    /\ certificateModel.CertificateB64 looked_up
       = certificateCreateModel.CertificateB64 created
    /\ certificateModel.CertificateChainB64 looked_up
       = certificateCreateModel.CertificateChainB64 created.
Proof.
  intros Hreq Hret Hschema Hdschema Hid.
  assert (Hcreated :
    Raw (State (fst (run (certificateResource.Create r w req) resp)))
    = Some (created_model (Get_value (certificateResource.Plan req))
              certificates (Now_RFC850 w))).
  { rewrite Create_run. unfold create_answer. rewrite Hreq.
    cbn [fst State]. unfold state_after_Set. now rewrite Hschema. }
  exists (created_model (Get_value (certificateResource.Plan req))
            certificates (Now_RFC850 w)), (looked_up_model certificates).
  split; [exact Hcreated|].
  split; [now rewrite Hid|].
  rewrite data_source_Read_run. cbv zeta. rewrite Hid.
  cbn [ValueString].
  rewrite Hret. cbn [fst State]. unfold state_after_Set.
  rewrite Hdschema. repeat split.
Qed.

Lemma data_source_Read_agrees_with_Create_witness :
  exists created looked_up,
    Raw (State
           (fst (run (certificateResource.Create
                        (Samples.resource Samples.server) Samples.world
                        Samples.create_request)
                   (fresh_Response None accept_all)))) = Some created
    /\ Raw (State
              (fst (run (certificateDataSource.Read
                           (Samples.data_source Samples.server)
                           (Samples.lookup (StringValue "525135")))
                      (fresh_Response None accept_all)))) = Some looked_up
    /\ certificateModel.CertificateB64 looked_up
       = certificateCreateModel.CertificateB64 created.
Proof.
  destruct (@data_source_Read_agrees_with_Create
              (Samples.resource Samples.server)
              (Samples.data_source Samples.server) Samples.world
              Samples.create_request (fresh_Response None accept_all)
              (Samples.lookup (StringValue "525135"))
              (fresh_Response None accept_all) Samples.certificate
              eq_refl eq_refl (fun _ => eq_refl) (fun _ => eq_refl) eq_refl)
    as (created & looked_up & Hc & _ & Hl & _ & Hcert & _).
  exists created, looked_up.
  split; [exact Hc|]. split; [exact Hl | exact Hcert].
Defined.

(** X14.  Importing an identifier and then reading: [ImportState] stores
    a state in which only [id] is set, to the identifier given; the [Read]
    that follows looks up exactly that identifier and fills in the
    certificate and the chain, while the signing request, the template,
    the attributes and [last_updated] remain null. *)
Theorem Read_after_ImportState
    (r : certificateResource.t) (id : string)
    (schema : certificateCreateModel.t -> DiagnosticsT)
    (certificates : client.Certificate) :
  (forall m, Diagnostics_HasError (schema m) = false) ->
  client.RetrieveCertificates (certificateResource.client r) id
  = inl certificates ->
  exists imported refreshed,
    run (certificateResource.ImportState r
           {| certificateResource.ImportID := id |})
        (fresh_Response None schema)
    = ({| State := {| Raw := Some imported; Schema_Diags := schema |};
          RespDiagnostics := Diagnostics_Append [] (schema imported) |},
       [CallStateSet])
    /\ certificateCreateModel.ID imported = StringValue id
    /\ certificateCreateModel.CSR imported = StringNull
    /\ certificateCreateModel.Template imported = StringNull
    /\ certificateCreateModel.Attributes imported = StringNull
    /\ certificateCreateModel.CertificateB64 imported = StringNull
    /\ certificateCreateModel.CertificateChainB64 imported = StringNull
    /\ certificateCreateModel.LastUpdated imported = StringNull
    /\ snd (run (certificateResource.Read r
                   {| certificateResource.ReqState := decoded imported |})
              (fresh_Response (Some imported) schema))
       = [CallRetrieveCertificates id; CallStateSet]
    /\ Raw (State (fst (run
          (certificateResource.Read r
             {| certificateResource.ReqState := decoded imported |})
          (fresh_Response (Some imported) schema)))) = Some refreshed
    /\ certificateCreateModel.ID refreshed = StringValue (client.ID certificates)
    /\ certificateCreateModel.CertificateB64 refreshed
       = StringValue (without_backslash_r (client.CertificateB64 certificates))
    /\ certificateCreateModel.CertificateChainB64 refreshed
       = StringValue
           (without_backslash_r (client.CertificateChainB64 certificates))
    /\ certificateCreateModel.CSR refreshed = StringNull
    /\ certificateCreateModel.Template refreshed = StringNull
    /\ certificateCreateModel.Attributes refreshed = StringNull
    /\ certificateCreateModel.LastUpdated refreshed = StringNull.
Proof.
  intros Hschema Hret.
  exists (imported_model id), (refreshed_model (imported_model id) certificates).
  rewrite ImportState_run. cbv zeta.
  cbn [certificateResource.ImportID]. unfold state_after_Set at 1.
  cbn [Schema_Diags]. rewrite Hschema.
  split; [reflexivity|]. do 7 (split; [reflexivity|]).
  rewrite resource_Read_run. cbv zeta.
  cbn [fresh_Response decoded certificateResource.ReqState Get_value Get_diags
       RespDiagnostics Diagnostics_Append State Schema_Diags].
  change (Diagnostics_HasError []) with false. cbv iota.
  cbn [imported_model certificateCreateModel.ID ValueString].
  rewrite Hret. cbn [fst snd State]. unfold state_after_Set.
  cbn [Schema_Diags]. rewrite Hschema. cbn [Raw].
  split; [reflexivity|]. split; [reflexivity|].
  cbn [refreshed_model certificateCreateModel.ID
       certificateCreateModel.CertificateB64
       certificateCreateModel.CertificateChainB64
       certificateCreateModel.CSR certificateCreateModel.Template
       certificateCreateModel.Attributes certificateCreateModel.LastUpdated].
  rewrite !Replace_backslash_r. repeat split.
Qed.

Lemma Read_after_ImportState_witness :
  exists imported refreshed,
    Raw (State (fst (run
      (certificateResource.ImportState (Samples.resource Samples.server)
         {| certificateResource.ImportID := "525135" |})
      (fresh_Response None accept_all)))) = Some imported
    /\ Raw (State (fst (run
          (certificateResource.Read (Samples.resource Samples.server)
             {| certificateResource.ReqState := decoded imported |})
          (fresh_Response (Some imported) accept_all)))) = Some refreshed
    /\ certificateCreateModel.CertificateB64 refreshed
       = StringValue "MIIDdzCCAl+gAwIBAgIE"
    /\ certificateCreateModel.CSR refreshed = StringNull.
Proof.
  destruct (@Read_after_ImportState
              (Samples.resource Samples.server) "525135" accept_all
              Samples.certificate (fun _ => eq_refl) eq_refl)
    as (imported & refreshed & Himp & _ & _ & _ & _ & _ & _ & _ & _ & Hraw
        & _ & Hcert & _ & Hcsr & _).
  exists imported, refreshed.
  split; [now rewrite Himp|]. split; [exact Hraw|].
  split; [exact Hcert | exact Hcsr].
Defined.

Lemma Read_models_agree_iff
    (state : certificateCreateModel.t) (certificates : client.Certificate) :
  (certificateCreateModel.CertificateB64 (refreshed_model state certificates)
   = certificateModel.CertificateB64 (looked_up_model certificates)
   /\ certificateCreateModel.CertificateChainB64
        (refreshed_model state certificates)
      = certificateModel.CertificateChainB64 (looked_up_model certificates))
  <-> (strings.Contains (client.CertificateB64 certificates) backslash_r = false
       /\ strings.Contains (client.CertificateChainB64 certificates) backslash_r
          = false).
Proof.
  cbn [refreshed_model looked_up_model
       certificateCreateModel.CertificateB64
       certificateCreateModel.CertificateChainB64
       certificateModel.CertificateB64 certificateModel.CertificateChainB64].
  rewrite !Replace_backslash_r.
  split.
  - intros [Hcert Hchain]. injection Hcert as Hcert. injection Hchain as Hchain.
    split.
    + destruct (strings.Contains (client.CertificateB64 certificates)
                  backslash_r) eqn:E; [|reflexivity].
      now destruct (without_backslash_r_changes E).
    + destruct (strings.Contains (client.CertificateChainB64 certificates)
                  backslash_r) eqn:E; [|reflexivity].
      now destruct (without_backslash_r_changes E).
  - intros [Hcert Hchain].
    now rewrite (without_backslash_r_free _ Hcert),
      (without_backslash_r_free _ Hchain).
Qed.

(** X19.  For a certificate the server returns for an identifier, the
    resource's [Read] and the data source's [Read] store the same
    certificate and chain exactly when neither text contains the
    backslash-r sequence. *)
Theorem Read_paths_agree_exactly_when
    (c : client.ADCSClient) (id : string) (certificates : client.Certificate)
    (rreq : certificateResource.ReadRequest)
    (rresp : certificateResource.Resp)
    (dreq : certificateDataSource.ReadRequest)
    (dresp : certificateDataSource.Resp) :
  client.RetrieveCertificates c id = inl certificates ->
  ValueString (certificateCreateModel.ID
                 (Get_value (certificateResource.ReqState rreq))) = id ->
  ValueString (certificateModel.ID
                 (Get_value (certificateDataSource.Config dreq))) = id ->
  Diagnostics_HasError (RespDiagnostics rresp) = false ->
  Diagnostics_HasError (Get_diags (certificateResource.ReqState rreq)) = false ->
  (forall m, Diagnostics_HasError (Schema_Diags (State rresp) m) = false) ->
  (forall m, Diagnostics_HasError (Schema_Diags (State dresp) m) = false) ->
  exists stored_r stored_d,
    Raw (State (fst (run
      (certificateResource.Read {| certificateResource.client := c |} rreq)
      rresp))) = Some stored_r
    /\ Raw (State (fst (run
      (certificateDataSource.Read {| certificateDataSource.client := c |} dreq)
      dresp))) = Some stored_d
    /\ ((certificateCreateModel.CertificateB64 stored_r
         = certificateModel.CertificateB64 stored_d
         /\ certificateCreateModel.CertificateChainB64 stored_r
            = certificateModel.CertificateChainB64 stored_d)
        <-> (strings.Contains (client.CertificateB64 certificates) backslash_r
             = false
             /\ strings.Contains (client.CertificateChainB64 certificates)
                  backslash_r = false)).
Proof.
  intros Hc Hr Hd Hresp Hget Hschema_r Hschema_d.
  rewrite resource_Read_run, data_source_Read_run. cbv zeta.
  rewrite HasError_Append, Hresp, Hget. cbn [orb].
  cbn [certificateResource.client certificateDataSource.client].
  rewrite Hr, Hd, Hc.
  cbn [fst State]. unfold state_after_Set.
  rewrite Hschema_r, Hschema_d. cbn [Raw].
  exists (refreshed_model (Get_value (certificateResource.ReqState rreq))
            certificates), (looked_up_model certificates).
  split; [reflexivity|]. split; [reflexivity|].
  apply Read_models_agree_iff.
Qed.

Lemma Read_paths_agree_exactly_when_witness :
  exists stored_r stored_d,
    Raw (State (fst (run
      (certificateResource.Read (Samples.resource Samples.server)
         {| certificateResource.ReqState := decoded MoreSamples.stored |})
      (fresh_Response (Some MoreSamples.stored) accept_all)))) = Some stored_r
    /\ Raw (State (fst (run
      (certificateDataSource.Read (Samples.data_source Samples.server)
         (Samples.lookup (StringValue "525135")))
      (fresh_Response None accept_all)))) = Some stored_d
    /\ certificateCreateModel.CertificateChainB64 stored_r
       = certificateModel.CertificateChainB64 stored_d.
Proof.
  destruct (@Read_paths_agree_exactly_when
              Samples.server "525135" Samples.certificate
              {| certificateResource.ReqState := decoded MoreSamples.stored |}
              (fresh_Response (Some MoreSamples.stored) accept_all)
              (Samples.lookup (StringValue "525135"))
              (fresh_Response None accept_all)
              eq_refl eq_refl eq_refl eq_refl eq_refl
              (fun _ => eq_refl) (fun _ => eq_refl))
    as (sr & sd & Hr & Hd & _).
  exists sr, sd. split; [exact Hr|]. split; [exact Hd|].
  injection Hr as <-. injection Hd as <-. reflexivity.
Defined.

End Composition.

(* ================================================================= *)
(** ** Schemas, replacement and type names *)

Section SchemaFacts.

Lemma TString_Equal_spec (a b : TString) :
  TString_Equal a b = true <-> a = b.
Proof.
  destruct a as [| |x], b as [| |y]; cbn; split; try congruence; try reflexivity.
  - intros H. apply String.eqb_eq in H. now subst.
  - intros H. injection H as ->. apply String.eqb_refl.
Qed.

Lemma TString_not_Equal (a b : TString) :
  negb (TString_Equal a b) = true <-> a <> b.
Proof.
  rewrite negb_true_iff, <- not_true_iff_false, TString_Equal_spec. tauto.
Qed.

Lemma requires_replace_iff (state plan : certificateCreateModel.t) :
  requires_replace certificateResource.Schema certificateResource.tfsdk_field
    (Some state) (Some plan) = true
  <-> certificateCreateModel.CSR plan <> certificateCreateModel.CSR state
      \/ certificateCreateModel.Template plan
         <> certificateCreateModel.Template state
      \/ certificateCreateModel.Attributes plan
         <> certificateCreateModel.Attributes state.
Proof.
  unfold requires_replace, certificateResource.Schema.
  cbn [existsb fst snd PlanModifiers is_RequiresReplace andb orb].
  unfold certificateResource.tfsdk_field. cbn [String.eqb Ascii.eqb Bool.eqb].
  rewrite orb_false_r, !orb_true_iff, !TString_not_Equal.
  tauto.
Qed.

(** X16.  With the plan modifiers of the resource's schema, an existing
    resource is planned for replacement exactly when the planned signing
    request, template or attributes differ from the stored ones; the
    computed attributes never force it, and nothing is replaced on
    creation or destruction.  An in-place [Update] is therefore only ever
    planned with the three inputs unchanged. *)
Theorem inputs_force_replacement
    (state plan : certificateCreateModel.t) :
  (requires_replace certificateResource.Schema certificateResource.tfsdk_field
     (Some state) (Some plan) = true
   <-> certificateCreateModel.CSR plan <> certificateCreateModel.CSR state
       \/ certificateCreateModel.Template plan
          <> certificateCreateModel.Template state
       \/ certificateCreateModel.Attributes plan
          <> certificateCreateModel.Attributes state)
  /\ requires_replace certificateResource.Schema
       certificateResource.tfsdk_field None (Some plan) = false
  /\ requires_replace certificateResource.Schema
       certificateResource.tfsdk_field (Some state) None = false.
Proof.
  split; [apply requires_replace_iff|].
  split; reflexivity.
Qed.

(** X17.  A resource that was imported and read is always planned for
    replacement: in the state that [Read] stores when it runs on the state
    [ImportState] stored, the signing request is null, whatever the server
    returned, and a configuration has to set the signing request. *)
Theorem imported_resource_is_replaced
    (r : certificateResource.t) (id : string)
    (schema : certificateCreateModel.t -> DiagnosticsT)
    (certificates : client.Certificate)
    (plan : certificateCreateModel.t) :
  (forall m, Diagnostics_HasError (schema m) = false) ->
  client.RetrieveCertificates (certificateResource.client r) id
  = inl certificates ->
  IsNull (certificateCreateModel.CSR plan) = false ->
  exists imported,
    Raw (State (fst (run
      (certificateResource.ImportState r
         {| certificateResource.ImportID := id |})
      (fresh_Response None schema)))) = Some imported
    /\ requires_replace certificateResource.Schema
         certificateResource.tfsdk_field
         (Raw (State (fst (run
            (certificateResource.Read r
               {| certificateResource.ReqState := decoded imported |})
            (fresh_Response (Some imported) schema)))))
         (Some plan)
       = true.
Proof.
  intros Hschema Hret Hcsr.
  exists (imported_model id).
  rewrite ImportState_run. cbv zeta.
  cbn [certificateResource.ImportID fst State]. unfold state_after_Set at 1.
  cbn [Schema_Diags]. rewrite Hschema.
  split; [reflexivity|].
  rewrite resource_Read_run. cbv zeta.
  cbn [fresh_Response decoded certificateResource.ReqState Get_value Get_diags
       RespDiagnostics Diagnostics_Append State Schema_Diags].
  change (Diagnostics_HasError []) with false. cbv iota.
  cbn [imported_model certificateCreateModel.ID ValueString].
  rewrite Hret. cbn [fst State]. unfold state_after_Set.
  cbn [Schema_Diags]. rewrite Hschema. cbn [Raw].
  apply requires_replace_iff. left.
  cbn [refreshed_model certificateCreateModel.CSR].
  intros E. rewrite E in Hcsr. discriminate Hcsr.
Qed.

Lemma imported_resource_is_replaced_witness :
  exists imported,
    Raw (State (fst (run
      (certificateResource.ImportState (Samples.resource Samples.server)
         {| certificateResource.ImportID := "525135" |})
      (fresh_Response None accept_all)))) = Some imported
    /\ requires_replace certificateResource.Schema
         certificateResource.tfsdk_field
         (Raw (State (fst (run
            (certificateResource.Read (Samples.resource Samples.server)
               {| certificateResource.ReqState := decoded imported |})
            (fresh_Response (Some imported) accept_all)))))
         (Some Samples.plan)
       = true.
Proof.
  apply (@imported_resource_is_replaced
           (Samples.resource Samples.server) "525135" accept_all
           Samples.certificate Samples.plan
           (fun _ => eq_refl) eq_refl eq_refl).
Defined.

Lemma NoDup_strings (l : list string) :
  (fix distinct (l : list string) : bool :=
     match l with
     | [] => true
     | x :: rest => negb (existsb (String.eqb x) rest) && distinct rest
     end) l = true ->
  NoDup l.
Proof.
  induction l as [|x rest IH]; intros H; constructor.
  - apply andb_prop in H. destruct H as [H _].
    intros Hin. apply negb_true_iff in H.
    assert (E : existsb (String.eqb x) rest = true)
      by (apply existsb_exists; exists x; split;
          [assumption | apply String.eqb_refl]).
    congruence.
  - apply IH. apply andb_prop in H. now destruct H.
Qed.

Lemma same_names (a b : list string) :
  forallb (fun x => existsb (String.eqb x) b) a = true ->
  forallb (fun x => existsb (String.eqb x) a) b = true ->
  forall name, In name a <-> In name b.
Proof.
  intros Hab Hba name. rewrite forallb_forall in Hab, Hba. split; intros Hin.
  - apply Hab in Hin. apply existsb_exists in Hin.
    destruct Hin as [y [Hy E]]. apply String.eqb_eq in E. now subst.
  - apply Hba in Hin. apply existsb_exists in Hin.
    destruct Hin as [y [Hy E]]. apply String.eqb_eq in E. now subst.
Qed.

(** X15.  Each of the three schemas declares exactly the attributes its
    model struct carries as [tfsdk] tags, each name once, so that decoding
    into the model and storing from it meet no missing or extra field; and
    every attribute is well formed: required, optional or computed, and
    never required together with optional or computed. *)
Theorem schemas_match_models :
  matches_tags certificateResource.Schema certificateResource.tfsdk_tags
  /\ matches_tags certificateDataSource.Schema certificateDataSource.tfsdk_tags
  /\ matches_tags MicrosoftADCSProvider.Schema MicrosoftADCSProvider.tfsdk_tags
  /\ forallb well_formed
       (map snd (certificateResource.Schema ++ certificateDataSource.Schema
                   ++ MicrosoftADCSProvider.Schema)) = true.
Proof.
  unfold matches_tags.
  repeat split;
    try (apply NoDup_strings; reflexivity);
    try (revert name; apply same_names; reflexivity).
Qed.

(** X18.  Whatever its version, the provider reports that version and the
    type name microsoftadcs, and every resource and data source it
    registers takes the type name microsoftadcs_certificate from it. *)
Theorem registered_type_names (version : string)
    (presp : MicrosoftADCSProvider.ProviderMetadataResponse)
    (resp : MetadataResponse) (reg : MicrosoftADCSProvider.Registered) :
  In reg (MicrosoftADCSProvider.Resources (MicrosoftADCSProvider.New version tt)
          ++ MicrosoftADCSProvider.DataSources
               (MicrosoftADCSProvider.New version tt)) ->
  MicrosoftADCSProvider.Version
    (MicrosoftADCSProvider.Metadata (MicrosoftADCSProvider.New version tt) presp)
  = version
  /\ TypeName
       (MicrosoftADCSProvider.metadata reg
          {| ProviderTypeName :=
               MicrosoftADCSProvider.TypeName
                 (MicrosoftADCSProvider.Metadata
                    (MicrosoftADCSProvider.New version tt) presp) |}
          resp)
     = "microsoftadcs_certificate"
  /\ MicrosoftADCSProvider.new_client_field reg = None.
Proof.
  intros [<- | [<- | []]]; repeat split.
Qed.

Lemma registered_type_names_witness :
  TypeName
    (certificateResource.Metadata {| ProviderTypeName := "microsoftadcs" |}
       {| TypeName := "" |})
  = "microsoftadcs_certificate".
Proof.
  exact (proj1 (proj2
    (@registered_type_names "test"
       {| MicrosoftADCSProvider.TypeName := "";
          MicrosoftADCSProvider.Version := "" |}
       {| TypeName := "" |}
       {| MicrosoftADCSProvider.new_client_field :=
            certificateResource.NewCertificateResource;
          MicrosoftADCSProvider.metadata := certificateResource.Metadata;
          MicrosoftADCSProvider.schema := certificateResource.Schema |}
       (or_introl eq_refl)))).
Defined.

End SchemaFacts.

(* ================================================================= *)
(** ** The acceptance pre-check and the provider *)

Section PreCheck.
Import MicrosoftADCSProviderModel MicrosoftADCSProvider provider_test.

Lemma testAccPreCheck_run (w : World) :
  run (testAccPreCheck w) fresh_T =
  if String.eqb (Getenv w "ADCS_HOST") ""
  then ({| Failed := true;
           Output := ["ADCS_HOST must be set for acceptance tests"] |},
        [CallGetenv "ADCS_HOST"])
  else if String.eqb (Getenv w "ADCS_USERNAME") ""
  then ({| Failed := true;
           Output := ["ADCS_USERNAME must be set for acceptance tests"] |},
        [CallGetenv "ADCS_HOST"; CallGetenv "ADCS_USERNAME"])
  else if String.eqb (Getenv w "ADCS_PASSWORD") ""
  then ({| Failed := true;
           Output := ["ADCS_PASSWORD must be set for acceptance tests"] |},
        [CallGetenv "ADCS_HOST"; CallGetenv "ADCS_USERNAME";
         CallGetenv "ADCS_PASSWORD"])
  else (fresh_T,
        [CallGetenv "ADCS_HOST"; CallGetenv "ADCS_USERNAME";
         CallGetenv "ADCS_PASSWORD"]).
Proof.
  unfold testAccPreCheck, t_Fatal, fresh_T. unfold_ops. cbn.
  destruct (String.eqb (Getenv w "ADCS_HOST") ""); cbn; [reflexivity|].
  destruct (String.eqb (Getenv w "ADCS_USERNAME") ""); cbn; [reflexivity|].
  destruct (String.eqb (Getenv w "ADCS_PASSWORD") ""); reflexivity.
Qed.

Lemma resolved_providerConfig (w : World) :
  resolved w providerConfig
  = {| host := Getenv w "ADCS_HOST";
       username := Getenv w "ADCS_USERNAME";
       password := Getenv w "ADCS_PASSWORD";
       krb5conf := Getenv w "ADCS_KRB5CONF";
       useNtlm := true |}.
Proof. reflexivity. Qed.

(** X20.  [testAccPreCheck] lets a test go on exactly when ADCS_HOST,
    ADCS_USERNAME and ADCS_PASSWORD are all set to non-empty values, and
    otherwise stops it at the first one that is not, with that one
    message.  It lets the test go on exactly when the provider's
    [Configure], run on the configuration of the acceptance tests, gets
    as far as calling [client.NewClient]; the client is then built from
    the environment's values with NTLM switched on. *)
Theorem testAccPreCheck_guards_Configure
    (p : MicrosoftADCSProvider.t) (w : World) :
  (Failed (fst (run (testAccPreCheck w) fresh_T)) = false
   <-> Getenv w "ADCS_HOST" <> "" /\ Getenv w "ADCS_USERNAME" <> ""
       /\ Getenv w "ADCS_PASSWORD" <> "")
  /\ run (testAccPreCheck w) fresh_T
     = (if String.eqb (Getenv w "ADCS_HOST") ""
        then ({| Failed := true;
                 Output := ["ADCS_HOST must be set for acceptance tests"] |},
              [CallGetenv "ADCS_HOST"])
        else if String.eqb (Getenv w "ADCS_USERNAME") ""
        then ({| Failed := true;
                 Output := ["ADCS_USERNAME must be set for acceptance tests"] |},
              [CallGetenv "ADCS_HOST"; CallGetenv "ADCS_USERNAME"])
        else if String.eqb (Getenv w "ADCS_PASSWORD") ""
        then ({| Failed := true;
                 Output := ["ADCS_PASSWORD must be set for acceptance tests"] |},
              [CallGetenv "ADCS_HOST"; CallGetenv "ADCS_USERNAME";
               CallGetenv "ADCS_PASSWORD"])
        else ({| Failed := false; Output := [] |},
              [CallGetenv "ADCS_HOST"; CallGetenv "ADCS_USERNAME";
               CallGetenv "ADCS_PASSWORD"]))
  /\ (Getenv w "ADCS_HOST" = "" ->
      Output (fst (run (testAccPreCheck w) fresh_T))
      = ["ADCS_HOST must be set for acceptance tests"])
  /\ (Getenv w "ADCS_HOST" <> "" -> Getenv w "ADCS_USERNAME" = "" ->
      Output (fst (run (testAccPreCheck w) fresh_T))
      = ["ADCS_USERNAME must be set for acceptance tests"])
  /\ (Getenv w "ADCS_HOST" <> "" -> Getenv w "ADCS_USERNAME" <> "" ->
      Getenv w "ADCS_PASSWORD" = "" ->
      Output (fst (run (testAccPreCheck w) fresh_T))
      = ["ADCS_PASSWORD must be set for acceptance tests"])
  /\ (Failed (fst (run (testAccPreCheck w) fresh_T)) = false ->
      Output (fst (run (testAccPreCheck w) fresh_T)) = [])
  /\ (Failed (fst (run (testAccPreCheck w) fresh_T)) = false
      <-> filter is_NewClient
            (snd (run (Configure p w test_configure_request)
                    fresh_ConfigureResponse))
          = [CallNewClient
               {| client.Host := Getenv w "ADCS_HOST";
                  client.Username := Getenv w "ADCS_USERNAME";
                  client.Password := Getenv w "ADCS_PASSWORD";
                  client.Krb5Conf := Getenv w "ADCS_KRB5CONF";
                  client.Ntlm := true |}]).
Proof.
  rewrite !testAccPreCheck_run.
  rewrite (Configure_run_clean p w test_configure_request
             fresh_ConfigureResponse eq_refl eq_refl).
  cbv zeta. cbn [test_configure_request Config decoded Get_value Get_diags].
  rewrite resolved_providerConfig.
  change (any_unknown providerConfig) with false. cbv iota.
  unfold any_missing, clientConfig_of, fresh_T.
  cbn [host username password krb5conf useNtlm].
  destruct (String.eqb_spec (Getenv w "ADCS_HOST") "") as [Eh|Eh];
    [|destruct (String.eqb_spec (Getenv w "ADCS_USERNAME") "") as [Eu|Eu];
      [|destruct (String.eqb_spec (Getenv w "ADCS_PASSWORD") "") as [Ep|Ep];
        [|destruct (NewClient w
                      {| client.Host := Getenv w "ADCS_HOST";
                         client.Username := Getenv w "ADCS_USERNAME";
                         client.Password := Getenv w "ADCS_PASSWORD";
                         client.Krb5Conf := Getenv w "ADCS_KRB5CONF";
                         client.Ntlm := true |})]]];
    cbn [orb fst snd Failed Output filter is_NewClient app
         getenv_calls log_configuring log_creating log_configured];
    repeat match goal with
           | |- _ /\ _ => split
           | |- _ <-> _ => split
           end;
    intros; try reflexivity; try discriminate; try congruence;
    try (intuition congruence).
Qed.

End PreCheck.

Section UncheckedAttributes.
Import MicrosoftADCSProviderModel MicrosoftADCSProvider.

(** X21.  An unknown [krb5conf] is neither reported nor replaced by the
    environment: with host, username and password known and non-empty,
    [Configure] calls [client.NewClient] with an empty Kerberos
    configuration path, whatever ADCS_KRB5CONF says, and with NTLM off
    unless [use_ntlm] is a known true; when the constructor succeeds no
    diagnostic is added. *)
Theorem Configure_unknown_krb5conf_is_empty
    (p : MicrosoftADCSProvider.t) (w : World) (req : ConfigureRequest)
    (resp : ConfigureResponse) :
  Diagnostics_HasError (ConfDiagnostics resp) = false ->
  Diagnostics_HasError (Get_diags (Config req)) = false ->
  any_unknown (Get_value (Config req)) = false ->
  any_missing (resolved w (Get_value (Config req))) = false ->
  Krb5Conf (Get_value (Config req)) = StringUnknown ->
  exists cfg,
    filter is_NewClient (snd (run (Configure p w req) resp))
    = [CallNewClient cfg]
    /\ client.Krb5Conf cfg = ""
    /\ client.Ntlm cfg
       = match Ntlm (Get_value (Config req)) with
         | BoolValue b => b
         | _ => false
         end
    /\ forall c, NewClient w cfg = inl c ->
         ConfDiagnostics (fst (run (Configure p w req) resp))
         = Diagnostics_Append (ConfDiagnostics resp) (Get_diags (Config req)).
Proof.
  intros Hresp Hget Hu Hm Hkrb.
  rewrite (Configure_run_clean p w req resp Hresp Hget). cbv zeta.
  rewrite Hu, Hm.
  exists (clientConfig_of (resolved w (Get_value (Config req)))).
  assert (Hcfg : client.Krb5Conf
                   (clientConfig_of (resolved w (Get_value (Config req)))) = ""
                 /\ client.Ntlm
                      (clientConfig_of (resolved w (Get_value (Config req))))
                    = match Ntlm (Get_value (Config req)) with
                      | BoolValue b => b
                      | _ => false
                      end).
  { unfold clientConfig_of, resolved.
    cbn [client.Krb5Conf client.Ntlm krb5conf useNtlm]. rewrite Hkrb.
    split; [reflexivity|]. now destruct (Ntlm (Get_value (Config req))). }
  destruct Hcfg as [Hk Hn].
  destruct (NewClient w _) as [c|err];
    cbn [fst snd with_ConfDiagnostics ConfDiagnostics];
    (split; [reflexivity|]); (split; [exact Hk|]); (split; [exact Hn|]).
  - intros c' _. reflexivity.
  - intros c' E. discriminate E.
Qed.

Lemma Configure_unknown_krb5conf_is_empty_witness :
  Getenv Samples.world "ADCS_KRB5CONF" = "/etc/krb5.conf"
  /\ exists cfg,
       filter is_NewClient
         (snd (run (Configure Samples.provider Samples.world
                      (Samples.configure_request
                         MoreSamples.config_unknown_krb5conf))
                 Samples.provider_response))
       = [CallNewClient cfg]
       /\ client.Krb5Conf cfg = "".
Proof.
  split; [reflexivity|].
  destruct (@Configure_unknown_krb5conf_is_empty
              Samples.provider Samples.world
              (Samples.configure_request MoreSamples.config_unknown_krb5conf)
              Samples.provider_response
              eq_refl eq_refl eq_refl eq_refl eq_refl)
    as (cfg & Hcall & Hk & _).
  exists cfg. split; [exact Hcall | exact Hk].
Defined.

End UncheckedAttributes.
